(** * ParaStell orchestration layer ([parastell/parastell.py])

    A shallow embedding of the [Stellarator] class and of the command line
    entry point [parastell]: configuration dictionaries with defaults, the
    [vmec_file] and [logger] property setters, the construct/export methods
    that drive the geometry collaborators, the DAGMC export and the YAML
    loader.

    Python state is threaded explicitly: a heap of dictionary objects, the
    attributes of the [Stellarator] instance and the trace of calls made to
    collaborators (in-vessel build, magnet set, source mesh, Cubit, logging).
    Exceptions are values of an error monad; the state reached when an
    exception is raised is kept, as Python keeps it. *)

From stdpp Require Import gmap strings list fin_maps pretty sorting.
From Stdlib Require Import ZArith Ascii String.

Open Scope string_scope.
Open Scope Z_scope.

(** ** Python values *)

Abbreviation loc := positive.

(** [logging.Logger]: the handlers attached to the logger, the [propagate]
    flag and the parent in the logger hierarchy. *)
#[warnings="-register-all"] Inductive Logger : Type :=
| mkLogger (handlers : list string) (propagate : bool) (parent : option Logger).

(** [Logger.hasHandlers()]: walk up the hierarchy until a logger with
    handlers is found or propagation stops. *)
Fixpoint hasHandlers (l : Logger) : bool :=
  match l with
  | mkLogger hs prop par =>
      match hs with
      | _ :: _ => true
      | [] => if prop
              then match par with Some p => hasHandlers p | None => false end
              else false
      end
  end.

(** Values found in configuration dictionaries and passed to collaborators.
    Dictionaries are objects: [VRef l] points into the heap. [VFloat m e] is
    the binary float [m * 2^e]; [VObj o] an opaque collaborator object. *)
#[warnings="-register-all"] Inductive pyval : Type :=
| VNone
| VBool (b : bool)
| VInt (n : Z)
| VFloat (m e : Z)
| VStr (s : string)
| VList (xs : list pyval)
| VRef (l : loc)
| VObj (o : nat)
| VLogger (lg : Logger).

Abbreviation pydict := (gmap string pyval).
Abbreviation pyheap := (gmap loc (gmap string pyval)).

(** Truth value of an object in a condition ([if x:]). *)
Definition truthy (h : pyheap) (v : pyval) : bool :=
  match v with
  | VNone => false
  | VBool b => b
  | VInt n => negb (n =? 0)
  | VFloat m _ => negb (m =? 0)
  | VStr s => negb (String.eqb s EmptyString)
  | VList xs => match xs with [] => false | _ => true end
  | VRef l => match h !! l with
              | Some d => negb (bool_decide (d = ∅))
              | None => true
              end
  | VObj _ => true
  | VLogger _ => true
  end.

(** ** Strings: [pathlib] suffix, [str.join], quoting *)

Definition dquote : string := String (ascii_of_nat 34) EmptyString.

Fixpoint split_on (sep : ascii) (s : string) : list string :=
  match s with
  | EmptyString => [EmptyString]
  | String c s' =>
      if Ascii.eqb c sep then EmptyString :: split_on sep s'
      else match split_on sep s' with
           | [] => [String c EmptyString]
           | w :: ws => String c w :: ws
           end
  end.

(** [str.rfind] for a single character. *)
Fixpoint rfind (c : ascii) (s : string) : option nat :=
  match s with
  | EmptyString => None
  | String a s' =>
      match rfind c s' with
      | Some i => Some (S i)
      | None => if Ascii.eqb a c then Some 0%nat else None
      end
  end.

(** [PurePosixPath(p).name]: the last path component, empty and ['.']
    components being dropped by the path parser. *)
Definition Path_name (p : string) : string :=
  let parts :=
    filter (fun w => w ≠ EmptyString ∧ w ≠ ".") (split_on "/"%char p) in
  List.last parts EmptyString.

(** [PurePosixPath(p).suffix] (CPython up to 3.13): the part of the name
    from its last dot, unless that dot is the first or the last character. *)
Definition Path_suffix (p : string) : string :=
  let name := Path_name p in
  match rfind "."%char name with
  | Some i =>
      if ((0 <? i)%nat && (i <? String.length name - 1)%nat)%bool
      then String.substring i (String.length name - i) name
      else EmptyString
  | None => EmptyString
  end.

(** [sep.join(l)]. *)
Fixpoint join (sep : string) (l : list string) : string :=
  match l with
  | [] => EmptyString
  | [x] => x
  | x :: xs => x +:+ sep +:+ join sep xs
  end.

(** [str(i)] for an integer. *)
Definition str_int (n : Z) : string := pretty n.

(** [min(l)] on a non-empty list of integers. *)
Definition list_min (x : Z) (l : list Z) : Z := foldr Z.min x l.

(** ** Exceptions, collaborator calls and the trace *)

Inductive arg : Type :=
| Pos (v : pyval)
| Kw (k : string) (v : pyval).

Inductive cls : Type := InVesselBuild | MagnetSet | SourceMesh.

Inductive meth : Type :=
| populate_surfaces | calculate_loci | generate_components
| export_step | export_cad_to_dagmc | merge_layer_surfaces
| build_magnet_coils | mesh_magnets | export_mesh
| create_vertices | create_mesh.

Inductive extfun : Type :=
| VMECData | init_cubit | import_step_cubit | cubit_cmd
| export_dagmc_cubit_legacy | export_dagmc_cubit_native.

Inductive loglevel : Type := LInfo | LError.

(** One entry per call made to a collaborator (geometry classes, Cubit,
    the VMEC reader, logging). An object created by a collaborator's
    constructor is identified by the position of that constructor call in the
    trace. Reading the command line and the YAML file is input and is not
    recorded. *)
Inductive event : Type :=
| ECall (f : extfun) (args : list arg)
| ENew (c : cls) (o : nat) (args : list arg)
| EMethod (c : cls) (o : nat) (m : meth) (args : list arg)
| ELog (lg : Logger) (lvl : loglevel) (msg : string).

Inductive exn : Type :=
| KeyError (k : string)
| TypeError
| ValueError
| AttributeError (attr : string)
| AssertionError (msg : string)
| SystemExit
| LoadError
| ExternalError (e : event).

Inductive result (A : Type) : Type :=
| Ok (a : A)
| Raise (e : exn).
Arguments Ok {A} a.
Arguments Raise {A} e.

Definition is_ok {A} (r : result A) : bool :=
  match r with Ok _ => true | Raise _ => false end.

(** ** Collaborator objects

    The classes [InVesselBuild], [MagnetSet] and [SourceMesh] live in other
    modules. This file reads [radial_build] and [export_dir] of the former
    and [volume_ids] and [mat_tag] of the second; an entry of [radial_build]
    is a dictionary of which only the keys ['mat_tag'] (a string) and
    ['vol_id'] (an integer, absent until the STEP import) are touched. *)

Record component := mkComponent {
  comp_mat_tag : string;
  comp_vol_id : option Z
}.

Record InVesselBuildObj := mkIVB {
  ivb_id : nat;
  radial_build : list (string * component);
  export_dir : pyval
}.

Record MagnetSetObj := mkMS {
  ms_id : nat;
  volume_ids : list Z;
  mat_tag : string
}.

Record SourceMeshObj := mkSM {
  sm_id : nat
}.

(** What the collaborators do is not fixed by this file: whether a call
    raises, what a constructor stores in the attributes read here, how a
    method changes them, what [import_step_cubit] returns, what the command
    line and the YAML file contain. All of it may depend on the calls made so
    far. *)
Record Externals := mkExternals {
  ext_raises : list event → event → bool;
  ext_ivb_new : list event → list arg → list (string * component) * pyval;
  ext_ivb_effect :
    list event → meth → list arg →
    list (string * component) * pyval → list (string * component) * pyval;
  ext_ms_new : list event → list arg → list Z * string;
  ext_ms_effect :
    list event → meth → list arg → list Z * string → list Z * string;
  ext_import_step_cubit : list event → string → pyval → Z;
  ext_log_init : Logger;
  ext_argv_filename : option string;
  ext_safe_load : string → pyheap → option (pyval * pyheap)
}.

(** ** The state *)

Record StellaratorObj := mkStellarator {
  _vmec_file : option pyval;
  _logger : pyval;
  vmec : pyval;
  invessel_build : option InVesselBuildObj;
  magnet_set : option MagnetSetObj;
  source_mesh : option SourceMeshObj;
  ivb_dict : option loc;
  magnets_dict : option loc;
  source_dict : option loc;
  dagmc_export : option loc
}.

Record state := mkState {
  heap : pyheap;
  trace : list event;
  self : StellaratorObj
}.

(** An object on which [__init__] has not run yet. *)
Definition blank : StellaratorObj :=
  mkStellarator None VNone VNone None None None None None None None.

(** ** The monad: state, trace and exceptions *)

Definition M (A : Type) : Type := state → result A * state.

Definition ret {A} (a : A) : M A := fun s => (Ok a, s).

Definition raise {A} (e : exn) : M A := fun s => (Raise e, s).

Definition bind {A B} (m : M A) (f : A → M B) : M B :=
  fun s =>
    match m s with
    | (Ok a, s') => f a s'
    | (Raise e, s') => (Raise e, s')
    end.

#[global] Instance M_ret : MRet M := @ret.
#[global] Instance M_bind : MBind M := fun A B f m => bind m f.

Definition get_self : M StellaratorObj := fun s => (Ok (self s), s).

Definition set_self (f : StellaratorObj → StellaratorObj) : M unit :=
  fun s => (Ok tt, mkState (heap s) (trace s) (f (self s))).

Definition get_heap : M pyheap := fun s => (Ok (heap s), s).

Definition get_trace : M (list event) := fun s => (Ok (trace s), s).

Definition emit (e : event) : M unit :=
  fun s => (Ok tt, mkState (heap s) (trace s ++ [e]) (self s)).

(** [for x in l: body(x)]. *)
Fixpoint for_each {A} (l : list A) (body : A → M unit) : M unit :=
  match l with
  | [] => ret tt
  | x :: xs => body x ;; for_each xs body
  end.

(** *** Dictionaries on the heap *)

(** A dictionary display [{...}] or any other creation of a new dict. *)
Definition new_dict (d : pydict) : M loc :=
  fun s =>
    let l := fresh (dom (heap s)) in
    (Ok l, mkState (<[l := d]> (heap s)) (trace s) (self s)).

(** [d.copy()]: a new object with the same items. *)
Definition dict_copy (l : loc) : M loc :=
  h ← get_heap;
  match h !! l with
  | Some d => new_dict d
  | None => raise TypeError
  end.

(** [d.update(other)] for a mapping [other]: the items of [other] are read
    and written into [d], overriding equal keys. Anything that is not a
    dictionary is rejected (the documented argument is a dict). *)
Definition dict_update (l : loc) (other : pyval) : M unit :=
  fun s =>
    match other with
    | VRef o =>
        match heap s !! l, heap s !! o with
        | Some d, Some d' =>
            (Ok tt, mkState (<[l := d' ∪ d]> (heap s)) (trace s) (self s))
        | _, _ => (Raise TypeError, s)
        end
    | _ => (Raise TypeError, s)
    end.

(** [d[k]] on a dictionary object. *)
Definition dict_getitem (l : loc) (k : string) : M pyval :=
  h ← get_heap;
  match h !! l with
  | Some d => match d !! k with
              | Some v => ret v
              | None => raise (KeyError k)
              end
  | None => raise TypeError
  end.

(** [v[k]] on an arbitrary value: only dictionaries can be subscripted by a
    string. *)
Definition getitem (v : pyval) (k : string) : M pyval :=
  match v with
  | VRef l => dict_getitem l k
  | _ => raise TypeError
  end.

Definition is_truthy (v : pyval) : M bool :=
  h ← get_heap; ret (truthy h v).

(** *** Attribute assignment on the [Stellarator] instance *)

Definition with_vmec_file (v : option pyval) (st : StellaratorObj) :=
  mkStellarator v (_logger st) (vmec st) (invessel_build st) (magnet_set st)
    (source_mesh st) (ivb_dict st) (magnets_dict st) (source_dict st)
    (dagmc_export st).

Definition with_logger (v : pyval) (st : StellaratorObj) :=
  mkStellarator (_vmec_file st) v (vmec st) (invessel_build st) (magnet_set st)
    (source_mesh st) (ivb_dict st) (magnets_dict st) (source_dict st)
    (dagmc_export st).

Definition with_vmec (v : pyval) (st : StellaratorObj) :=
  mkStellarator (_vmec_file st) (_logger st) v (invessel_build st)
    (magnet_set st) (source_mesh st) (ivb_dict st) (magnets_dict st)
    (source_dict st) (dagmc_export st).

Definition with_invessel_build (v : option InVesselBuildObj)
    (st : StellaratorObj) :=
  mkStellarator (_vmec_file st) (_logger st) (vmec st) v (magnet_set st)
    (source_mesh st) (ivb_dict st) (magnets_dict st) (source_dict st)
    (dagmc_export st).

Definition with_magnet_set (v : option MagnetSetObj) (st : StellaratorObj) :=
  mkStellarator (_vmec_file st) (_logger st) (vmec st) (invessel_build st) v
    (source_mesh st) (ivb_dict st) (magnets_dict st) (source_dict st)
    (dagmc_export st).

Definition with_source_mesh (v : option SourceMeshObj) (st : StellaratorObj) :=
  mkStellarator (_vmec_file st) (_logger st) (vmec st) (invessel_build st)
    (magnet_set st) v (ivb_dict st) (magnets_dict st) (source_dict st)
    (dagmc_export st).

Definition with_ivb_dict (v : option loc) (st : StellaratorObj) :=
  mkStellarator (_vmec_file st) (_logger st) (vmec st) (invessel_build st)
    (magnet_set st) (source_mesh st) v (magnets_dict st) (source_dict st)
    (dagmc_export st).

Definition with_magnets_dict (v : option loc) (st : StellaratorObj) :=
  mkStellarator (_vmec_file st) (_logger st) (vmec st) (invessel_build st)
    (magnet_set st) (source_mesh st) (ivb_dict st) v (source_dict st)
    (dagmc_export st).

Definition with_source_dict (v : option loc) (st : StellaratorObj) :=
  mkStellarator (_vmec_file st) (_logger st) (vmec st) (invessel_build st)
    (magnet_set st) (source_mesh st) (ivb_dict st) (magnets_dict st) v
    (dagmc_export st).

Definition with_dagmc_export (v : option loc) (st : StellaratorObj) :=
  mkStellarator (_vmec_file st) (_logger st) (vmec st) (invessel_build st)
    (magnet_set st) (source_mesh st) (ivb_dict st) (magnets_dict st)
    (source_dict st) v.

(** Reading an attribute that may not have been assigned yet. *)
Definition attr {A} (name : string) (f : StellaratorObj → option A) : M A :=
  st ← get_self;
  match f st with
  | Some a => ret a
  | None => raise (AttributeError name)
  end.

Definition meth_name (m : meth) : string :=
  match m with
  | populate_surfaces => "populate_surfaces"
  | calculate_loci => "calculate_loci"
  | generate_components => "generate_components"
  | export_step => "export_step"
  | export_cad_to_dagmc => "export_cad_to_dagmc"
  | merge_layer_surfaces => "merge_layer_surfaces"
  | build_magnet_coils => "build_magnet_coils"
  | mesh_magnets => "mesh_magnets"
  | export_mesh => "export_mesh"
  | create_vertices => "create_vertices"
  | create_mesh => "create_mesh"
  end.

(** ** Constants of the package *)

(** Modelled from the spec: the constant [m2cm] of [parastell/utils.py],
    which is not part of this file. The specification gives the default
    scale factor as 100 (meters to centimeters) and the docstrings of this
    file say [defaults to m2cm = 100]. *)
Definition m2cm : pyval := VInt 100.

(** Modelled from the spec: the logger returned by [log.init()] of
    [parastell/log.py], which is not part of this file. The class docstring
    says that a default logger is instantiated when none is supplied; it is
    taken here as a logger that owns a handler. *)
Definition default_logger : Logger :=
  mkLogger ["default"] true None.

(** ** The program *)

Section Model.

Variable X : Externals.

(** A call to a collaborator: it is recorded, then it returns or raises. *)
Definition ext_call (e : event) : M unit :=
  fun s =>
    let s' := mkState (heap s) (trace s ++ [e]) (self s) in
    if ext_raises X (trace s) e
    then (Raise (ExternalError e), s')
    else (Ok tt, s').

(** [cubit.cmd(s)]. *)
Definition cubit_cmd_ (s : string) : M unit :=
  ext_call (ECall cubit_cmd [Pos (VStr s)]).

(** [self._logger.<level>(msg)]. *)
Definition log_ (lvl : loglevel) (msg : string) : M unit :=
  st ← get_self;
  match _logger st with
  | VLogger lg => emit (ELog lg lvl msg)
  | _ => raise (AttributeError
                  match lvl with LInfo => "info" | LError => "error" end)
  end.

(** The three commands of [make_material_block]. *)
Definition create_material_cmd (mat_tag : string) : string :=
  "create material " +:+ dquote +:+ mat_tag +:+ dquote
  +:+ " property_group " +:+ dquote +:+ "CUBIT-ABAQUS" +:+ dquote.

Definition block_add_cmd (block_id : Z) (vol_id_str : string) : string :=
  "block " +:+ str_int block_id +:+ " add volume " +:+ vol_id_str.

Definition block_material_cmd (block_id : Z) (mat_tag : string) : string :=
  "block " +:+ str_int block_id +:+ " material '" +:+ mat_tag +:+ "'".

(** [make_material_block(mat_tag, block_id, vol_id_str)]. *)
Definition make_material_block (mat_tag : string) (block_id : Z)
    (vol_id_str : string) : M unit :=
  cubit_cmd_ (create_material_cmd mat_tag) ;;
  cubit_cmd_ (block_add_cmd block_id vol_id_str) ;;
  cubit_cmd_ (block_material_cmd block_id mat_tag).

(** *** Properties *)

(** [Stellarator.vmec_file] (getter). *)
Definition vmec_file_getter : M pyval := attr "_vmec_file" _vmec_file.

(** [Stellarator.vmec_file] (setter). *)
Definition vmec_file_setter (file : pyval) : M unit :=
  set_self (with_vmec_file (Some file)) ;;
  f ← attr "_vmec_file" _vmec_file;
  sfx ← match f with
        | VStr p => ret (Path_suffix p)
        | _ => raise TypeError
        end;
  if bool_decide (sfx ≠ ".nc") then
    let msg := "Plasma equilibrium VMEC data file input has extension '"
               +:+ sfx +:+ "'. File format must be netCDF ('.nc')." in
    log_ LError msg ;;
    raise (AssertionError msg)
  else ret tt.

(** [Stellarator.logger] (getter). *)
Definition logger_getter : M pyval := st ← get_self; ret (_logger st).

(** [Stellarator.logger] (setter). *)
Definition logger_setter (logger_object : pyval) : M unit :=
  set_self (with_logger logger_object) ;;
  st ← get_self;
  match _logger st with
  | VNone => set_self (with_logger (VLogger (ext_log_init X)))
  | VLogger lg =>
      if negb (hasHandlers lg)
      then set_self (with_logger (VLogger (ext_log_init X)))
      else ret tt
  | _ => raise (AttributeError "hasHandlers")
  end.

(** [read_vmec.VMECData(file)]. *)
Definition new_VMECData (file : pyval) : M pyval :=
  t ← get_trace;
  ext_call (ECall VMECData [Pos file]) ;;
  ret (VObj (List.length t)).

(** [Stellarator.__init__]. *)
Definition __init__ (vmec_file logger : pyval) : M unit :=
  logger_setter logger ;;
  vmec_file_setter vmec_file ;;
  f ← vmec_file_getter;
  v ← new_VMECData f;
  set_self (with_vmec v) ;;
  set_self (with_invessel_build None) ;;
  set_self (with_magnet_set None) ;;
  set_self (with_source_mesh None).

(** [Stellarator(vmec_file, logger)]: a new instance, then [__init__]. *)
Definition Stellarator (vmec_file logger : pyval) : M unit :=
  set_self (fun _ => blank) ;;
  __init__ vmec_file logger.

(** *** In-vessel build *)

Definition invessel_build_def : pydict :=
  list_to_map
    [("repeat", VInt 0); ("num_ribs", VInt 61); ("num_rib_pts", VInt 61);
     ("scale", m2cm); ("export_cad_to_dagmc", VBool false);
     ("plasma_mat_tag", VNone); ("sol_mat_tag", VNone);
     ("dagmc_filename", VStr "dagmc"); ("export_dir", VStr EmptyString)].

Definition set_invessel_build_dict (invessel_build_arg : pyval) : M unit :=
  def ← new_dict invessel_build_def;
  c ← dict_copy def;
  set_self (with_ivb_dict (Some c)) ;;
  d ← attr "ivb_dict" ivb_dict;
  dict_update d invessel_build_arg.

Definition get_invessel_build_dict : M loc := attr "ivb_dict" ivb_dict.

(** The receiver of [self.invessel_build.<m>]: [None] has no attributes. *)
Definition ivb_receiver (m : meth) : M InVesselBuildObj :=
  st ← get_self;
  match invessel_build st with
  | Some o => ret o
  | None => raise (AttributeError (meth_name m))
  end.

(** The call [o.<m>(args)] on the in-vessel build. *)
Definition ivb_invoke (o : InVesselBuildObj) (m : meth) (args : list arg)
    : M unit :=
  t ← get_trace;
  let '(rb, ed) :=
    ext_ivb_effect X t m args (radial_build o, export_dir o) in
  set_self (fun st =>
    match invessel_build st with
    | Some _ => with_invessel_build (Some (mkIVB (ivb_id o) rb ed)) st
    | None => st
    end) ;;
  ext_call (EMethod InVesselBuild (ivb_id o) m args).

(** [ivb.InVesselBuild(...)]. *)
Definition new_InVesselBuild (args : list arg) : M InVesselBuildObj :=
  t ← get_trace;
  ext_call (ENew InVesselBuild (List.length t) args) ;;
  let '(rb, ed) := ext_ivb_new X t args in
  ret (mkIVB (List.length t) rb ed).

Definition construct_invessel_build (invessel_build_arg : pyval) : M unit :=
  set_invessel_build_dict invessel_build_arg ;;
  ivb_dict ← get_invessel_build_dict;
  st ← get_self;
  toroidal_angles ← dict_getitem ivb_dict "toroidal_angles";
  poloidal_angles ← dict_getitem ivb_dict "poloidal_angles";
  radial_build_arg ← dict_getitem ivb_dict "radial_build";
  wall_s ← dict_getitem ivb_dict "wall_s";
  repeat_ ← dict_getitem ivb_dict "repeat";
  num_ribs ← dict_getitem ivb_dict "num_ribs";
  num_rib_pts ← dict_getitem ivb_dict "num_rib_pts";
  scale ← dict_getitem ivb_dict "scale";
  plasma_mat_tag ← dict_getitem ivb_dict "plasma_mat_tag";
  sol_mat_tag ← dict_getitem ivb_dict "sol_mat_tag";
  logger ← logger_getter;
  o ← new_InVesselBuild
        [Pos (vmec st); Pos toroidal_angles; Pos poloidal_angles;
         Pos radial_build_arg; Pos wall_s; Kw "repeat" repeat_;
         Kw "num_ribs" num_ribs; Kw "num_rib_pts" num_rib_pts;
         Kw "scale" scale; Kw "plasma_mat_tag" plasma_mat_tag;
         Kw "sol_mat_tag" sol_mat_tag; Kw "logger" logger];
  set_self (with_invessel_build (Some o)) ;;
  o1 ← ivb_receiver populate_surfaces;
  ivb_invoke o1 populate_surfaces [] ;;
  o2 ← ivb_receiver calculate_loci;
  ivb_invoke o2 calculate_loci [] ;;
  o3 ← ivb_receiver generate_components;
  ivb_invoke o3 generate_components [].

Definition export_invessel_build (invessel_build_arg : pyval) : M unit :=
  set_invessel_build_dict invessel_build_arg ;;
  ivb_dict ← get_invessel_build_dict;
  o ← ivb_receiver export_step;
  export_dir_ ← dict_getitem ivb_dict "export_dir";
  ivb_invoke o export_step [Kw "export_dir" export_dir_] ;;
  flag ← dict_getitem ivb_dict "export_cad_to_dagmc";
  b ← is_truthy flag;
  if b : bool then
    o' ← ivb_receiver export_cad_to_dagmc;
    filename ← dict_getitem ivb_dict "dagmc_filename";
    export_dir' ← dict_getitem ivb_dict "export_dir";
    ivb_invoke o' export_cad_to_dagmc
      [Kw "filename" filename; Kw "export_dir" export_dir']
  else ret tt.

(** *** Magnets *)

Definition magnets_def : pydict :=
  list_to_map
    [("sample_mod", VInt 1); ("scale", m2cm);
     ("step_filename", VStr "magnets"); ("mat_tag", VStr "magnets");
     ("export_mesh", VBool false); ("mesh_filename", VStr "magnet_mesh");
     ("export_dir", VStr EmptyString)].

Definition set_magnets_dict (magnets : pyval) : M unit :=
  def ← new_dict magnets_def;
  c ← dict_copy def;
  set_self (with_magnets_dict (Some c)) ;;
  d ← attr "magnets_dict" magnets_dict;
  dict_update d magnets.

Definition get_magnets_dict : M loc := attr "magnets_dict" magnets_dict.

Definition ms_receiver (m : meth) : M MagnetSetObj :=
  st ← get_self;
  match magnet_set st with
  | Some o => ret o
  | None => raise (AttributeError (meth_name m))
  end.

Definition ms_invoke (o : MagnetSetObj) (m : meth) (args : list arg)
    : M unit :=
  t ← get_trace;
  let '(ids, tag) := ext_ms_effect X t m args (volume_ids o, mat_tag o) in
  set_self (fun st =>
    match magnet_set st with
    | Some _ => with_magnet_set (Some (mkMS (ms_id o) ids tag)) st
    | None => st
    end) ;;
  ext_call (EMethod MagnetSet (ms_id o) m args).

(** [mc.MagnetSet(...)]. *)
Definition new_MagnetSet (args : list arg) : M MagnetSetObj :=
  t ← get_trace;
  ext_call (ENew MagnetSet (List.length t) args) ;;
  let '(ids, tag) := ext_ms_new X t args in
  ret (mkMS (List.length t) ids tag).

Definition construct_magnets (magnets : pyval) : M unit :=
  set_magnets_dict magnets ;;
  magnets_dict ← get_magnets_dict;
  coils_file_path ← dict_getitem magnets_dict "coils_file_path";
  start_line ← dict_getitem magnets_dict "start_line";
  cross_section ← dict_getitem magnets_dict "cross_section";
  toroidal_extent ← dict_getitem magnets_dict "toroidal_extent";
  sample_mod ← dict_getitem magnets_dict "sample_mod";
  scale ← dict_getitem magnets_dict "scale";
  mat_tag_ ← dict_getitem magnets_dict "mat_tag";
  logger ← logger_getter;
  o ← new_MagnetSet
        [Pos coils_file_path; Pos start_line; Pos cross_section;
         Pos toroidal_extent; Kw "sample_mod" sample_mod; Kw "scale" scale;
         Kw "mat_tag" mat_tag_; Kw "logger" logger];
  set_self (with_magnet_set (Some o)) ;;
  o1 ← ms_receiver build_magnet_coils;
  ms_invoke o1 build_magnet_coils [].

Definition export_magnets (magnets : pyval) : M unit :=
  set_magnets_dict magnets ;;
  magnets_dict ← get_magnets_dict;
  o ← ms_receiver export_step;
  filename ← dict_getitem magnets_dict "step_filename";
  export_dir_ ← dict_getitem magnets_dict "export_dir";
  ms_invoke o export_step [Kw "filename" filename; Kw "export_dir" export_dir_] ;;
  flag ← dict_getitem magnets_dict "export_mesh";
  b ← is_truthy flag;
  if b : bool then
    o1 ← ms_receiver mesh_magnets;
    ms_invoke o1 mesh_magnets [] ;;
    o2 ← ms_receiver export_mesh;
    filename' ← dict_getitem magnets_dict "mesh_filename";
    export_dir' ← dict_getitem magnets_dict "export_dir";
    ms_invoke o2 export_mesh
      [Kw "filename" filename'; Kw "export_dir" export_dir']
  else ret tt.

(** *** Source mesh *)

Definition source_def : pydict :=
  list_to_map
    [("scale", m2cm); ("filename", VStr "source_mesh");
     ("export_dir", VStr EmptyString)].

Definition set_source_dict (source : pyval) : M unit :=
  def ← new_dict source_def;
  c ← dict_copy def;
  set_self (with_source_dict (Some c)) ;;
  d ← attr "source_dict" source_dict;
  dict_update d source.

Definition get_source_dict : M loc := attr "source_dict" source_dict.

Definition sm_receiver (m : meth) : M SourceMeshObj :=
  st ← get_self;
  match source_mesh st with
  | Some o => ret o
  | None => raise (AttributeError (meth_name m))
  end.

Definition sm_invoke (o : SourceMeshObj) (m : meth) (args : list arg)
    : M unit :=
  ext_call (EMethod SourceMesh (sm_id o) m args).

(** [sm.SourceMesh(...)]. *)
Definition new_SourceMesh (args : list arg) : M SourceMeshObj :=
  t ← get_trace;
  ext_call (ENew SourceMesh (List.length t) args) ;;
  ret (mkSM (List.length t)).

Definition construct_source_mesh (source : pyval) : M unit :=
  set_source_dict source ;;
  source_dict ← get_source_dict;
  st ← get_self;
  num_s ← dict_getitem source_dict "num_s";
  num_theta ← dict_getitem source_dict "num_theta";
  num_phi ← dict_getitem source_dict "num_phi";
  toroidal_extent ← dict_getitem source_dict "toroidal_extent";
  scale ← dict_getitem source_dict "scale";
  logger ← logger_getter;
  o ← new_SourceMesh
        [Pos (vmec st); Pos num_s; Pos num_theta; Pos num_phi;
         Pos toroidal_extent; Kw "scale" scale; Kw "logger" logger];
  set_self (with_source_mesh (Some o)) ;;
  o1 ← sm_receiver create_vertices;
  sm_invoke o1 create_vertices [] ;;
  o2 ← sm_receiver create_mesh;
  sm_invoke o2 create_mesh [].

Definition export_source_mesh (source : pyval) : M unit :=
  set_source_dict source ;;
  source_dict ← get_source_dict;
  o ← sm_receiver export_mesh;
  filename ← dict_getitem source_dict "filename";
  export_dir_ ← dict_getitem source_dict "export_dir";
  sm_invoke o export_mesh [Kw "filename" filename; Kw "export_dir" export_dir_].

(** *** DAGMC export *)

(** The loop of [_import_ivb_step]: each entry of [radial_build] is imported
    and its ['vol_id'] stored before the next one is imported. *)
Fixpoint import_loop (o : InVesselBuildObj)
    (done todo : list (string * component)) : M unit :=
  match todo with
  | [] => ret tt
  | (name, data) :: rest =>
      t ← get_trace;
      ext_call (ECall import_step_cubit
                  [Pos (VStr name); Pos (export_dir o)]) ;;
      let vol_id := ext_import_step_cubit X t name (export_dir o) in
      let data' := mkComponent (comp_mat_tag data) (Some vol_id) in
      set_self (with_invessel_build
                  (Some (mkIVB (ivb_id o) (done ++ (name, data') :: rest)
                           (export_dir o)))) ;;
      import_loop o (done ++ [(name, data')]) rest
  end.

Definition _import_ivb_step : M unit :=
  st ← get_self;
  match invessel_build st with
  | Some o => import_loop o [] (radial_build o)
  | None => raise (AttributeError "radial_build")
  end.

(** The command of the legacy tagging: [group "mat:<tag>" add volume <ids>]. *)
Definition group_cmd (tag ids : string) : string :=
  "group " +:+ dquote +:+ "mat:" +:+ tag +:+ dquote +:+ " add volume " +:+ ids.

Definition _tag_materials_legacy : M unit :=
  st ← get_self;
  match magnet_set st with
  | Some ms =>
      let vol_id_str := join " " (str_int <$> volume_ids ms) in
      cubit_cmd_ (group_cmd (mat_tag ms) vol_id_str)
  | None => ret tt
  end ;;
  st' ← get_self;
  match invessel_build st' with
  | Some o =>
      for_each (radial_build o) (fun '(_, data) =>
        match comp_vol_id data with
        | Some v => cubit_cmd_ (group_cmd (comp_mat_tag data) (str_int v))
        | None => raise (KeyError "vol_id")
        end)
  | None => ret tt
  end.

Definition _tag_materials_native : M unit :=
  cubit_cmd_ "set duplicate block elements off" ;;
  st ← get_self;
  match magnet_set st with
  | Some ms =>
      match volume_ids ms with
      | [] => raise ValueError
      | v :: vs =>
          let block_id := list_min v vs in
          let vol_id_str := join " " (str_int <$> volume_ids ms) in
          make_material_block (mat_tag ms) block_id vol_id_str
      end
  | None => ret tt
  end ;;
  st' ← get_self;
  match invessel_build st' with
  | Some o =>
      for_each (radial_build o) (fun '(_, data) =>
        match comp_vol_id data with
        | Some block_id =>
            make_material_block (comp_mat_tag data) block_id (str_int block_id)
        | None => raise (KeyError "vol_id")
        end)
  | None => ret tt
  end.

Definition dagmc_export_def : pydict :=
  list_to_map
    [("skip_imprint", VBool false); ("legacy_faceting", VBool true);
     ("faceting_tolerance", VNone); ("length_tolerance", VNone);
     ("normal_tolerance", VNone); ("anisotropic_ratio", VInt 100);
     ("deviation_angle", VInt 5); ("filename", VStr "dagmc");
     ("export_dir", VStr EmptyString)].

Definition set_dagmc_export (dagmc_export_arg : pyval) : M unit :=
  def ← new_dict dagmc_export_def;
  c ← dict_copy def;
  set_self (with_dagmc_export (Some c)) ;;
  d ← attr "dagmc_export" dagmc_export;
  dict_update d dagmc_export_arg.

Definition get_dagmc_export : M loc := attr "dagmc_export" dagmc_export.

Definition export_dagmc (dagmc_export_arg : pyval) : M unit :=
  ext_call (ECall init_cubit []) ;;
  log_ LInfo "Exporting DAGMC neutronics model..." ;;
  set_dagmc_export dagmc_export_arg ;;
  export_dict ← get_dagmc_export;
  st ← get_self;
  match invessel_build st with
  | Some _ => _import_ivb_step
  | None => ret tt
  end ;;
  skip_imprint ← dict_getitem export_dict "skip_imprint";
  skip ← is_truthy skip_imprint;
  (if skip : bool then
     o ← ivb_receiver merge_layer_surfaces;
     ivb_invoke o merge_layer_surfaces []
   else
     cubit_cmd_ "imprint volume all" ;;
     cubit_cmd_ "merge volume all") ;;
  legacy_faceting ← dict_getitem export_dict "legacy_faceting";
  legacy ← is_truthy legacy_faceting;
  if legacy : bool then
    _tag_materials_legacy ;;
    faceting_tolerance ← dict_getitem export_dict "faceting_tolerance";
    length_tolerance ← dict_getitem export_dict "length_tolerance";
    normal_tolerance ← dict_getitem export_dict "normal_tolerance";
    filename ← dict_getitem export_dict "filename";
    export_dir_ ← dict_getitem export_dict "export_dir";
    ext_call (ECall export_dagmc_cubit_legacy
                [Kw "faceting_tolerance" faceting_tolerance;
                 Kw "length_tolerance" length_tolerance;
                 Kw "normal_tolerance" normal_tolerance;
                 Kw "filename" filename; Kw "export_dir" export_dir_])
  else
    _tag_materials_native ;;
    anisotropic_ratio ← dict_getitem export_dict "anisotropic_ratio";
    deviation_angle ← dict_getitem export_dict "deviation_angle";
    filename ← dict_getitem export_dict "filename";
    export_dir_ ← dict_getitem export_dict "export_dir";
    ext_call (ECall export_dagmc_cubit_native
                [Kw "anisotropic_ratio" anisotropic_ratio;
                 Kw "deviation_angle" deviation_angle;
                 Kw "filename" filename; Kw "export_dir" export_dir_]).

(** *** Command line entry point *)

(** [parse_args()]: the parser has the single positional argument
    [filename]; a command line it rejects ends the program. *)
Definition parse_args : M string :=
  match ext_argv_filename X with
  | Some f => ret f
  | None => raise SystemExit
  end.

(** [read_yaml_config(filename)]: the file is opened and parsed, which
    creates the loaded objects on the heap, then the five sections are
    looked up from left to right. *)
Definition read_yaml_config (filename : string)
    : M (pyval * pyval * pyval * pyval * pyval) :=
  all_data ← (fun s =>
    match ext_safe_load X filename (heap s) with
    | Some (v, h') => (Ok v, mkState h' (trace s) (self s))
    | None => (Raise LoadError, s)
    end);
  vmec_file ← getitem all_data "vmec_file";
  invessel_build_ ← getitem all_data "invessel_build";
  magnet_coils ← getitem all_data "magnet_coils";
  source_mesh_ ← getitem all_data "source_mesh";
  dagmc_export_ ← getitem all_data "dagmc_export";
  ret (vmec_file, invessel_build_, magnet_coils, source_mesh_, dagmc_export_).

Definition parastell : M unit :=
  filename ← parse_args;
  '(vmec_file, invessel_build_, magnets, source, dagmc_export_)
    ← read_yaml_config filename;
  Stellarator vmec_file VNone ;;
  construct_invessel_build invessel_build_ ;;
  export_invessel_build invessel_build_ ;;
  construct_magnets magnets ;;
  export_magnets magnets ;;
  construct_source_mesh source ;;
  export_source_mesh source ;;
  export_dagmc dagmc_export_.

End Model.

(** * Specification vocabulary

    Definitions used to state the properties of the program: merged
    dictionaries, what a run may do to the state, the calls of each
    method by kind, the stages of the pipeline. *)

Open Scope list_scope.

(** The four [set_*] methods share one shape: a dictionary display, a copy
    of it, the assignment of the copy to an attribute and the update of
    that attribute with the argument. *)
Definition set_dict (def : pydict)
    (w : option loc → StellaratorObj → StellaratorObj)
    (g : StellaratorObj → option loc) (name : string) (v : pyval) : M unit :=
  def ← new_dict def;
  c ← dict_copy def;
  set_self (w (Some c)) ;;
  d ← attr name g;
  dict_update d v.

(** The two objects allocated by a [set_*] call and the heap they leave. *)
Definition loc1 (h : pyheap) : loc := fresh (dom h).
Definition loc2 (def : pydict) (h : pyheap) : loc :=
  fresh (dom (<[loc1 h := def]> h)).
Definition heap2 (def : pydict) (h : pyheap) : pyheap :=
  <[loc2 def h := def]> (<[loc1 h := def]> h).

Definition lookup_dict (h : pyheap) (v : pyval) : option pydict :=
  match v with VRef d => h !! d | _ => None end.

(** [merged] has the items of [d], and the defaults for the other keys. *)
Definition merges (d def merged : pydict) : Prop :=
  (∀ k v, d !! k = Some v → merged !! k = Some v) ∧
  (∀ k, d !! k = None → merged !! k = def !! k).

(** [set_] followed by [get_] yields a dictionary that merges the user's
    dictionary at [d] into [def]. *)
Definition set_get_merges (set_ : pyval → M unit) (get_ : M loc)
    (def : pydict) (d : loc) (dm : pydict) (s : state) : Prop :=
  ∃ s' l merged,
    set_ (VRef d) s = (Ok tt, s') ∧ get_ s' = (Ok l, s') ∧
    heap s' !! l = Some merged ∧ merges dm def merged.

Definition usable_logger (v : pyval) : Prop :=
  ∃ lg, v = VLogger lg ∧ hasHandlers lg = true.

Definition section_keys : list string :=
  ["vmec_file"; "invessel_build"; "magnet_coils"; "source_mesh";
   "dagmc_export"].

(** The value stored under [k] in the loaded data, if the loaded data is a
    mapping that has the key. *)
Definition section (h : pyheap) (all_data : pyval) (k : string)
    : option pyval :=
  d ← lookup_dict h all_data; d !! k.

(** What a computation may do to the state: it appends events that satisfy
    [P] to the trace and, when [hp] is set, it leaves the heap as it is. *)
Definition moves (hp : bool) (P : event → Prop) (s s' : state) : Prop :=
  (∃ evs, trace s' = trace s ++ evs ∧ Forall P evs) ∧
  (hp = true → heap s' = heap s).

Definition steps {A} (hp : bool) (P : event → Prop) (m : M A) : Prop :=
  ∀ s, moves hp P s (m s).2.

(** The calls [construct_source_mesh] makes when nothing raises, on the
    object [o] built with the arguments [args]. *)
Definition source_mesh_calls (o : nat) (args : list arg) : list event :=
  [ENew SourceMesh o args;
   EMethod SourceMesh o create_vertices [];
   EMethod SourceMesh o create_mesh []].

(** The calls [construct_invessel_build] makes when nothing raises. *)
Definition invessel_build_calls (o : nat) (args : list arg) : list event :=
  [ENew InVesselBuild o args;
   EMethod InVesselBuild o populate_surfaces [];
   EMethod InVesselBuild o calculate_loci [];
   EMethod InVesselBuild o generate_components []].

(** A run of a constructing method: the calls made are an initial segment of
    [calls o args] for the object [o] created at this point of the trace,
    and all of them when the method returns. *)
Definition calls_in_order (calls : nat → list arg → list event)
    (s : state) (out : result unit * state) : Prop :=
  ∃ args evs,
    trace out.2 = trace s ++ evs ∧
    evs `prefix_of` calls (List.length (trace s)) args ∧
    (out.1 = Ok tt → evs = calls (List.length (trace s)) args).

(** The stages of the command line program, in the order of the source. *)
Inductive stage : Type :=
| Setup
| ConstructInVesselBuild | ExportInVesselBuild
| ConstructMagnets | ExportMagnets
| ConstructSourceMesh | ExportSourceMesh
| ExportDagmc.

Definition stage_rank (k : stage) : nat :=
  match k with
  | Setup => 0
  | ConstructInVesselBuild => 1 | ExportInVesselBuild => 2
  | ConstructMagnets => 3 | ExportMagnets => 4
  | ConstructSourceMesh => 5 | ExportSourceMesh => 6
  | ExportDagmc => 7
  end%nat.

(** The stage a call belongs to. *)
Definition stage_of (e : event) : stage :=
  match e with
  | ECall VMECData _ => Setup
  | ECall _ _ => ExportDagmc
  | ELog _ LError _ => Setup
  | ELog _ LInfo _ => ExportDagmc
  | ENew InVesselBuild _ _ => ConstructInVesselBuild
  | ENew MagnetSet _ _ => ConstructMagnets
  | ENew SourceMesh _ _ => ConstructSourceMesh
  | EMethod c _ m _ =>
      match m with
      | populate_surfaces | calculate_loci | generate_components =>
          ConstructInVesselBuild
      | export_cad_to_dagmc => ExportInVesselBuild
      | merge_layer_surfaces => ExportDagmc
      | build_magnet_coils => ConstructMagnets
      | mesh_magnets => ExportMagnets
      | create_vertices | create_mesh => ConstructSourceMesh
      | export_step =>
          match c with MagnetSet => ExportMagnets | _ => ExportInVesselBuild end
      | export_mesh =>
          match c with MagnetSet => ExportMagnets | _ => ExportSourceMesh end
      end
  end.

Definition in_stage (k : stage) (e : event) : Prop := stage_of e = k.

(** Everything [parastell] does before the first stage. *)
Definition prelude X : M (pyval * pyval * pyval * pyval * pyval) :=
  filename ← parse_args X;
  cfg ← read_yaml_config X filename;
  Stellarator X cfg.1.1.1.1 VNone ;;
  mret cfg.

(** The seven stages, on the sections of the configuration. *)
Definition stages X (cfg : pyval * pyval * pyval * pyval * pyval)
    : list (stage * M unit) :=
  let '(_, invessel_build_, magnets, source, dagmc_export_) := cfg in
  [(ConstructInVesselBuild, construct_invessel_build X invessel_build_);
   (ExportInVesselBuild, export_invessel_build X invessel_build_);
   (ConstructMagnets, construct_magnets X magnets);
   (ExportMagnets, export_magnets X magnets);
   (ConstructSourceMesh, construct_source_mesh X source);
   (ExportSourceMesh, export_source_mesh X source);
   (ExportDagmc, export_dagmc X dagmc_export_)].

(** Stages run one after the other; the first exception ends the run. *)
Fixpoint run_stages (l : list (stage * M unit)) : M unit :=
  match l with
  | [] => mret tt
  | (_, m) :: l' => m ;; run_stages l'
  end.

Definition cmd (c : string) : event := ECall cubit_cmd [Pos (VStr c)].

(** The calls of [export_dagmc] by kind: the preparation, the two ways of
    merging surfaces, the two ways of tagging and faceting. *)
Inductive setup_event : event → Prop :=
| ev_init_cubit : setup_event (ECall init_cubit [])
| ev_log_info lg msg : setup_event (ELog lg LInfo msg)
| ev_import name dir :
    setup_event (ECall import_step_cubit [Pos (VStr name); Pos dir]).

Inductive layer_merge_event : event → Prop :=
| ev_merge_layer_surfaces o :
    layer_merge_event (EMethod InVesselBuild o merge_layer_surfaces []).

Inductive imprint_merge_event : event → Prop :=
| ev_imprint : imprint_merge_event (cmd "imprint volume all")
| ev_merge : imprint_merge_event (cmd "merge volume all").

Inductive legacy_event : event → Prop :=
| ev_group tag ids : legacy_event (cmd (group_cmd tag ids))
| ev_export_legacy args : legacy_event (ECall export_dagmc_cubit_legacy args).

Inductive native_event : event → Prop :=
| ev_duplicate_off : native_event (cmd "set duplicate block elements off")
| ev_create_material tag : native_event (cmd (create_material_cmd tag))
| ev_block_add b ids : native_event (cmd (block_add_cmd b ids))
| ev_block_material b tag : native_event (cmd (block_material_cmd b tag))
| ev_export_native args : native_event (ECall export_dagmc_cubit_native args).

(** The calls possible in a run that skips or does not skip the imprint
    and facets the legacy or the native way. *)
Definition export_event (skip legacy : bool) (e : event) : Prop :=
  setup_event e ∨
  (if skip then layer_merge_event e else imprint_merge_event e) ∨
  (if legacy then legacy_event e else native_event e).

(** The blocks of [export_dagmc]: the import of the in-vessel build when
    there is one, the merging of surfaces and the tagging, faceting and
    export. *)
Definition import_part X (st : StellaratorObj) : M unit :=
  match invessel_build st with
  | Some _ => _import_ivb_step X
  | None => mret tt
  end.

Definition merge_branch X (skip : bool) : M unit :=
  if skip then
    o ← ivb_receiver merge_layer_surfaces;
    ivb_invoke X o merge_layer_surfaces []
  else
    cubit_cmd_ X "imprint volume all" ;;
    cubit_cmd_ X "merge volume all".

Definition facet_branch X (export_dict : loc) (legacy : bool) : M unit :=
  if legacy then
    _tag_materials_legacy X ;;
    faceting_tolerance ← dict_getitem export_dict "faceting_tolerance";
    length_tolerance ← dict_getitem export_dict "length_tolerance";
    normal_tolerance ← dict_getitem export_dict "normal_tolerance";
    filename ← dict_getitem export_dict "filename";
    export_dir_ ← dict_getitem export_dict "export_dir";
    ext_call X (ECall export_dagmc_cubit_legacy
                  [Kw "faceting_tolerance" faceting_tolerance;
                   Kw "length_tolerance" length_tolerance;
                   Kw "normal_tolerance" normal_tolerance;
                   Kw "filename" filename; Kw "export_dir" export_dir_])
  else
    _tag_materials_native X ;;
    anisotropic_ratio ← dict_getitem export_dict "anisotropic_ratio";
    deviation_angle ← dict_getitem export_dict "deviation_angle";
    filename ← dict_getitem export_dict "filename";
    export_dir_ ← dict_getitem export_dict "export_dir";
    ext_call X (ECall export_dagmc_cubit_native
                  [Kw "anisotropic_ratio" anisotropic_ratio;
                   Kw "deviation_angle" deviation_angle;
                   Kw "filename" filename; Kw "export_dir" export_dir_]).

Definition stage_le (a b : event) : Prop :=
  (stage_rank (stage_of a) ≤ stage_rank (stage_of b))%nat.

(** A list of stages of increasing rank, from rank [n] on, each of which
    makes only its own calls. *)
Fixpoint stages_from (n : nat) (l : list (stage * M unit)) : Prop :=
  match l with
  | [] => True
  | (k, m) :: l' =>
      (n ≤ stage_rank k)%nat ∧ steps false (in_stage k) m ∧
      stages_from (S (stage_rank k)) l'
  end.

Definition stage_order : list stage :=
  [ConstructInVesselBuild; ExportInVesselBuild; ConstructMagnets;
   ExportMagnets; ConstructSourceMesh; ExportSourceMesh; ExportDagmc].

(** The value of a key of the export dictionary after the merge. *)
Definition flag (dm : pydict) (k : string) : pyval :=
  default VNone ((dm ∪ dagmc_export_def) !! k).

(** The object that holds the merged export dictionary, and the heap after
    [set_dagmc_export]. *)
Definition export_loc (h : pyheap) : loc := loc2 dagmc_export_def h.

Definition export_heap (dm : pydict) (h : pyheap) : pyheap :=
  <[export_loc h := dm ∪ dagmc_export_def]> (heap2 dagmc_export_def h).

Definition skip_flag (dm : pydict) (h : pyheap) : bool :=
  truthy (export_heap dm h) (flag dm "skip_imprint").

Definition legacy_flag (dm : pydict) (h : pyheap) : bool :=
  truthy (export_heap dm h) (flag dm "legacy_faceting").

(** What is left of [export_dagmc] once the export dictionary is set. *)
Definition export_rest X (l : loc) (skip legacy : bool) : M unit :=
  st ← get_self;
  import_part X st ;;
  merge_branch X skip ;;
  facet_branch X l legacy.

(** The state in which the rest of the export starts. *)
Definition export_start (dm : pydict) (lg : Logger) (s : state) : state :=
  mkState (export_heap dm (heap s))
    ((trace s ++ [ECall init_cubit []])
     ++ [ELog lg LInfo "Exporting DAGMC neutronics model..."])
    (with_dagmc_export (Some (export_loc (heap s))) (self s)).

(** The export call of each faceting strategy, with the parameters of the
    merged dictionary. *)
Definition legacy_export_call (dm : pydict) : event :=
  ECall export_dagmc_cubit_legacy
    [Kw "faceting_tolerance" (flag dm "faceting_tolerance");
     Kw "length_tolerance" (flag dm "length_tolerance");
     Kw "normal_tolerance" (flag dm "normal_tolerance");
     Kw "filename" (flag dm "filename");
     Kw "export_dir" (flag dm "export_dir")].

Definition native_export_call (dm : pydict) : event :=
  ECall export_dagmc_cubit_native
    [Kw "anisotropic_ratio" (flag dm "anisotropic_ratio");
     Kw "deviation_angle" (flag dm "deviation_angle");
     Kw "filename" (flag dm "filename");
     Kw "export_dir" (flag dm "export_dir")].

Definition tag_materials X (legacy : bool) : M unit :=
  if legacy then _tag_materials_legacy X else _tag_materials_native X.

Definition export_call (dm : pydict) (legacy : bool) : event :=
  if legacy then legacy_export_call dm else native_export_call dm.

(** ** Example configurations *)

Definition example_invessel_build : pydict :=
  list_to_map
    [("toroidal_angles", VList [VInt 0; VInt 45; VInt 90]);
     ("poloidal_angles", VList [VInt 0; VInt 120; VInt 240; VInt 360]);
     ("radial_build", VRef 6); ("wall_s", VFloat 69 (-6));
     ("num_ribs", VInt 11)].

Definition example_magnets : pydict :=
  list_to_map
    [("coils_file_path", VStr "coils.txt"); ("start_line", VInt 3);
     ("cross_section", VList [VStr "circle"; VInt 20]);
     ("toroidal_extent", VInt 90)].

Definition example_source : pydict :=
  list_to_map
    [("num_s", VInt 11); ("num_theta", VInt 81); ("num_phi", VInt 61);
     ("toroidal_extent", VInt 90)].

Definition example_dagmc_export : pydict :=
  list_to_map [("skip_imprint", VBool true)].

Definition example_sections : pyval * pyval * pyval * pyval * pyval :=
  (VStr "wout_vmec.nc", VRef 2, VRef 3, VRef 4, VRef 5).

(** A configuration file with the five sections, as loaded on the heap:
    the top-level mapping at location 1 and one mapping per section. *)
Definition example_yaml : pyheap :=
  list_to_map
    [(1%positive,
      list_to_map
        [("vmec_file", VStr "wout_vmec.nc"); ("invessel_build", VRef 2);
         ("magnet_coils", VRef 3); ("source_mesh", VRef 4);
         ("dagmc_export", VRef 5)]);
     (2%positive, example_invessel_build);
     (3%positive, example_magnets);
     (4%positive, example_source);
     (5%positive, example_dagmc_export);
     (6%positive, ∅)].

(** The same file without its last section. *)
Definition incomplete_yaml : pyheap :=
  <[1%positive :=
      list_to_map
        [("vmec_file", VStr "wout_vmec.nc"); ("invessel_build", VRef 2);
         ("magnet_coils", VRef 3); ("source_mesh", VRef 4)]]> example_yaml.

(** Collaborators for the examples: the in-vessel build has two components,
    the magnet set two volumes, methods leave the attributes alone, and
    [raises] says which calls fail. *)
Definition example_world (raises : event → bool) (yaml : pyheap)
    : Externals :=
  {| ext_raises := fun _ e => raises e;
     ext_ivb_new := fun _ _ =>
       ([("plasma", mkComponent "plasma" None);
         ("first_wall", mkComponent "steel" None)], VStr EmptyString);
     ext_ivb_effect := fun _ _ _ f => f;
     ext_ms_new := fun _ _ => ([3; 4], "magnets");
     ext_ms_effect := fun _ _ _ f => f;
     ext_import_step_cubit := fun t _ _ => Z.of_nat (List.length t);
     ext_log_init := default_logger;
     ext_argv_filename := Some "config.yaml";
     ext_safe_load := fun _ h => Some (VRef 1, yaml ∪ h) |}.

(** No call fails. *)
Definition quiet_world : Externals :=
  example_world (fun _ => false) example_yaml.

(** No call fails, but the file lacks a section. *)
Definition incomplete_world : Externals :=
  example_world (fun _ => false) incomplete_yaml.

(** [build_magnet_coils] fails. *)
Definition failing_call : event := EMethod MagnetSet 6 build_magnet_coils [].

Definition failing_world : Externals :=
  example_world
    (fun e => match e with
              | EMethod MagnetSet _ build_magnet_coils _ => true
              | _ => false
              end)
    example_yaml.

(** The state in which the program starts. *)
Definition initial_state : state := mkState ∅ [] blank.

(** A state in which the configuration of the examples is loaded. *)
Definition loaded_state : state := mkState example_yaml [] blank.

(** An instance with a logger and a magnet set but no in-vessel build. *)
Definition magnets_only_state : state :=
  mkState example_yaml []
    (mkStellarator (Some (VStr "wout_vmec.nc")) (VLogger default_logger)
       (VObj 0) None (Some (mkMS 1 [3; 4] "magnets")) None None None None
       None).

(** The states of the failing run: after the setup, after the two stages of
    the in-vessel build, and after the magnet construction. *)
Definition failing_s0 : state := (prelude failing_world initial_state).2.

Definition failing_s1 : state :=
  (run_stages (take 2 (stages failing_world example_sections)) failing_s0).2.

Definition failing_s2 : state :=
  (construct_magnets failing_world (VRef 3) failing_s1).2.

(** The state of the quiet run in which the DAGMC export starts. *)
Definition before_export : state :=
  (run_stages (take 6 (stages quiet_world example_sections))
     (prelude quiet_world initial_state).2).2.

(** ** Further vocabulary *)

(** The message of the vmec_file setter for a file whose extension is
    [sfx]. *)
Definition extension_error (sfx : string) : string :=
  "Plasma equilibrium VMEC data file input has extension '"
  +:+ sfx +:+ "'. File format must be netCDF ('.nc').".

(** The value of a key after the merge of the user's dictionary into the
    defaults, and the heap a successful [set_*] leaves. *)
Definition merged_value (def dm : pydict) (k : string) : pyval :=
  default VNone ((dm ∪ def) !! k).

Definition merged_heap (def dm : pydict) (h : pyheap) : pyheap :=
  <[loc2 def h := dm ∪ def]> (heap2 def h).

(** The calls of the three export methods on the object [o], for the user
    dictionary [dm]. *)
Definition export_invessel_build_calls (o : nat) (dm : pydict) (h : pyheap)
    : list event :=
  EMethod InVesselBuild o export_step
    [Kw "export_dir" (merged_value invessel_build_def dm "export_dir")]
  :: if truthy (merged_heap invessel_build_def dm h)
          (merged_value invessel_build_def dm "export_cad_to_dagmc")
     then [EMethod InVesselBuild o export_cad_to_dagmc
             [Kw "filename"
                (merged_value invessel_build_def dm "dagmc_filename");
              Kw "export_dir"
                (merged_value invessel_build_def dm "export_dir")]]
     else [].

Definition export_magnets_calls (o : nat) (dm : pydict) (h : pyheap)
    : list event :=
  EMethod MagnetSet o export_step
    [Kw "filename" (merged_value magnets_def dm "step_filename");
     Kw "export_dir" (merged_value magnets_def dm "export_dir")]
  :: if truthy (merged_heap magnets_def dm h)
          (merged_value magnets_def dm "export_mesh")
     then [EMethod MagnetSet o mesh_magnets [];
           EMethod MagnetSet o export_mesh
             [Kw "filename" (merged_value magnets_def dm "mesh_filename");
              Kw "export_dir" (merged_value magnets_def dm "export_dir")]]
     else [].

Definition export_source_mesh_calls (o : nat) (dm : pydict) : list event :=
  [EMethod SourceMesh o export_mesh
     [Kw "filename" (merged_value source_def dm "filename");
      Kw "export_dir" (merged_value source_def dm "export_dir")]].

(** A run whose calls are an initial segment of [expected], and all of it
    when the run returns. *)
Definition makes_calls (expected : list event) (s : state)
    (out : result unit * state) : Prop :=
  ∃ evs,
    trace out.2 = trace s ++ evs ∧ evs `prefix_of` expected ∧
    (out.1 = Ok tt → evs = expected).

(** The calls of [construct_magnets] on the new object [o], for the user
    dictionary [dm] and the stored logger. *)
Definition construct_magnets_calls (o : nat) (dm : pydict) (logger : pyval)
    : list event :=
  [ENew MagnetSet o
     [Pos (merged_value magnets_def dm "coils_file_path");
      Pos (merged_value magnets_def dm "start_line");
      Pos (merged_value magnets_def dm "cross_section");
      Pos (merged_value magnets_def dm "toroidal_extent");
      Kw "sample_mod" (merged_value magnets_def dm "sample_mod");
      Kw "scale" (merged_value magnets_def dm "scale");
      Kw "mat_tag" (merged_value magnets_def dm "mat_tag");
      Kw "logger" logger];
   EMethod MagnetSet o build_magnet_coils []].

(** The keys that have no default. *)
Definition invessel_build_required : list string :=
  ["toroidal_angles"; "poloidal_angles"; "radial_build"; "wall_s"].

Definition magnets_required : list string :=
  ["coils_file_path"; "start_line"; "cross_section"; "toroidal_extent"].

Definition source_required : list string :=
  ["num_s"; "num_theta"; "num_phi"; "toroidal_extent"].

(** A run that stops at a missing key: a [KeyError] for a key of [req]
    that the user's dictionary lacks, and no call made. *)
Definition stops_at_missing_key (req : list string) (dm : pydict)
    (s : state) (out : result unit * state) : Prop :=
  ∃ k, k ∈ req ∧ dm !! k = None ∧ out.1 = Raise (KeyError k) ∧
       trace out.2 = trace s.

(** A dictionary obtained from a [get_*] is a snapshot for [set_]: the
    call leaves the object as it is and stores another object. *)
Definition snapshot_kept (set_ : pyval → M unit) (get_ : M loc)
    (v : pyval) (s : state) (l : loc) (m : pydict) : Prop :=
  heap (set_ v s).2 !! l = Some m ∧
  ∃ l', get_ (set_ v s).2 = (Ok l', (set_ v s).2) ∧ l' ≠ l.

(** The name and material tag of a component, and the call that imports
    its STEP file from the directory [dir]. *)
Definition component_tag (nc : string * component) : string * string :=
  (nc.1, comp_mat_tag nc.2).

Definition import_call (dir : pyval) (nc : string * component) : event :=
  ECall import_step_cubit [Pos (VStr nc.1); Pos dir].

Definition has_vol_id (nc : string * component) : Prop :=
  is_Some (comp_vol_id nc.2).

(** A run that only issues calls of [expected] (see [makes_calls]), that
    only a failing call can stop, and that leaves the attributes of the
    Stellarator alone. *)
Definition calls_only (expected : list event) (s : state)
    (out : result unit * state) : Prop :=
  makes_calls expected s out ∧
  (∀ e, out.1 = Raise e → ∃ ev, e = ExternalError ev) ∧
  self out.2 = self s.

(** A run that issues all of [expected] and then raises [e], unless one of
    these calls fails before. *)
Definition raises_after (e : exn) (expected : list event) (s : state)
    (out : result unit * state) : Prop :=
  ∃ evs,
    trace out.2 = trace s ++ evs ∧ evs `prefix_of` expected ∧
    (out.1 = Raise e ∧ evs = expected ∨
     ∃ ev, out.1 = Raise (ExternalError ev)).

(** The commands of the legacy tagging: one group for the magnets, then one
    per component of the in-vessel build. *)
Definition magnet_ids (ms : MagnetSetObj) : string :=
  join " " (str_int <$> volume_ids ms).

Definition legacy_magnet_cmds (om : option MagnetSetObj) : list event :=
  match om with
  | Some ms => [cmd (group_cmd (mat_tag ms) (magnet_ids ms))]
  | None => []
  end.

Definition legacy_component_cmds (nc : string * component) : list event :=
  match comp_vol_id nc.2 with
  | Some v => [cmd (group_cmd (comp_mat_tag nc.2) (str_int v))]
  | None => []
  end.

Definition components (ob : option InVesselBuildObj)
    : list (string * component) :=
  match ob with
  | Some o => radial_build o
  | None => []
  end.

Definition legacy_tag_calls (om : option MagnetSetObj)
    (ob : option InVesselBuildObj) : list event :=
  legacy_magnet_cmds om ++ (components ob ≫= legacy_component_cmds).

(** The commands of the native tagging: the three commands of a material
    block for the magnets, on the block [b], and for each component, on
    the block of its volume id. *)
Definition block_cmds (tag : string) (b : Z) (ids : string) : list event :=
  [cmd (create_material_cmd tag); cmd (block_add_cmd b ids);
   cmd (block_material_cmd b tag)].

Definition native_magnet_cmds (om : option MagnetSetObj) : list event :=
  match om with
  | Some ms =>
      match volume_ids ms with
      | v :: vs => block_cmds (mat_tag ms) (list_min v vs) (magnet_ids ms)
      | [] => []
      end
  | None => []
  end.

Definition native_component_cmds (nc : string * component) : list event :=
  match comp_vol_id nc.2 with
  | Some v => block_cmds (comp_mat_tag nc.2) v (str_int v)
  | None => []
  end.

Definition native_tag_calls (om : option MagnetSetObj)
    (ob : option InVesselBuildObj) : list event :=
  cmd "set duplicate block elements off"
  :: native_magnet_cmds om ++ (components ob ≫= native_component_cmds).

(** The commands of a tagging up to a component that has no volume id. *)
Definition tag_calls_before (legacy : bool) (om : option MagnetSetObj)
    (pre : list (string * component)) : list event :=
  if legacy
  then legacy_magnet_cmds om ++ (pre ≫= legacy_component_cmds)
  else cmd "set duplicate block elements off"
       :: native_magnet_cmds om ++ (pre ≫= native_component_cmds).

(** A magnet set with a volume list on which [min] is defined. *)
Definition has_volumes (om : option MagnetSetObj) : Prop :=
  ∀ ms, om = Some ms → volume_ids ms ≠ [].

(** The calls of a run of [export_dagmc] that returns: the preparation, the
    import of the components of the in-vessel build [ob], the merging
    selected by [skip], the tagging selected by [legacy] on the magnets
    [om] and on the components as the export leaves them ([ob']), and the
    export call. *)
Definition import_calls (ob : option InVesselBuildObj) : list event :=
  match ob with
  | Some o => import_call (export_dir o) <$> radial_build o
  | None => []
  end.

Definition merge_calls (skip : bool) (ob : option InVesselBuildObj)
    : list event :=
  if skip then
    match ob with
    | Some o => [EMethod InVesselBuild (ivb_id o) merge_layer_surfaces []]
    | None => []
    end
  else [cmd "imprint volume all"; cmd "merge volume all"].

Definition tag_calls (legacy : bool) (om : option MagnetSetObj)
    (ob : option InVesselBuildObj) : list event :=
  if legacy then legacy_tag_calls om ob else native_tag_calls om ob.

Definition export_dagmc_calls (lg : Logger) (skip legacy : bool)
    (dm : pydict) (om : option MagnetSetObj)
    (ob ob' : option InVesselBuildObj) : list event :=
  [ECall init_cubit []; ELog lg LInfo "Exporting DAGMC neutronics model..."]
  ++ import_calls ob ++ merge_calls skip ob ++ tag_calls legacy om ob'
  ++ [export_call dm legacy].

(** ** Further example data *)

(** The instance the constructor returns in the quiet world. *)
Definition new_instance : state :=
  (Stellarator quiet_world (VStr "wout_vmec.nc") VNone initial_state).2.

(** The in-vessel build and the source mesh of the quiet run. *)
Definition example_build : InVesselBuildObj :=
  mkIVB 1
    [("plasma", mkComponent "plasma" None);
     ("first_wall", mkComponent "steel" None)]
    (VStr EmptyString).

Definition example_mesh : SourceMeshObj := mkSM 9.

(** The state of the quiet run after the import of the in-vessel build,
    and after the whole export. *)
Definition imported_state : state :=
  (_import_ivb_step quiet_world before_export).2.

Definition exported_state : state :=
  (export_dagmc quiet_world (VRef 5) before_export).2.

(** An instance whose magnet set has no volumes. *)
Definition no_volumes : MagnetSetObj := mkMS 1 [] "magnets".

Definition no_volumes_state : state :=
  mkState example_yaml []
    (mkStellarator (Some (VStr "wout_vmec.nc")) (VLogger default_logger)
       (VObj 0) None (Some no_volumes) None None None None None).

(** A configuration that names a VMEC file with the wrong extension. *)
Definition text_yaml : pyheap :=
  <[1%positive :=
      list_to_map
        [("vmec_file", VStr "wout_vmec.txt"); ("invessel_build", VRef 2);
         ("magnet_coils", VRef 3); ("source_mesh", VRef 4);
         ("dagmc_export", VRef 5)]]> example_yaml.

Definition text_world : Externals :=
  example_world (fun _ => false) text_yaml.




(** * Verification *)

(** ** Reasoning about runs *)

Lemma bind_eq {A B} (m : M A) (f : A → M B) (s : state) :
  (m ≫= f) s =
  match m s with
  | (Ok a, s') => f a s'
  | (Raise e, s') => (Raise e, s')
  end.
Proof. reflexivity. Qed.

Ltac msimpl :=
  cbn [heap trace self fst snd
       _vmec_file _logger vmec invessel_build magnet_set source_mesh
       ivb_dict magnets_dict source_dict dagmc_export
       with_vmec_file with_logger with_vmec with_invessel_build
       with_magnet_set with_source_mesh with_ivb_dict with_magnets_dict
       with_source_dict with_dagmc_export].

Ltac munfold :=
  unfold attr, is_truthy, get_heap, get_self, set_self, get_trace, emit,
    raise, mbind, M_bind, bind, mret, M_ret, ret;
  msimpl.

(** ** Configuration dictionaries *)

Lemma set_dict_eq def w g name v s :
  (∀ x st, g (w x st) = x) →
  set_dict def w g name v s =
  match lookup_dict (heap2 def (heap s)) v with
  | Some dm =>
      (Ok tt, mkState (<[loc2 def (heap s) := dm ∪ def]> (heap2 def (heap s)))
                (trace s) (w (Some (loc2 def (heap s))) (self s)))
  | None =>
      (Raise TypeError,
       mkState (heap2 def (heap s)) (trace s)
         (w (Some (loc2 def (heap s))) (self s)))
  end.
Proof.
  intros Hg. unfold set_dict, dict_copy, new_dict, dict_update.
  munfold. fold (loc1 (heap s)).
  rewrite lookup_insert_eq. munfold.
  fold (loc2 def (heap s)). rewrite Hg.
  fold (heap2 def (heap s)).
  destruct v; cbn [lookup_dict heap trace self]; try reflexivity.
  unfold heap2 at 1. rewrite lookup_insert_eq.
  destruct (heap2 def (heap s) !! l); reflexivity.
Qed.

Lemma loc1_fresh (h : pyheap) l (d : pydict) : h !! l = Some d → l ≠ loc1 h.
Proof.
  intros H ->. apply (is_fresh (dom h)). apply elem_of_dom. eauto.
Qed.

Lemma loc2_fresh def (h : pyheap) l (d : pydict) :
  h !! l = Some d → l ≠ loc2 def h.
Proof.
  intros H ->. apply (is_fresh (dom (<[loc1 h:=def]> h))).
  apply elem_of_dom. rewrite lookup_insert_ne; [eauto|].
  intros E. symmetry in E. revert E. eapply loc1_fresh; eauto.
Qed.

Lemma heap2_old def (h : pyheap) l (d : pydict) :
  h !! l = Some d → heap2 def h !! l = Some d.
Proof.
  intros H. unfold heap2.
  pose proof (loc1_fresh _ _ _ H). pose proof (loc2_fresh def _ _ _ H).
  rewrite !lookup_insert_ne by done. done.
Qed.

(** What a successful [set_*] leaves, for an argument that is a dictionary
    of the heap. *)
Lemma set_dict_ok def w g name (d : loc) (dm : pydict) s :
  (∀ x st, g (w x st) = x) →
  heap s !! d = Some dm →
  set_dict def w g name (VRef d) s =
  (Ok tt, mkState (<[loc2 def (heap s) := dm ∪ def]> (heap2 def (heap s)))
            (trace s) (w (Some (loc2 def (heap s))) (self s))).
Proof.
  intros Hg Hd. rewrite set_dict_eq by done. cbn [lookup_dict].
  by rewrite (heap2_old _ _ _ _ Hd).
Qed.

Lemma union_merges (d def : pydict) : merges d def (d ∪ def).
Proof.
  split; intros k.
  - intros v H. by apply lookup_union_Some_l.
  - intros H. by apply lookup_union_r.
Qed.

Lemma set_dict_get_merges def w g name d dm s :
  (∀ x st, g (w x st) = x) →
  heap s !! d = Some dm →
  set_get_merges (set_dict def w g name) (attr name g) def d dm s.
Proof.
  intros Hg Hd. do 3 eexists. split; [by apply set_dict_ok|].
  split; [|split].
  - munfold. by rewrite Hg.
  - cbn [heap]. apply lookup_insert_eq.
  - apply union_merges.
Qed.

(** C2. For a user dictionary [d], [set_invessel_build_dict],
    [set_magnets_dict] and [set_source_dict] succeed and the following
    [get_*] returns a dictionary in which every key of [d] has [d]'s value
    and every other key has its default; the defaults are [repeat = 0],
    [num_ribs = 61], [num_rib_pts = 61], [sample_mod = 1] and, in all three
    dictionaries, [scale = m2cm = 100]. *)
Theorem config_defaults_merged (d : loc) (dm : pydict) (s : state) :
  heap s !! d = Some dm →
  set_get_merges set_invessel_build_dict get_invessel_build_dict
    invessel_build_def d dm s ∧
  set_get_merges set_magnets_dict get_magnets_dict magnets_def d dm s ∧
  set_get_merges set_source_dict get_source_dict source_def d dm s ∧
  invessel_build_def !! "repeat" = Some (VInt 0) ∧
  invessel_build_def !! "num_ribs" = Some (VInt 61) ∧
  invessel_build_def !! "num_rib_pts" = Some (VInt 61) ∧
  magnets_def !! "sample_mod" = Some (VInt 1) ∧
  invessel_build_def !! "scale" = Some m2cm ∧
  magnets_def !! "scale" = Some m2cm ∧
  source_def !! "scale" = Some m2cm ∧
  m2cm = VInt 100.
Proof.
  intros Hd.
  split; [|split; [|split]].
  - by apply (set_dict_get_merges invessel_build_def with_ivb_dict ivb_dict).
  - by apply (set_dict_get_merges magnets_def with_magnets_dict magnets_dict).
  - by apply (set_dict_get_merges source_def with_source_dict source_dict).
  - repeat split; reflexivity.
Qed.

(** C10. The four [set_*] methods leave the user's dictionary as it was:
    the object at [d] holds the same items after the call as before. *)
Theorem set_dicts_leave_argument_unchanged (d : loc) (dm : pydict) (s : state) :
  heap s !! d = Some dm →
  heap (set_invessel_build_dict (VRef d) s).2 !! d = Some dm ∧
  heap (set_magnets_dict (VRef d) s).2 !! d = Some dm ∧
  heap (set_source_dict (VRef d) s).2 !! d = Some dm ∧
  heap (set_dagmc_export (VRef d) s).2 !! d = Some dm.
Proof.
  intros Hd.
  assert (∀ def w g name, (∀ x st, g (w x st) = x) →
            heap (set_dict def w g name (VRef d) s).2 !! d = Some dm) as H.
  { intros def w g name Hg. rewrite (set_dict_ok _ _ _ _ _ _ _ Hg Hd).
    cbn [snd heap].
    rewrite lookup_insert_ne by (intros E; symmetry in E; revert E;
                                 by eapply loc2_fresh).
    by apply heap2_old. }
  split; [|split; [|split]].
  - by apply (H invessel_build_def with_ivb_dict ivb_dict "ivb_dict").
  - by apply (H magnets_def with_magnets_dict magnets_dict "magnets_dict").
  - by apply (H source_def with_source_dict source_dict "source_dict").
  - by apply (H dagmc_export_def with_dagmc_export dagmc_export "dagmc_export").
Qed.

(** ** The [vmec_file] and [logger] properties *)

(** The setter stores the value first; what follows only reads the state and
    logs. *)
Lemma vmec_file_setter_eq (p : string) (s : state) :
  vmec_file_setter (VStr p) s =
  let s1 := mkState (heap s) (trace s) (with_vmec_file (Some (VStr p)) (self s)) in
  if bool_decide (Path_suffix p ≠ ".nc") then
    let msg := "Plasma equilibrium VMEC data file input has extension '"
               +:+ Path_suffix p +:+ "'. File format must be netCDF ('.nc')." in
    match _logger (self s) with
    | VLogger lg =>
        (Raise (AssertionError msg),
         mkState (heap s) (trace s ++ [ELog lg LError msg])
           (with_vmec_file (Some (VStr p)) (self s)))
    | _ => (Raise (AttributeError "error"), s1)
    end
  else (Ok tt, s1).
Proof.
  unfold vmec_file_setter, log_. munfold.
  case_bool_decide; msimpl; [|reflexivity].
  destruct (_logger (self s)); reflexivity.
Qed.

Lemma vmec_file_setter_raises (p : string) (s : state) :
  Path_suffix p ≠ ".nc" → is_ok (vmec_file_setter (VStr p) s).1 = false.
Proof.
  intros H. rewrite vmec_file_setter_eq. cbv zeta.
  rewrite bool_decide_eq_true_2 by done.
  destruct (_logger (self s)); reflexivity.
Qed.

(** C1. Assigning a path whose extension is not ['.nc'] to [vmec_file]
    raises, and so does constructing a [Stellarator] with it, whatever the
    logger; assigning a path whose extension is ['.nc'] returns normally. *)
Theorem vmec_file_extension_enforced X (p : string) (s : state) :
  (Path_suffix p ≠ ".nc" →
   is_ok (vmec_file_setter (VStr p) s).1 = false ∧
   ∀ lg, is_ok (Stellarator X (VStr p) lg s).1 = false) ∧
  (Path_suffix p = ".nc" → (vmec_file_setter (VStr p) s).1 = Ok tt).
Proof.
  split.
  - intros H. split; [by apply vmec_file_setter_raises|].
    intros lg. unfold Stellarator, __init__.
    rewrite bind_eq. unfold set_self at 1.
    rewrite bind_eq. destruct (logger_setter X lg _) as [[[]|e] s1]; [|done].
    rewrite bind_eq.
    pose proof (vmec_file_setter_raises p s1 H) as Hr.
    destruct (vmec_file_setter (VStr p) s1) as [[[]|e] s2]; done.
  - intros H. rewrite vmec_file_setter_eq. cbv zeta.
    rewrite bool_decide_eq_false_2; [done|]. intros Hn. by apply Hn.
Qed.

(** C9. When the assignment of a path without the ['.nc'] extension
    raises, the path is already stored: reading [vmec_file] afterwards
    returns the rejected path, whatever was stored before. *)
Theorem rejected_vmec_file_is_stored (p : string) (s : state) :
  Path_suffix p ≠ ".nc" →
  is_ok (vmec_file_setter (VStr p) s).1 = false ∧
  _vmec_file (self (vmec_file_setter (VStr p) s).2) = Some (VStr p) ∧
  (vmec_file_getter (vmec_file_setter (VStr p) s).2).1 = Ok (VStr p).
Proof.
  intros H. split; [by apply vmec_file_setter_raises|].
  rewrite vmec_file_setter_eq. cbv zeta.
  rewrite bool_decide_eq_true_2 by done.
  destruct (_logger (self s)); split; reflexivity.
Qed.

(** The logger stored by the setter. *)
Lemma logger_setter_eq X (lo : pyval) (s : state) :
  logger_setter X lo s =
  match lo with
  | VNone =>
      (Ok tt, mkState (heap s) (trace s)
                (with_logger (VLogger (ext_log_init X))
                   (with_logger lo (self s))))
  | VLogger lg =>
      (Ok tt, mkState (heap s) (trace s)
                (if hasHandlers lg then with_logger lo (self s)
                 else with_logger (VLogger (ext_log_init X))
                        (with_logger lo (self s))))
  | _ => (Raise (AttributeError "hasHandlers"),
          mkState (heap s) (trace s) (with_logger lo (self s)))
  end.
Proof.
  unfold logger_setter. munfold.
  destruct lo; try reflexivity.
  destruct (hasHandlers lg); reflexivity.
Qed.

Lemma logger_setter_usable X (lo : pyval) (s : state) :
  hasHandlers (ext_log_init X) = true →
  lo = VNone ∨ (∃ lg, lo = VLogger lg) →
  (logger_setter X lo s).1 = Ok tt ∧
  usable_logger (_logger (self (logger_setter X lo s).2)).
Proof.
  intros Hinit Hlo. rewrite logger_setter_eq.
  destruct Hlo as [->|[lg ->]].
  - split; [done|]. by exists (ext_log_init X).
  - split; [done|]. cbn [snd self].
    destruct (hasHandlers lg) eqn:E; msimpl.
    + by exists lg.
    + by exists (ext_log_init X).
Qed.

(** Whatever its outcome, the [vmec_file] setter stores its argument and
    leaves the logger alone. *)
Lemma vmec_file_setter_frame (f : pyval) (s : state) :
  _logger (self (vmec_file_setter f s).2) = _logger (self s) ∧
  _vmec_file (self (vmec_file_setter f s).2) = Some f.
Proof.
  unfold vmec_file_setter, log_. munfold.
  destruct f; msimpl; try done.
  case_bool_decide; msimpl; try done.
  destruct (_logger (self s)) eqn:E; msimpl; by rewrite ?E.
Qed.

(** The rest of [__init__] does not touch the logger. *)
Lemma init_keeps_logger X (f lo : pyval) (s : state) :
  _logger (self (__init__ X f lo s).2) =
  _logger (self (logger_setter X lo s).2).
Proof.
  unfold __init__. rewrite bind_eq.
  destruct (logger_setter X lo s) as [[[]|e] s1]; [|done].
  msimpl. rewrite bind_eq.
  destruct (vmec_file_setter_frame f s1) as [Hl Hf].
  destruct (vmec_file_setter f s1) as [[[]|e] s2]; [|done].
  cbn [snd] in Hl, Hf. rewrite <- Hl.
  unfold vmec_file_getter, new_VMECData, ext_call. munfold.
  rewrite Hf.
  destruct (ext_raises X (trace s2) _); reflexivity.
Qed.

(** C8. Provided the default logger made by [log.init()] has handlers:
    assigning [None] or a logger object to [logger] returns normally and
    leaves a logger that has handlers; it is the default logger when [None]
    or a logger without handlers was assigned; and an instance on which
    [__init__] ran with such an argument holds a logger that has
    handlers. *)
Theorem logger_always_usable X (lo : pyval) (s : state) :
  hasHandlers (ext_log_init X) = true →
  lo = VNone ∨ (∃ lg, lo = VLogger lg) →
  (logger_setter X lo s).1 = Ok tt ∧
  usable_logger (_logger (self (logger_setter X lo s).2)) ∧
  (lo = VNone ∨ (∃ lg, lo = VLogger lg ∧ hasHandlers lg = false) →
   _logger (self (logger_setter X lo s).2) = VLogger (ext_log_init X)) ∧
  (∀ f, usable_logger (_logger (self (Stellarator X f lo s).2))).
Proof.
  intros Hinit Hlo.
  destruct (logger_setter_usable X lo s Hinit Hlo) as [Hok Hus].
  split; [done|]. split; [done|]. split.
  - rewrite logger_setter_eq. intros [->|[lg [-> Hh]]]; [done|].
    by rewrite Hh.
  - intros f. unfold Stellarator. rewrite bind_eq. unfold set_self at 1.
    rewrite init_keeps_logger.
    by apply logger_setter_usable.
Qed.

(** ** The YAML configuration *)

Lemma getitem_eq (v : pyval) (k : string) (s : state) :
  ∃ e, getitem v k s =
       (match section (heap s) v k with Some x => Ok x | None => Raise e end,
        s).
Proof.
  unfold section, getitem, dict_getitem.
  destruct v; cbn [lookup_dict]; try (by exists TypeError).
  munfold. destruct (heap s !! l) as [d|]; cbn; [|by exists TypeError].
  destruct (d !! k); cbn; by exists (KeyError k).
Qed.

Lemma read_yaml_config_eq X (fn : string) (s : state) v h' :
  ext_safe_load X fn (heap s) = Some (v, h') →
  ∃ e,
    read_yaml_config X fn s =
    (match section h' v "vmec_file", section h' v "invessel_build",
           section h' v "magnet_coils", section h' v "source_mesh",
           section h' v "dagmc_export" with
     | Some a, Some b, Some c, Some d, Some f => Ok (a, b, c, d, f)
     | _, _, _, _, _ => Raise e
     end, mkState h' (trace s) (self s)).
Proof.
  intros Hl. unfold read_yaml_config.
  rewrite bind_eq, Hl.
  set (s1 := mkState h' (trace s) (self s)).
  change h' with (heap s1).
  repeat (rewrite bind_eq;
          match goal with
          | |- context [getitem v ?k s1] =>
              let e := fresh "e" in let E := fresh "E" in
              destruct (getitem_eq v k s1) as [e E]; rewrite E; clear E;
              destruct (section (heap s1) v k); [|by exists e]
          end).
  by exists TypeError.
Qed.

(** C7. Once the file is loaded, [read_yaml_config] returns the values
    stored under the five section keys, and it raises exactly when one of
    the five keys is missing from the loaded data; in that case the command
    line program raises before any collaborator is called. *)
Theorem yaml_sections_required X (fn : string) (s : state) v h' :
  ext_safe_load X fn (heap s) = Some (v, h') →
  (∀ a b c d f,
     (read_yaml_config X fn s).1 = Ok (a, b, c, d, f) ↔
     section h' v "vmec_file" = Some a ∧
     section h' v "invessel_build" = Some b ∧
     section h' v "magnet_coils" = Some c ∧
     section h' v "source_mesh" = Some d ∧
     section h' v "dagmc_export" = Some f) ∧
  (is_ok (read_yaml_config X fn s).1 = false ↔
   ∃ k, k ∈ section_keys ∧ section h' v k = None) ∧
  (ext_argv_filename X = Some fn →
   (∃ k, k ∈ section_keys ∧ section h' v k = None) →
   is_ok (parastell X s).1 = false ∧ trace (parastell X s).2 = trace s).
Proof.
  intros Hl. destruct (read_yaml_config_eq X fn s v h' Hl) as [e E].
  assert ((∃ k, k ∈ section_keys ∧ section h' v k = None) ↔
          is_ok (read_yaml_config X fn s).1 = false) as Hmiss.
  { rewrite E. cbn [fst]. split.
    - intros (k & Hk & Hn). unfold section_keys in Hk.
      repeat (apply elem_of_cons in Hk as [->|Hk];
              [rewrite Hn; by repeat case_match|]).
      by apply elem_of_nil in Hk.
    - intros H.
      destruct (section h' v "vmec_file") eqn:E1;
        [|exists "vmec_file"; split; [set_solver|done]].
      destruct (section h' v "invessel_build") eqn:E2;
        [|exists "invessel_build"; split; [set_solver|done]].
      destruct (section h' v "magnet_coils") eqn:E3;
        [|exists "magnet_coils"; split; [set_solver|done]].
      destruct (section h' v "source_mesh") eqn:E4;
        [|exists "source_mesh"; split; [set_solver|done]].
      destruct (section h' v "dagmc_export") eqn:E5;
        [|exists "dagmc_export"; split; [set_solver|done]].
      done. }
  split; [|split].
  - intros a b c d f. rewrite E. cbn [fst].
    split.
    + intros H. repeat case_match; try done. by injection H as -> -> -> -> ->.
    + by intros (-> & -> & -> & -> & ->).
  - by rewrite Hmiss.
  - intros Ha Hk. apply Hmiss in Hk. unfold parastell, parse_args.
    rewrite Ha. rewrite bind_eq. munfold.
    rewrite E in Hk |- *. cbn [fst] in Hk.
    by repeat case_match.
Qed.

(** ** Runs, step by step *)

Lemma bind_inv {A B} (m : M A) (f : A → M B) s r s' :
  (m ≫= f) s = (r, s') →
  (∃ e, m s = (Raise e, s') ∧ r = Raise e) ∨
  (∃ a s1, m s = (Ok a, s1) ∧ f a s1 = (r, s')).
Proof.
  rewrite bind_eq. destruct (m s) as [[a|e] s1]; intros H.
  - right. eauto.
  - left. injection H as <- <-. eauto.
Qed.

Lemma bind_ok {A B} (m : M A) (f : A → M B) s b s' :
  (m ≫= f) s = (Ok b, s') →
  ∃ a s1, m s = (Ok a, s1) ∧ f a s1 = (Ok b, s').
Proof.
  intros H. apply bind_inv in H as [(e & _ & [=])|H]. done.
Qed.

Lemma moves_refl hp P s : moves hp P s s.
Proof. split; [|done]. exists []. by rewrite app_nil_r. Qed.

Lemma moves_trans hp P s1 s2 s3 :
  moves hp P s1 s2 → moves hp P s2 s3 → moves hp P s1 s3.
Proof.
  intros [(e1 & T1 & F1) H1] [(e2 & T2 & F2) H2]. split.
  - exists (e1 ++ e2). rewrite T2, T1, app_assoc. split; [done|].
    by apply Forall_app.
  - intros Hp. by rewrite H2, H1.
Qed.

Lemma moves_weaken hp (P Q : event → Prop) s s' :
  (∀ e, P e → Q e) → moves hp P s s' → moves false Q s s'.
Proof.
  intros HPQ [(evs & T & F) _]. split; [|done].
  exists evs. split; [done|]. eapply Forall_impl; eauto.
Qed.

Lemma moves_impl hp (P Q : event → Prop) s s' :
  (∀ e, P e → Q e) → moves hp P s s' → moves hp Q s s'.
Proof.
  intros HPQ [(evs & T & F) H]. split; [|done].
  exists evs. split; [done|]. eapply Forall_impl; eauto.
Qed.

Lemma steps_impl {A} hp (P Q : event → Prop) (m : M A) :
  (∀ e, P e → Q e) → steps hp P m → steps hp Q m.
Proof. intros HPQ H s. eapply moves_impl; eauto. Qed.

Lemma steps_forget {A} hp (P : event → Prop) (m : M A) :
  steps hp P m → steps false P m.
Proof. intros H s. eapply moves_weaken; eauto. Qed.

Lemma steps_bind {A B} hp P (m : M A) (f : A → M B) :
  steps hp P m → (∀ a, steps hp P (f a)) → steps hp P (m ≫= f).
Proof.
  intros Hm Hf s. rewrite bind_eq. specialize (Hm s).
  destruct (m s) as [[a|e] s1]; [|done].
  eapply moves_trans; [exact Hm|]. apply Hf.
Qed.

Lemma steps_same_state {A} hp P (m : M A) :
  (∀ s, trace (m s).2 = trace s ∧ heap (m s).2 = heap s) → steps hp P m.
Proof.
  intros H s. destruct (H s) as [Ht Hh]. split; [|done].
  exists []. by rewrite app_nil_r.
Qed.

Lemma steps_ret {A} hp P (a : A) : steps hp P (mret a).
Proof. by apply steps_same_state. Qed.

Lemma steps_raise {A} hp P e : steps hp P (@raise A e).
Proof. by apply steps_same_state. Qed.

Lemma steps_get_self hp P : steps hp P get_self.
Proof. by apply steps_same_state. Qed.

Lemma steps_get_heap hp P : steps hp P get_heap.
Proof. by apply steps_same_state. Qed.

Lemma steps_get_trace hp P : steps hp P get_trace.
Proof. by apply steps_same_state. Qed.

Lemma steps_set_self hp P f : steps hp P (set_self f).
Proof. by apply steps_same_state. Qed.

Lemma steps_emit hp (P : event → Prop) e : P e → steps hp P (emit e).
Proof.
  intros He s. split; [|done]. exists [e]. split; [done|]. by constructor.
Qed.

Lemma steps_ext_call X hp (P : event → Prop) e : P e → steps hp P (ext_call X e).
Proof.
  intros He s. unfold ext_call.
  destruct (ext_raises X (trace s) e); cbn [snd];
    (split; [|done]; exists [e]; split; [done|]; by constructor).
Qed.

Lemma steps_dict_getitem hp P l k : steps hp P (dict_getitem l k).
Proof.
  apply steps_same_state. intros s. unfold dict_getitem. munfold.
  by repeat case_match.
Qed.

Lemma steps_new_dict P d : steps false P (new_dict d).
Proof. intros s. split; [|done]. exists []. by rewrite app_nil_r. Qed.

Lemma steps_dict_update P l v : steps false P (dict_update l v).
Proof.
  intros s. split; [|done]. exists []. rewrite app_nil_r.
  unfold dict_update. by repeat case_match.
Qed.

(** The step rules, applied as far as the shape of the program goes. *)
Ltac steps_tac :=
  repeat match goal with
    | |- steps _ _ (_ ≫= _) => apply steps_bind; [|intros ?]
    | |- steps _ _ (mret _) => apply steps_ret
    | |- steps _ _ (ret _) => apply steps_ret
    | |- steps _ _ (raise _) => apply steps_raise
    | |- steps _ _ get_self => apply steps_get_self
    | |- steps _ _ get_heap => apply steps_get_heap
    | |- steps _ _ get_trace => apply steps_get_trace
    | |- steps _ _ (set_self _) => apply steps_set_self
    | |- steps _ _ (dict_getitem _ _) => apply steps_dict_getitem
    | |- steps _ _ (new_dict _) => apply steps_new_dict
    | |- steps _ _ (dict_update _ _) => apply steps_dict_update
    | |- steps _ _ (emit _) => apply steps_emit; try done
    | |- steps _ _ (ext_call _ _) => apply steps_ext_call; try done
    | |- steps _ _ (match ?x with _ => _ end) => destruct x
    end.

Lemma steps_set_dict P def w g name v : steps false P (set_dict def w g name v).
Proof. unfold set_dict, dict_copy, attr. steps_tac. Qed.

Lemma steps_attr {A} hp P name (g : StellaratorObj → option A) :
  steps hp P (attr name g).
Proof. unfold attr. steps_tac. Qed.

Lemma steps_log hp (P : event → Prop) lvl msg :
  (∀ lg, P (ELog lg lvl msg)) → steps hp P (log_ lvl msg).
Proof. intros H. unfold log_. steps_tac. Qed.

Lemma steps_for_each {A} hp P (l : list A) (body : A → M unit) :
  (∀ x, steps hp P (body x)) → steps hp P (for_each l body).
Proof.
  intros H. induction l as [|x l IH]; cbn [for_each]; steps_tac; done.
Qed.

(** ** Construction of the source mesh and of the in-vessel build *)

Lemma dict_getitem_eq (l : loc) (k : string) (s : state) :
  dict_getitem l k s =
  (match heap s !! l with
   | Some d => match d !! k with
               | Some v => Ok v
               | None => Raise (KeyError k)
               end
   | None => Raise TypeError
   end, s).
Proof. unfold dict_getitem. munfold. by repeat case_match. Qed.

Ltac calls_none :=
  exists [], []; msimpl; rewrite ?app_nil_r;
  split; [reflexivity|split; [apply prefix_nil|by intros [=]]].

Ltac calls_some :=
  msimpl; rewrite <- ?app_assoc; cbn [app];
  eexists _, _; split; [reflexivity|];
  split; [eexists; reflexivity|first [by intros [=] | by intros _]].

(** One [d[k]] of the program, on the dictionary just stored at [l]. *)
Ltac getitem_step tac :=
  rewrite dict_getitem_eq; msimpl; rewrite lookup_insert_eq; msimpl;
  let E := fresh "E" in
  match goal with
  | |- context [match ?m !! ?k with _ => _ end] =>
      destruct (m !! k) eqn:E; msimpl; [|tac]
  end.

Lemma construct_source_mesh_calls X (v : pyval) (s : state) :
  calls_in_order source_mesh_calls s (construct_source_mesh X v s) ∧
  ((construct_source_mesh X v s).1 = Ok tt →
   source_mesh (self (construct_source_mesh X v s).2)
   = Some (mkSM (List.length (trace s)))).
Proof.
  unfold calls_in_order, construct_source_mesh.
  change (set_source_dict v)
    with (set_dict source_def with_source_dict source_dict "source_dict" v).
  rewrite bind_eq, set_dict_eq by done.
  destruct (lookup_dict _ v) as [dm|]; [|split; [calls_none|by intros [=]]].
  unfold get_source_dict, logger_getter, new_SourceMesh, sm_receiver,
    sm_invoke, ext_call.
  munfold.
  do 5 getitem_step ltac:(split; [calls_none|by intros [=]]).
  destruct (ext_raises X _ _); msimpl; [split; [calls_some|by intros [=]]|].
  destruct (ext_raises X _ _); msimpl; [split; [calls_some|by intros [=]]|].
  destruct (ext_raises X _ _); msimpl; [split; [calls_some|by intros [=]]|].
  split; [calls_some|done].
Qed.

Lemma construct_invessel_build_calls X (v : pyval) (s : state) :
  calls_in_order invessel_build_calls s (construct_invessel_build X v s) ∧
  ((construct_invessel_build X v s).1 = Ok tt →
   ivb_id <$> invessel_build (self (construct_invessel_build X v s).2)
   = Some (List.length (trace s))).
Proof.
  unfold calls_in_order, construct_invessel_build.
  change (set_invessel_build_dict v)
    with (set_dict invessel_build_def with_ivb_dict ivb_dict "ivb_dict" v).
  rewrite bind_eq, set_dict_eq by done.
  destruct (lookup_dict _ v) as [dm|]; [|split; [calls_none|by intros [=]]].
  unfold get_invessel_build_dict, logger_getter, new_InVesselBuild,
    ivb_receiver, ivb_invoke, ext_call.
  munfold.
  do 10 getitem_step ltac:(split; [calls_none|by intros [=]]).
  destruct (ext_raises X _ _); msimpl; [split; [calls_some|by intros [=]]|].
  destruct (ext_ivb_new X _ _) as [rb ed]; msimpl.
  destruct (ext_ivb_effect X _ _ _ _) as [rb1 ed1]; msimpl.
  destruct (ext_raises X _ _); msimpl; [split; [calls_some|by intros [=]]|].
  destruct (ext_ivb_effect X _ _ _ _) as [rb2 ed2]; msimpl.
  destruct (ext_raises X _ _); msimpl; [split; [calls_some|by intros [=]]|].
  destruct (ext_ivb_effect X _ _ _ _) as [rb3 ed3]; msimpl.
  destruct (ext_raises X _ _); msimpl; [split; [calls_some|by intros [=]]|].
  split; [calls_some|done].
Qed.

(** A key required by a constructor is found in the merged dictionary when
    the user's dictionary or the defaults have it. *)
Ltac key_found Hreq :=
  match goal with
  | E : _ !! ?k = None |- _ =>
      apply lookup_union_None in E as [? ?];
      first [ discriminate
            | exfalso; destruct (Hreq k ltac:(set_solver)) as [? ?];
              congruence ]
  end.

Lemma construct_source_mesh_returns X (d : loc) (dm : pydict) (s : state) :
  (∀ t e, ext_raises X t e = false) →
  heap s !! d = Some dm →
  (∀ k, k ∈ ["num_s"; "num_theta"; "num_phi"; "toroidal_extent"] →
        is_Some (dm !! k)) →
  (construct_source_mesh X (VRef d) s).1 = Ok tt.
Proof.
  intros Hq Hd Hreq. unfold construct_source_mesh.
  change (set_source_dict (VRef d))
    with (set_dict source_def with_source_dict source_dict "source_dict"
            (VRef d)).
  rewrite bind_eq, (set_dict_ok _ _ _ _ d dm) by done.
  unfold get_source_dict, logger_getter, new_SourceMesh, sm_receiver,
    sm_invoke, ext_call.
  munfold.
  do 5 getitem_step ltac:(idtac; key_found Hreq).
  rewrite !Hq. msimpl. by rewrite !Hq.
Qed.

Lemma construct_invessel_build_returns X (d : loc) (dm : pydict) (s : state) :
  (∀ t e, ext_raises X t e = false) →
  heap s !! d = Some dm →
  (∀ k, k ∈ ["toroidal_angles"; "poloidal_angles"; "radial_build"; "wall_s"] →
        is_Some (dm !! k)) →
  (construct_invessel_build X (VRef d) s).1 = Ok tt.
Proof.
  intros Hq Hd Hreq. unfold construct_invessel_build.
  change (set_invessel_build_dict (VRef d))
    with (set_dict invessel_build_def with_ivb_dict ivb_dict "ivb_dict"
            (VRef d)).
  rewrite bind_eq, (set_dict_ok _ _ _ _ d dm) by done.
  unfold get_invessel_build_dict, logger_getter, new_InVesselBuild,
    ivb_receiver, ivb_invoke, ext_call.
  munfold.
  do 10 getitem_step ltac:(idtac; key_found Hreq).
  rewrite !Hq. msimpl.
  destruct (ext_ivb_new X _ _) as [rb ed]; msimpl.
  destruct (ext_ivb_effect X _ _ _ _) as [rb1 ed1]; msimpl.
  rewrite !Hq. msimpl.
  destruct (ext_ivb_effect X _ _ _ _) as [rb2 ed2]; msimpl.
  rewrite !Hq. msimpl.
  destruct (ext_ivb_effect X _ _ _ _) as [rb3 ed3]; msimpl.
  by rewrite !Hq.
Qed.

(** C6. In every run of [construct_source_mesh] the calls made are an
    initial segment of: constructor of [SourceMesh], [create_vertices],
    [create_mesh], all on the object just built; when the method returns
    they are exactly these three, once each and in this order, and the
    object is stored in [source_mesh]. The same holds of
    [construct_invessel_build] with the constructor of [InVesselBuild],
    [populate_surfaces], [calculate_loci] and [generate_components]. Both
    methods return when no collaborator raises and the user's dictionary has
    the keys without defaults. *)
Theorem construct_call_order X (v : pyval) (s : state) :
  (calls_in_order source_mesh_calls s (construct_source_mesh X v s) ∧
   ((construct_source_mesh X v s).1 = Ok tt →
    source_mesh (self (construct_source_mesh X v s).2)
    = Some (mkSM (List.length (trace s))))) ∧
  (calls_in_order invessel_build_calls s (construct_invessel_build X v s) ∧
   ((construct_invessel_build X v s).1 = Ok tt →
    ivb_id <$> invessel_build (self (construct_invessel_build X v s).2)
    = Some (List.length (trace s)))) ∧
  (∀ (d : loc) (dm : pydict),
     v = VRef d → heap s !! d = Some dm →
     (∀ t e, ext_raises X t e = false) →
     ((∀ k, k ∈ ["num_s"; "num_theta"; "num_phi"; "toroidal_extent"] →
            is_Some (dm !! k)) →
      (construct_source_mesh X v s).1 = Ok tt) ∧
     ((∀ k, k ∈ ["toroidal_angles"; "poloidal_angles"; "radial_build";
                 "wall_s"] → is_Some (dm !! k)) →
      (construct_invessel_build X v s).1 = Ok tt)).
Proof.
  split; [apply construct_source_mesh_calls|].
  split; [apply construct_invessel_build_calls|].
  intros d dm -> Hd Hq. split; intros Hreq.
  - by eapply construct_source_mesh_returns.
  - by eapply construct_invessel_build_returns.
Qed.

(** ** The pipeline of [parastell] *)

Lemma bind_ret_r (m : M unit) (s : state) : (m ;; mret tt) s = m s.
Proof. rewrite bind_eq. by destruct (m s) as [[[]|e] s1]. Qed.

Lemma parastell_stages X (s : state) :
  parastell X s = (cfg ← prelude X; run_stages (stages X cfg)) s.
Proof.
  unfold parastell, prelude. rewrite !bind_eq.
  destruct (parse_args X s) as [[fn|e] s1]; [|done].
  rewrite !bind_eq.
  destruct (read_yaml_config X fn s1) as [[[[[[a b] c] d] f]|e] s2]; [|done].
  cbn [fst]. rewrite !bind_eq.
  destruct (Stellarator X a VNone s2) as [[[]|e] s3]; [|done].
  unfold mret at 1, M_ret, ret. cbn [stages run_stages].
  repeat (rewrite !bind_eq;
          match goal with
          | |- context [match ?m ?s with _ => _ end] =>
              destruct (m s) as [[[]|?] ?]; [|done]
          end).
  done.
Qed.

Lemma run_stages_app l1 l2 s :
  run_stages (l1 ++ l2) s = (run_stages l1 ;; run_stages l2) s.
Proof.
  revert s. induction l1 as [|[k m] l1 IH]; intros s; [done|].
  cbn [app run_stages]. rewrite !bind_eq.
  destruct (m s) as [[[]|e] s1]; [|done]. apply IH.
Qed.

(** No stage runs after one that raised: the run ends in the state in which
    the exception was raised. *)
Lemma run_stages_fail_fast done k m rest s s1 e s2 :
  run_stages done s = (Ok tt, s1) →
  m s1 = (Raise e, s2) →
  run_stages (done ++ (k, m) :: rest) s = (Raise e, s2).
Proof.
  intros Hd Hm. rewrite run_stages_app, bind_eq, Hd.
  cbn [run_stages]. by rewrite bind_eq, Hm.
Qed.

(** *** Each stage makes only its own calls *)

Lemma steps_is_truthy hp P v : steps hp P (is_truthy v).
Proof. unfold is_truthy. steps_tac. Qed.

Lemma steps_set_invessel_build_dict P v : steps false P (set_invessel_build_dict v).
Proof. apply (steps_set_dict P invessel_build_def with_ivb_dict ivb_dict). Qed.

Lemma steps_set_magnets_dict P v : steps false P (set_magnets_dict v).
Proof. apply (steps_set_dict P magnets_def with_magnets_dict magnets_dict). Qed.

Lemma steps_set_source_dict P v : steps false P (set_source_dict v).
Proof. apply (steps_set_dict P source_def with_source_dict source_dict). Qed.

Lemma steps_set_dagmc_export P v : steps false P (set_dagmc_export v).
Proof.
  apply (steps_set_dict P dagmc_export_def with_dagmc_export dagmc_export).
Qed.

Lemma steps_ivb_invoke X hp (P : event → Prop) o m args :
  P (EMethod InVesselBuild (ivb_id o) m args) →
  steps hp P (ivb_invoke X o m args).
Proof. intros H. unfold ivb_invoke. steps_tac. Qed.

Lemma steps_ms_invoke X hp (P : event → Prop) o m args :
  P (EMethod MagnetSet (ms_id o) m args) →
  steps hp P (ms_invoke X o m args).
Proof. intros H. unfold ms_invoke. steps_tac. Qed.

Lemma steps_sm_invoke X hp (P : event → Prop) o m args :
  P (EMethod SourceMesh (sm_id o) m args) →
  steps hp P (sm_invoke X o m args).
Proof. intros H. unfold sm_invoke. steps_tac. Qed.

Ltac stage_tac :=
  repeat first
    [ apply steps_set_invessel_build_dict | apply steps_set_magnets_dict
    | apply steps_set_source_dict | apply steps_set_dagmc_export
    | apply steps_attr | apply steps_is_truthy
    | apply steps_ivb_invoke; done
    | apply steps_ms_invoke; done
    | apply steps_sm_invoke; done
    | progress steps_tac ].

Lemma construct_invessel_build_stage X v :
  steps false (in_stage ConstructInVesselBuild) (construct_invessel_build X v).
Proof.
  unfold construct_invessel_build, get_invessel_build_dict, logger_getter,
    new_InVesselBuild, ivb_receiver.
  stage_tac.
Qed.

Lemma export_invessel_build_stage X v :
  steps false (in_stage ExportInVesselBuild) (export_invessel_build X v).
Proof.
  unfold export_invessel_build, get_invessel_build_dict, ivb_receiver.
  stage_tac.
Qed.

Lemma construct_magnets_stage X v :
  steps false (in_stage ConstructMagnets) (construct_magnets X v).
Proof.
  unfold construct_magnets, get_magnets_dict, logger_getter, new_MagnetSet,
    ms_receiver.
  stage_tac.
Qed.

Lemma export_magnets_stage X v :
  steps false (in_stage ExportMagnets) (export_magnets X v).
Proof.
  unfold export_magnets, get_magnets_dict, ms_receiver.
  stage_tac.
Qed.

Lemma construct_source_mesh_stage X v :
  steps false (in_stage ConstructSourceMesh) (construct_source_mesh X v).
Proof.
  unfold construct_source_mesh, get_source_dict, logger_getter,
    new_SourceMesh, sm_receiver.
  stage_tac.
Qed.

Lemma export_source_mesh_stage X v :
  steps false (in_stage ExportSourceMesh) (export_source_mesh X v).
Proof.
  unfold export_source_mesh, get_source_dict, sm_receiver.
  stage_tac.
Qed.

(** ** The DAGMC export *)




Lemma setup_not_merging e :
  setup_event e → ¬ layer_merge_event e ∧ ¬ imprint_merge_event e.
Proof. intros []; split; intros H; inversion H. Qed.

Lemma tagging_not_merging e :
  legacy_event e ∨ native_event e →
  ¬ layer_merge_event e ∧ ¬ imprint_merge_event e.
Proof. intros [[]|[]]; split; intros H; inversion H. Qed.

Lemma layer_not_imprint e :
  layer_merge_event e → imprint_merge_event e → False.
Proof. intros [] H; inversion H. Qed.

Lemma steps_cubit_cmd X hp (P : event → Prop) c :
  P (cmd c) → steps hp P (cubit_cmd_ X c).
Proof. intros H. unfold cubit_cmd_. by apply steps_ext_call. Qed.

Lemma steps_import_loop X hp (P : event → Prop) o done todo :
  (∀ name dir, P (ECall import_step_cubit [Pos (VStr name); Pos dir])) →
  steps hp P (import_loop X o done todo).
Proof.
  intros H. revert done.
  induction todo as [|[name data] rest IH]; intros done; cbn [import_loop];
    steps_tac; apply IH.
Qed.

Lemma steps_import_ivb_step X hp (P : event → Prop) :
  (∀ name dir, P (ECall import_step_cubit [Pos (VStr name); Pos dir])) →
  steps hp P (_import_ivb_step X).
Proof.
  intros H. unfold _import_ivb_step. steps_tac. by apply steps_import_loop.
Qed.

Lemma steps_tag_materials_legacy X hp (P : event → Prop) :
  (∀ tag ids, P (cmd (group_cmd tag ids))) →
  steps hp P (_tag_materials_legacy X).
Proof.
  intros H. unfold _tag_materials_legacy, cubit_cmd_. steps_tac; try apply H.
  apply steps_for_each. intros [name data]. steps_tac. apply H.
Qed.

Lemma steps_make_material_block X hp (P : event → Prop) tag b ids :
  P (cmd (create_material_cmd tag)) →
  P (cmd (block_add_cmd b ids)) →
  P (cmd (block_material_cmd b tag)) →
  steps hp P (make_material_block X tag b ids).
Proof.
  intros H1 H2 H3. unfold make_material_block, cubit_cmd_.
  steps_tac; assumption.
Qed.

Lemma steps_tag_materials_native X hp (P : event → Prop) :
  (∀ e, native_event e → P e) →
  steps hp P (_tag_materials_native X).
Proof.
  intros H. unfold _tag_materials_native, cubit_cmd_.
  steps_tac; try (apply H; constructor).
  - apply steps_make_material_block; apply H; constructor.
  - apply steps_for_each. intros [name data]. steps_tac.
    apply steps_make_material_block; apply H; constructor.
Qed.

Lemma export_dagmc_blocks X v :
  export_dagmc X v =
  (ext_call X (ECall init_cubit []) ;;
   log_ LInfo "Exporting DAGMC neutronics model..." ;;
   set_dagmc_export v ;;
   export_dict ← get_dagmc_export;
   st ← get_self;
   import_part X st ;;
   skip_imprint ← dict_getitem export_dict "skip_imprint";
   skip ← is_truthy skip_imprint;
   merge_branch X skip ;;
   legacy_faceting ← dict_getitem export_dict "legacy_faceting";
   legacy ← is_truthy legacy_faceting;
   facet_branch X export_dict legacy).
Proof. reflexivity. Qed.

Lemma steps_import_part X hp (P : event → Prop) st :
  (∀ e, setup_event e → P e) → steps hp P (import_part X st).
Proof.
  intros H. unfold import_part. steps_tac.
  apply steps_import_ivb_step. intros. apply H. constructor.
Qed.

Lemma steps_merge_branch X hp (P : event → Prop) (skip : bool) :
  (∀ e, (if skip then layer_merge_event e else imprint_merge_event e) → P e) →
  steps hp P (merge_branch X skip).
Proof.
  intros H. unfold merge_branch, ivb_receiver, cubit_cmd_.
  destruct skip; steps_tac; try (apply H; constructor).
  apply steps_ivb_invoke, H. constructor.
Qed.

Lemma steps_facet_branch X hp (P : event → Prop) l (legacy : bool) :
  (∀ e, (if legacy then legacy_event e else native_event e) → P e) →
  steps hp P (facet_branch X l legacy).
Proof.
  intros H. unfold facet_branch.
  destruct legacy; steps_tac; try (apply H; constructor).
  - apply steps_tag_materials_legacy. intros. apply H. constructor.
  - by apply steps_tag_materials_native.
Qed.

(** The export as a whole makes only calls of the last stage. *)
Lemma export_dagmc_stage X v :
  steps false (in_stage ExportDagmc) (export_dagmc X v).
Proof.
  rewrite export_dagmc_blocks. unfold get_dagmc_export.
  repeat match goal with
    | |- steps _ _ (_ ≫= _) => apply steps_bind; [|intros ?]
    | |- steps _ _ (set_dagmc_export _) => apply steps_set_dagmc_export
    | |- steps _ _ (attr _ _) => apply steps_attr
    | |- steps _ _ (is_truthy _) => apply steps_is_truthy
    | |- steps _ _ get_self => apply steps_get_self
    | |- steps _ _ (dict_getitem _ _) => apply steps_dict_getitem
    | |- steps _ _ (ext_call _ _) => by apply steps_ext_call
    | |- steps _ _ (log_ _ _) => by apply steps_log
    | |- steps _ _ (import_part _ _) =>
        apply steps_import_part; by intros ? []
    | |- steps _ _ (merge_branch _ ?b) =>
        apply steps_merge_branch; destruct b; by intros ? []
    | |- steps _ _ (facet_branch _ _ ?b) =>
        apply steps_facet_branch; destruct b; by intros ? []
    end.
Qed.

(** *** The order of the calls *)

Lemma steps_prelude X : steps false (in_stage Setup) (prelude X).
Proof.
  unfold prelude, parse_args, read_yaml_config, getitem, Stellarator,
    __init__, logger_setter, vmec_file_setter, vmec_file_getter, log_,
    new_VMECData.
  repeat match goal with
    | |- steps _ _ (attr _ _) => apply steps_attr
    | |- steps _ _ (if ?b then _ else _) => destruct b
    | |- steps _ _ (fun s => match ext_safe_load _ _ _ with _ => _ end) =>
        intros s; destruct (ext_safe_load _ _ _) as [[? ?]|]; apply moves_refl
        || (split; [exists []; by rewrite app_nil_r|done])
    | _ => progress steps_tac
    end.
Qed.

Lemma run_stages_ordered l n s :
  stages_from n l →
  ∃ evs, trace (run_stages l s).2 = trace s ++ evs ∧
         StronglySorted stage_le evs ∧
         Forall (fun e => (n ≤ stage_rank (stage_of e))%nat) evs.
Proof.
  revert n s. induction l as [|[k m] l IH]; intros n s Hl.
  - exists []. cbn. rewrite app_nil_r. repeat split; constructor.
  - destruct Hl as (Hn & Hm & Hl). cbn [run_stages]. rewrite bind_eq.
    destruct (Hm s) as [(evs1 & T1 & F1) _].
    assert (StronglySorted stage_le evs1) as S1.
    { clear T1. induction F1 as [|e evs1 He F1 IH1]; constructor; [done|].
      eapply Forall_impl; [exact F1|]. intros e' He'.
      unfold stage_le, in_stage in *. by rewrite He, He'. }
    assert (Forall (fun e => (n ≤ stage_rank (stage_of e))%nat) evs1) as B1.
    { eapply Forall_impl; [exact F1|]. intros e He.
      unfold in_stage in He. by rewrite He. }
    destruct (m s) as [[[]|e] s1]; cbn [snd] in T1.
    + destruct (IH (S (stage_rank k)) s1 Hl) as (evs2 & T2 & S2 & B2).
      exists (evs1 ++ evs2). rewrite T2, T1, app_assoc.
      split; [done|]. split.
      * apply StronglySorted_app_2; [|done|done].
        intros x1 x2 H1 H2. rewrite Forall_forall in F1, B2.
        specialize (F1 x1 H1). specialize (B2 x2 H2).
        unfold stage_le, in_stage in *. rewrite F1. lia.
      * apply Forall_app. split; [done|].
        eapply Forall_impl; [exact B2|]. intros; cbn in *; lia.
    + exists evs1. done.
Qed.

Lemma stages_increasing X cfg : stages_from 1 (stages X cfg).
Proof.
  destruct cfg as [[[[a b] c] d] f]. cbn [stages stages_from stage_rank].
  repeat split; try lia.
  - apply construct_invessel_build_stage.
  - apply export_invessel_build_stage.
  - apply construct_magnets_stage.
  - apply export_magnets_stage.
  - apply construct_source_mesh_stage.
  - apply export_source_mesh_stage.
  - apply export_dagmc_stage.
Qed.

Lemma parastell_ordered X (s : state) :
  ∃ evs, trace (parastell X s).2 = trace s ++ evs ∧
         StronglySorted stage_le evs.
Proof.
  rewrite parastell_stages, bind_eq.
  destruct (steps_prelude X s) as [(evs0 & T0 & F0) _].
  assert (StronglySorted stage_le evs0) as S0.
  { clear T0. induction F0 as [|e evs0 He F0 IH0]; constructor; [done|].
    eapply Forall_impl; [exact F0|]. intros e' He'.
    unfold stage_le, in_stage in *. by rewrite He, He'. }
  destruct (prelude X s) as [[cfg|e] s0]; cbn [snd] in T0; [|by exists evs0].
  destruct (run_stages_ordered _ 1 s0 (stages_increasing X cfg))
    as (evs & T & S & B).
  exists (evs0 ++ evs). rewrite T, T0, app_assoc. split; [done|].
  apply StronglySorted_app_2; [|done|done].
  intros x1 x2 H1 H2. rewrite Forall_forall in F0, B.
  specialize (F0 x1 H1). specialize (B x2 H2).
  unfold stage_le, in_stage in *. rewrite F0. cbn. lia.
Qed.

(** C5. [parastell] is its setup followed by the seven stages in the fixed
    order in-vessel build construction, in-vessel export, magnet
    construction, magnet export, source-mesh construction, source-mesh export,
    DAGMC export; each stage makes only its own calls and the calls of a run
    appear in the order of the stages; and when a stage raises, the run ends
    with that exception in the state the stage left: no later stage runs and
    none is retried. *)
Theorem pipeline_order_fail_fast X (s : state) :
  parastell X s = (cfg ← prelude X; run_stages (stages X cfg)) s ∧
  (∀ cfg, (stages X cfg).*1 = stage_order) ∧
  (∀ cfg k m, (k, m) ∈ stages X cfg → steps false (in_stage k) m) ∧
  (∃ evs, trace (parastell X s).2 = trace s ++ evs ∧
          StronglySorted stage_le evs) ∧
  (∀ cfg s0 done k m rest s1 e s2,
     prelude X s = (Ok cfg, s0) →
     stages X cfg = done ++ (k, m) :: rest →
     run_stages done s0 = (Ok tt, s1) →
     m s1 = (Raise e, s2) →
     parastell X s = (Raise e, s2) ∧
     ∃ evs, trace s2 = trace s0 ++ evs ∧
            Forall (fun ev => (stage_rank (stage_of ev) ≤ stage_rank k)%nat)
              evs).
Proof.
  split; [apply parastell_stages|].
  split; [by intros [[[[a b] c] d] f]|].
  split.
  { intros [[[[a b] c] d] f] k m Hk. cbn [stages] in Hk.
    repeat (apply elem_of_cons in Hk as [[= -> ->]|Hk]);
      [ apply construct_invessel_build_stage
      | apply export_invessel_build_stage
      | apply construct_magnets_stage
      | apply export_magnets_stage
      | apply construct_source_mesh_stage
      | apply export_source_mesh_stage
      | apply export_dagmc_stage
      | by apply elem_of_nil in Hk ]. }
  split; [apply parastell_ordered|].
  intros cfg s0 done k m rest s1 e s2 Hp Hs Hd Hm.
  split.
  - rewrite parastell_stages, bind_eq, Hp, Hs.
    by eapply run_stages_fail_fast.
  - pose proof (stages_increasing X cfg) as Hinc. rewrite Hs in Hinc.
    clear Hs Hp.
    assert (∀ n l s s1, stages_from n (l ++ (k, m) :: rest) →
              run_stages l s = (Ok tt, s1) →
              ∃ evs, trace s1 = trace s ++ evs ∧
                     Forall (fun ev => (stage_rank (stage_of ev)
                                        < stage_rank k)%nat) evs ∧
                     steps false (in_stage k) m) as Hpre.
    { clear. intros n l. revert n.
      induction l as [|[k' m'] l IH]; intros n s s1 Hl Hr.
      - injection Hr as <-. exists []. rewrite app_nil_r.
        split; [done|]. split; [constructor|]. by destruct Hl as (_ & ? & _).
      - destruct Hl as (Hn & Hm' & Hl). cbn [run_stages] in Hr.
        apply bind_ok in Hr as ([] & s' & Hr1 & Hr2).
        destruct (Hm' s) as [(evs1 & T1 & F1) _]. rewrite Hr1 in T1.
        cbn [snd] in T1.
        destruct (IH _ _ _ Hl Hr2) as (evs2 & T2 & F2 & Hk).
        exists (evs1 ++ evs2). rewrite T2, T1, app_assoc.
        split; [done|]. split; [|done].
        apply Forall_app. split; [|done].
        eapply Forall_impl; [exact F1|]. intros ev Hev.
        unfold in_stage in Hev. rewrite Hev.
        unfold lt. clear -Hl. revert Hl. generalize (S (stage_rank k')).
        induction l as [|[k2 m2] l IHl]; intros n' Hl.
        + destruct Hl as (? & _). lia.
        + destruct Hl as (? & _ & Hl). apply IHl in Hl. lia. }
    destruct (Hpre _ _ _ _ Hinc Hd) as (evs1 & T1 & F1 & Hk).
    destruct (Hk s1) as [(evs2 & T2 & F2) _]. rewrite Hm in T2.
    cbn [snd] in T2.
    exists (evs1 ++ evs2). rewrite T2, T1, app_assoc. split; [done|].
    apply Forall_app. split.
    + eapply Forall_impl; [exact F1|]. intros; cbn in *; lia.
    + eapply Forall_impl; [exact F2|]. intros ev Hev.
      unfold in_stage in Hev. by rewrite Hev.
Qed.

(** *** The export, with the flags read from the merged dictionary *)

Lemma log_eq lvl msg (s : state) :
  log_ lvl msg s =
  match _logger (self s) with
  | VLogger lg =>
      (Ok tt, mkState (heap s) (trace s ++ [ELog lg lvl msg]) (self s))
  | _ => (Raise (AttributeError
                   match lvl with LInfo => "info" | LError => "error" end), s)
  end.
Proof. unfold log_. munfold. by destruct (_logger (self s)). Qed.

Lemma attr_eq {A} name (g : StellaratorObj → option A) (s : state) :
  attr name g s =
  (match g (self s) with
   | Some a => Ok a
   | None => Raise (AttributeError name)
   end, s).
Proof. munfold. by destruct (g (self s)). Qed.

Lemma is_truthy_eq v (s : state) :
  is_truthy v s = (Ok (truthy (heap s) v), s).
Proof. reflexivity. Qed.

Lemma flag_lookup (dm : pydict) k :
  is_Some (dagmc_export_def !! k) →
  (dm ∪ dagmc_export_def) !! k = Some (flag dm k).
Proof.
  intros Hk. unfold flag.
  destruct ((dm ∪ dagmc_export_def) !! k) eqn:E; [done|].
  apply lookup_union_None in E as [_ E]. rewrite E in Hk. by destruct Hk.
Qed.

Lemma export_rest_eq X (l : loc) (merged : pydict) vs vl (s : state) :
  heap s !! l = Some merged →
  merged !! "skip_imprint" = Some vs →
  merged !! "legacy_faceting" = Some vl →
  (st ← get_self;
   import_part X st ;;
   skip_imprint ← dict_getitem l "skip_imprint";
   skip ← is_truthy skip_imprint;
   merge_branch X skip ;;
   legacy_faceting ← dict_getitem l "legacy_faceting";
   legacy ← is_truthy legacy_faceting;
   facet_branch X l legacy) s
  = export_rest X l (truthy (heap s) vs) (truthy (heap s) vl) s.
Proof.
  intros Hl Hs Hf. unfold export_rest. rewrite !bind_eq. unfold get_self.
  rewrite !bind_eq.
  pose proof (steps_import_part X true (fun _ => True) (self s)
                (fun _ _ => I) s) as [_ H1].
  destruct (import_part X (self s) s) as [[[]|e] s1]; [|done].
  cbn [snd] in H1. specialize (H1 eq_refl).
  rewrite !bind_eq, dict_getitem_eq, H1, Hl, Hs.
  rewrite !bind_eq, is_truthy_eq, H1. rewrite !bind_eq.
  pose proof (steps_merge_branch X true (fun _ => True) (truthy (heap s) vs)
                (fun _ _ => I) s1) as [_ H2].
  destruct (merge_branch X (truthy (heap s) vs) s1) as [[[]|e] s2]; [|done].
  cbn [snd] in H2. specialize (H2 eq_refl).
  rewrite !bind_eq, dict_getitem_eq, H2, H1, Hl, Hf.
  by rewrite !bind_eq, is_truthy_eq, H2, H1.
Qed.

(** [export_dagmc] on a user dictionary of the heap: [init_cubit], the log
    entry, then the rest of the export on the merged dictionary. *)
Lemma export_dagmc_cases X (d : loc) (dm : pydict) (s : state) :
  heap s !! d = Some dm →
  export_dagmc X (VRef d) s =
  let e0 := ECall init_cubit [] in
  let s1 := mkState (heap s) (trace s ++ [e0]) (self s) in
  if ext_raises X (trace s) e0 then (Raise (ExternalError e0), s1)
  else
    match _logger (self s) with
    | VLogger lg =>
        export_rest X (export_loc (heap s)) (skip_flag dm (heap s))
          (legacy_flag dm (heap s))
          (mkState (export_heap dm (heap s))
             ((trace s ++ [e0])
              ++ [ELog lg LInfo "Exporting DAGMC neutronics model..."])
             (with_dagmc_export (Some (export_loc (heap s))) (self s)))
    | _ => (Raise (AttributeError "info"), s1)
    end.
Proof.
  intros Hd. cbv zeta. rewrite export_dagmc_blocks, bind_eq.
  unfold ext_call at 1.
  destruct (ext_raises X (trace s) (ECall init_cubit [])); [done|].
  rewrite bind_eq, log_eq. msimpl.
  destruct (_logger (self s)) as [| | | | | | | |lg]; try done.
  rewrite bind_eq.
  change (set_dagmc_export (VRef d))
    with (set_dict dagmc_export_def with_dagmc_export dagmc_export
            "dagmc_export" (VRef d)).
  rewrite (set_dict_ok _ _ _ _ d dm) by done. msimpl.
  rewrite bind_eq. unfold get_dagmc_export. rewrite attr_eq. msimpl.
  fold (export_loc (heap s)). fold (export_heap dm (heap s)).
  erewrite export_rest_eq.
  - reflexivity.
  - cbn [heap]. apply lookup_insert_eq.
  - by apply flag_lookup.
  - by apply flag_lookup.
Qed.

(** In every run the calls are those of the preparation, of the merging
    strategy selected by [skip_imprint] and of the faceting strategy
    selected by [legacy_faceting]. *)
Lemma export_dagmc_events X (d : loc) (dm : pydict) (s : state) :
  heap s !! d = Some dm →
  ∃ evs,
    trace (export_dagmc X (VRef d) s).2 = trace s ++ evs ∧
    Forall (export_event (skip_flag dm (heap s)) (legacy_flag dm (heap s)))
      evs.
Proof.
  intros Hd. rewrite (export_dagmc_cases X d dm s Hd). cbv zeta.
  set (skip := skip_flag dm (heap s)). set (legacy := legacy_flag dm (heap s)).
  assert (export_event skip legacy (ECall init_cubit [])) as H0
    by (left; constructor).
  destruct (ext_raises X (trace s) _).
  { exists [ECall init_cubit []]. split; [done|]. by constructor. }
  destruct (_logger (self s)) as [| | | | | | | |lg];
    try (exists [ECall init_cubit []]; split; [done|]; by constructor).
  assert (steps false (export_event skip legacy)
            (export_rest X (export_loc (heap s)) skip legacy)) as Hr.
  { unfold export_rest. steps_tac.
    - apply steps_import_part. intros e He. by left.
    - apply steps_merge_branch. intros e He. right. by left.
    - apply steps_facet_branch. intros e He. right. by right. }
  match goal with
  | |- context [export_rest _ _ _ _ ?S] => destruct (Hr S) as [(evs & T & F) _]
  end.
  cbn [trace] in T.
  exists ([ECall init_cubit []]
          ++ [ELog lg LInfo "Exporting DAGMC neutronics model..."] ++ evs).
  rewrite T, <- !app_assoc. split; [done|].
  constructor; [done|]. constructor; [|done]. left. constructor.
Qed.

Lemma ext_call_ok X e (s s' : state) :
  ext_call X e s = (Ok tt, s') →
  s' = mkState (heap s) (trace s ++ [e]) (self s).
Proof.
  unfold ext_call. destruct (ext_raises X (trace s) e); [done|].
  by intros [= <-].
Qed.

Lemma dict_getitem_ok l k v (s s' : state) :
  dict_getitem l k s = (Ok v, s') →
  s' = s ∧ ∃ d : pydict, heap s !! l = Some d ∧ d !! k = Some v.
Proof.
  rewrite dict_getitem_eq. intros [= Hv <-]. split; [done|].
  destruct (heap s !! l) as [d|]; [|done]. exists d. split; [done|].
  destruct (d !! k); [|done]. by injection Hv as ->.
Qed.

Lemma steps_heap {A} P (m : M A) (s : state) r s' :
  steps true P m → m s = (r, s') → heap s' = heap s.
Proof. intros H E. destruct (H s) as [_ Hh]. rewrite E in Hh. by apply Hh. Qed.

Lemma steps_trace {A} hp P (m : M A) (s : state) r s' :
  steps hp P m → m s = (r, s') →
  ∃ evs, trace s' = trace s ++ evs ∧ Forall P evs.
Proof. intros H E. destruct (H s) as [Ht _]. by rewrite E in Ht. Qed.

(** A run of [export_dagmc] that returns went through its three blocks. *)
Lemma export_dagmc_ok X (d : loc) (dm : pydict) (s s' : state) :
  heap s !! d = Some dm →
  export_dagmc X (VRef d) s = (Ok tt, s') →
  ∃ lg sa sb,
    _logger (self s) = VLogger lg ∧
    import_part X (self (export_start dm lg s)) (export_start dm lg s)
    = (Ok tt, sa) ∧
    merge_branch X (skip_flag dm (heap s)) sa = (Ok tt, sb) ∧
    facet_branch X (export_loc (heap s)) (legacy_flag dm (heap s)) sb
    = (Ok tt, s') ∧
    heap sa = export_heap dm (heap s) ∧ heap sb = export_heap dm (heap s).
Proof.
  intros Hd. rewrite (export_dagmc_cases X d dm s Hd). cbv zeta.
  destruct (ext_raises X (trace s) _); [done|].
  destruct (_logger (self s)) as [| | | | | | | |lg]; try done.
  fold (export_start dm lg s). unfold export_rest. intros H.
  apply bind_ok in H as (st & s0 & [= <- <-] & H).
  apply bind_ok in H as ([] & sa & Ha & H).
  apply bind_ok in H as ([] & sb & Hb & H).
  assert (heap sa = export_heap dm (heap s)) as Hha.
  { eapply steps_heap in Ha; [exact Ha|].
    apply (steps_import_part X true (fun _ => True)). done. }
  assert (heap sb = heap sa) as Hhb.
  { eapply steps_heap in Hb; [exact Hb|].
    apply (steps_merge_branch X true (fun _ => True)). done. }
  exists lg, sa, sb. repeat split; try done. by rewrite Hhb.
Qed.

Ltac flag_step H Hh :=
  let v := fresh "v" in let s := fresh "s" in let Hg := fresh "Hg" in
  let m := fresh "m" in let Hm := fresh "Hm" in let Hv := fresh "Hv" in
  apply bind_ok in H as (v & s & Hg & H);
  apply dict_getitem_ok in Hg as [-> (m & Hm & Hv)];
  rewrite Hh in Hm; unfold export_heap in Hm;
  rewrite lookup_insert_eq in Hm; injection Hm as <-;
  rewrite flag_lookup in Hv by (by eexists); injection Hv as <-.

Lemma facet_branch_ok X (dm : pydict) h (legacy : bool) (s s' : state) :
  heap s = export_heap dm h →
  facet_branch X (export_loc h) legacy s = (Ok tt, s') →
  ∃ s2, tag_materials X legacy s = (Ok tt, s2) ∧
        trace s' = trace s2 ++ [export_call dm legacy].
Proof.
  intros Hh H. unfold facet_branch in H. destruct legacy.
  - apply bind_ok in H as ([] & s2 & Ht & H).
    exists s2. split; [done|].
    assert (heap s2 = export_heap dm h) as Hh2.
    { rewrite <- Hh. eapply steps_heap; [|exact Ht].
      apply (steps_tag_materials_legacy X true (fun _ => True)). done. }
    do 5 flag_step H Hh2.
    apply ext_call_ok in H. by rewrite H.
  - apply bind_ok in H as ([] & s2 & Ht & H).
    exists s2. split; [done|].
    assert (heap s2 = export_heap dm h) as Hh2.
    { rewrite <- Hh. eapply steps_heap; [|exact Ht].
      apply (steps_tag_materials_native X true (fun _ => True)). done. }
    do 4 flag_step H Hh2.
    apply ext_call_ok in H. by rewrite H.
Qed.


(** In every run no call of the merging strategy that [skip_imprint] does
    not select is made. *)
Lemma merging_strategy_exclusive X (d : loc) (dm : pydict) (s : state) :
  heap s !! d = Some dm →
  ∃ evs,
    trace (export_dagmc X (VRef d) s).2 = trace s ++ evs ∧
    Forall (fun e => if skip_flag dm (heap s)
                     then ¬ imprint_merge_event e
                     else ¬ layer_merge_event e) evs.
Proof.
  intros Hd. destruct (export_dagmc_events X d dm s Hd) as (evs & T & F).
  exists evs. split; [done|].
  eapply Forall_impl; [exact F|]. intros e [He|[He|He]].
  - apply setup_not_merging in He as [? ?]. by destruct (skip_flag _ _).
  - destruct (skip_flag _ _); intros He'; by eapply layer_not_imprint.
  - assert (legacy_event e ∨ native_event e) as He'
      by (destruct (legacy_flag _ _); tauto).
    apply tagging_not_merging in He' as [? ?]. by destruct (skip_flag _ _).
Qed.

(** A run that returns has made the calls of the selected merging
    strategy: [merge_layer_surfaces] on the in-vessel build, or the two
    global commands. *)
Lemma merging_strategy_on_return X (d : loc) (dm : pydict) (s s' : state) :
  heap s !! d = Some dm →
  export_dagmc X (VRef d) s = (Ok tt, s') →
  ∃ sa sb pre post,
    trace sa = trace s ++ pre ∧ trace s' = trace sb ++ post ∧
    if skip_flag dm (heap s)
    then ∃ o, invessel_build (self sa) = Some o ∧
              trace sb = trace sa
                         ++ [EMethod InVesselBuild (ivb_id o)
                               merge_layer_surfaces []]
    else trace sb = trace sa ++ [cmd "imprint volume all";
                                 cmd "merge volume all"].
Proof.
  intros Hd E.
  destruct (export_dagmc_ok X d dm s s' Hd E)
    as (lg & sa & sb & Hlg & Ha & Hb & Hf & Hha & Hhb).
  destruct (steps_trace false (fun _ => True) _ _ _ _
              (steps_import_part X false _ _ (fun _ _ => I)) Ha)
    as (evs1 & T1 & _).
  destruct (steps_trace false (fun _ => True) _ _ _ _
              (steps_facet_branch X false _ _ _ (fun _ _ => I)) Hf)
    as (evs3 & T3 & _).
  exists sa, sb, ([ECall init_cubit []]
                  ++ [ELog lg LInfo "Exporting DAGMC neutronics model..."]
                  ++ evs1), evs3.
  split; [|split; [done|]].
  { rewrite T1. unfold export_start. cbn [trace]. by rewrite <- !app_assoc. }
  unfold merge_branch in Hb. destruct (skip_flag dm (heap s)).
  - apply bind_ok in Hb as (o & s1 & Hr & Hb).
    unfold ivb_receiver in Hr. apply bind_ok in Hr as (st & s0 & [= <- <-] & Hr).
    destruct (invessel_build (self sa)) as [o'|] eqn:Eo; [|done].
    injection Hr as Ho Hs1. subst. eexists. split; [reflexivity|].
    unfold ivb_invoke in Hb.
    apply bind_ok in Hb as (t & s0 & [= <- <-] & Hb).
    destruct (ext_ivb_effect X _ _ _ _) as [rb ed].
    apply bind_ok in Hb as ([] & s0 & [= <-] & Hb).
    apply ext_call_ok in Hb. by rewrite Hb.
  - unfold cubit_cmd_ in Hb.
    apply bind_ok in Hb as ([] & s1 & H1 & H2).
    apply ext_call_ok in H1. apply ext_call_ok in H2.
    rewrite H2, H1. cbn [trace]. by rewrite <- app_assoc.
Qed.

(** C3 fails on an instance without in-vessel build. When [skip_imprint]
    is true in the merged dictionary and [invessel_build] is [None],
    [export_dagmc] selects the layer merge and raises an [AttributeError] on
    [None]: the calls made are [init_cubit] and the log entry, so neither
    [merge_layer_surfaces] nor the global imprint and merge commands are
    issued. *)
Theorem skip_imprint_without_invessel_build X (d : loc) (dm : pydict)
    (lg : Logger) (s : state) :
  heap s !! d = Some dm →
  skip_flag dm (heap s) = true →
  invessel_build (self s) = None →
  _logger (self s) = VLogger lg →
  ext_raises X (trace s) (ECall init_cubit []) = false →
  (export_dagmc X (VRef d) s).1 = Raise (AttributeError "merge_layer_surfaces") ∧
  trace (export_dagmc X (VRef d) s).2
  = trace s ++ [ECall init_cubit [];
                ELog lg LInfo "Exporting DAGMC neutronics model..."] ∧
  Forall (fun e => ¬ layer_merge_event e ∧ ¬ imprint_merge_event e)
    [ECall init_cubit []; ELog lg LInfo "Exporting DAGMC neutronics model..."].
Proof.
  intros Hd Hs Hn Hl Hr. rewrite (export_dagmc_cases X d dm s Hd). cbv zeta.
  rewrite Hr, Hl, Hs. unfold export_rest, import_part, merge_branch,
    ivb_receiver. munfold. repeat (rewrite Hn; msimpl). cbn [meth_name].
  split; [done|]. split; [by rewrite <- app_assoc|].
  repeat constructor; inversion 1.
Qed.

(** ** The theorems at concrete inputs *)

Lemma pair_split {A B} (p : A * B) (a : A) : p.1 = a → p = (a, p.2).
Proof. destruct p. cbn. by intros ->. Qed.

Lemma vmec_file_extension_enforced_witness :
  (Path_suffix "plasma/wout_vmec.txt" ≠ ".nc" ∧
   Path_suffix "plasma/wout_vmec.nc" = ".nc") ∧
  (is_ok (vmec_file_setter (VStr "plasma/wout_vmec.txt") initial_state).1
   = false ∧
   is_ok (Stellarator quiet_world (VStr "plasma/wout_vmec.txt") VNone
            initial_state).1 = false) ∧
  (vmec_file_setter (VStr "plasma/wout_vmec.nc") initial_state).1 = Ok tt.
Proof.
  assert (Path_suffix "plasma/wout_vmec.txt" ≠ ".nc") as H1
    by (intros E; vm_compute in E; discriminate E).
  assert (Path_suffix "plasma/wout_vmec.nc" = ".nc") as H2
    by (vm_compute; exact eq_refl).
  split; [exact (conj H1 H2)|]. split.
  - destruct (proj1 (vmec_file_extension_enforced quiet_world
                       "plasma/wout_vmec.txt" initial_state) H1) as [Ha Hb].
    exact (conj Ha (Hb VNone)).
  - exact (proj2 (vmec_file_extension_enforced quiet_world
                    "plasma/wout_vmec.nc" initial_state) H2).
Defined.

Lemma config_defaults_merged_witness :
  heap loaded_state !! 2%positive = Some example_invessel_build ∧
  set_get_merges set_invessel_build_dict get_invessel_build_dict
    invessel_build_def 2%positive example_invessel_build loaded_state ∧
  set_get_merges set_magnets_dict get_magnets_dict magnets_def 2%positive
    example_invessel_build loaded_state ∧
  set_get_merges set_source_dict get_source_dict source_def 2%positive
    example_invessel_build loaded_state.
Proof.
  assert (heap loaded_state !! 2%positive = Some example_invessel_build) as H
    by (vm_compute; exact eq_refl).
  split; [exact H|].
  destruct (config_defaults_merged 2%positive example_invessel_build
              loaded_state H) as (H1 & H2 & H3 & _).
  exact (conj H1 (conj H2 H3)).
Defined.

Lemma skip_imprint_without_invessel_build_witness :
  (heap magnets_only_state !! 5%positive = Some example_dagmc_export ∧
   skip_flag example_dagmc_export (heap magnets_only_state) = true ∧
   invessel_build (self magnets_only_state) = None ∧
   _logger (self magnets_only_state) = VLogger default_logger ∧
   ext_raises quiet_world (trace magnets_only_state) (ECall init_cubit [])
   = false) ∧
  (export_dagmc quiet_world (VRef 5) magnets_only_state).1
  = Raise (AttributeError "merge_layer_surfaces") ∧
  trace (export_dagmc quiet_world (VRef 5) magnets_only_state).2
  = trace magnets_only_state
    ++ [ECall init_cubit [];
        ELog default_logger LInfo "Exporting DAGMC neutronics model..."].
Proof.
  assert (heap magnets_only_state !! 5%positive = Some example_dagmc_export)
    as H1 by (vm_compute; exact eq_refl).
  assert (skip_flag example_dagmc_export (heap magnets_only_state) = true)
    as H2 by (vm_compute; exact eq_refl).
  assert (invessel_build (self magnets_only_state) = None) as H3
    by exact eq_refl.
  assert (_logger (self magnets_only_state) = VLogger default_logger) as H4
    by exact eq_refl.
  assert (ext_raises quiet_world (trace magnets_only_state)
            (ECall init_cubit []) = false) as H5 by exact eq_refl.
  split; [exact (conj H1 (conj H2 (conj H3 (conj H4 H5))))|].
  destruct (skip_imprint_without_invessel_build quiet_world 5%positive
              example_dagmc_export default_logger magnets_only_state
              H1 H2 H3 H4 H5) as (Ha & Hb & _).
  exact (conj Ha Hb).
Defined.


Lemma pipeline_order_fail_fast_witness :
  (prelude failing_world initial_state = (Ok example_sections, failing_s0) ∧
   stages failing_world example_sections
   = take 2 (stages failing_world example_sections)
     ++ (ConstructMagnets, construct_magnets failing_world (VRef 3))
        :: drop 3 (stages failing_world example_sections) ∧
   run_stages (take 2 (stages failing_world example_sections)) failing_s0
   = (Ok tt, failing_s1) ∧
   construct_magnets failing_world (VRef 3) failing_s1
   = (Raise (ExternalError failing_call), failing_s2)) ∧
  parastell failing_world initial_state
  = (Raise (ExternalError failing_call), failing_s2) ∧
  ∃ evs, trace failing_s2 = trace failing_s0 ++ evs ∧
         Forall (fun ev => (stage_rank (stage_of ev)
                            ≤ stage_rank ConstructMagnets)%nat) evs.
Proof.
  assert (prelude failing_world initial_state
          = (Ok example_sections, failing_s0)) as H1.
  { apply (pair_split (prelude failing_world initial_state)).
    vm_compute. exact eq_refl. }
  assert (stages failing_world example_sections
          = take 2 (stages failing_world example_sections)
            ++ (ConstructMagnets, construct_magnets failing_world (VRef 3))
               :: drop 3 (stages failing_world example_sections)) as H2
    by exact eq_refl.
  assert (run_stages (take 2 (stages failing_world example_sections))
            failing_s0 = (Ok tt, failing_s1)) as H3.
  { apply (pair_split
             (run_stages (take 2 (stages failing_world example_sections))
                failing_s0)).
    vm_compute. exact eq_refl. }
  assert (construct_magnets failing_world (VRef 3) failing_s1
          = (Raise (ExternalError failing_call), failing_s2)) as H4.
  { apply (pair_split (construct_magnets failing_world (VRef 3) failing_s1)).
    vm_compute. exact eq_refl. }
  split; [exact (conj H1 (conj H2 (conj H3 H4)))|].
  exact (proj2 (proj2 (proj2 (proj2
           (pipeline_order_fail_fast failing_world initial_state))))
           example_sections failing_s0
           (take 2 (stages failing_world example_sections))
           ConstructMagnets (construct_magnets failing_world (VRef 3))
           (drop 3 (stages failing_world example_sections))
           failing_s1 (ExternalError failing_call) failing_s2 H1 H2 H3 H4).
Defined.

Lemma construct_call_order_witness :
  (heap loaded_state !! 4%positive = Some example_source ∧
   heap loaded_state !! 2%positive = Some example_invessel_build) ∧
  (construct_source_mesh quiet_world (VRef 4) loaded_state).1 = Ok tt ∧
  calls_in_order source_mesh_calls loaded_state
    (construct_source_mesh quiet_world (VRef 4) loaded_state) ∧
  (construct_invessel_build quiet_world (VRef 2) loaded_state).1 = Ok tt ∧
  calls_in_order invessel_build_calls loaded_state
    (construct_invessel_build quiet_world (VRef 2) loaded_state).
Proof.
  assert (heap loaded_state !! 4%positive = Some example_source) as H4
    by (vm_compute; exact eq_refl).
  assert (heap loaded_state !! 2%positive = Some example_invessel_build) as H2
    by (vm_compute; exact eq_refl).
  assert (∀ t e, ext_raises quiet_world t e = false) as Hq
    by (intros t e; exact eq_refl).
  assert (∀ k, k ∈ ["num_s"; "num_theta"; "num_phi"; "toroidal_extent"] →
               is_Some (example_source !! k)) as Hs.
  { intros k Hk.
    repeat (apply elem_of_cons in Hk as [->|Hk];
            [eexists; vm_compute; exact eq_refl|]).
    by apply elem_of_nil in Hk. }
  assert (∀ k, k ∈ ["toroidal_angles"; "poloidal_angles"; "radial_build";
                    "wall_s"] → is_Some (example_invessel_build !! k)) as Hi.
  { intros k Hk.
    repeat (apply elem_of_cons in Hk as [->|Hk];
            [eexists; vm_compute; exact eq_refl|]).
    by apply elem_of_nil in Hk. }
  split; [exact (conj H4 H2)|].
  destruct (construct_call_order quiet_world (VRef 4) loaded_state)
    as ((Hc & _) & _ & Hr).
  destruct (construct_call_order quiet_world (VRef 2) loaded_state)
    as (_ & (Hc' & _) & Hr').
  split; [exact (proj1 (Hr 4%positive example_source eq_refl H4 Hq) Hs)|].
  split; [exact Hc|].
  split; [exact (proj2 (Hr' 2%positive example_invessel_build eq_refl H2 Hq)
                   Hi)|].
  exact Hc'.
Defined.

Lemma yaml_sections_required_witness :
  (ext_safe_load incomplete_world "config.yaml" (heap initial_state)
   = Some (VRef 1, incomplete_yaml ∪ heap initial_state) ∧
   ext_argv_filename incomplete_world = Some "config.yaml" ∧
   section (incomplete_yaml ∪ heap initial_state) (VRef 1) "dagmc_export"
   = None) ∧
  is_ok (read_yaml_config incomplete_world "config.yaml" initial_state).1
  = false ∧
  is_ok (parastell incomplete_world initial_state).1 = false ∧
  trace (parastell incomplete_world initial_state).2 = trace initial_state.
Proof.
  assert (ext_safe_load incomplete_world "config.yaml" (heap initial_state)
          = Some (VRef 1, incomplete_yaml ∪ heap initial_state)) as H1
    by exact eq_refl.
  assert (ext_argv_filename incomplete_world = Some "config.yaml") as H2
    by exact eq_refl.
  assert (section (incomplete_yaml ∪ heap initial_state) (VRef 1)
            "dagmc_export" = None) as H3 by (vm_compute; exact eq_refl).
  assert (∃ k, k ∈ section_keys ∧
               section (incomplete_yaml ∪ heap initial_state) (VRef 1) k
               = None) as H4.
  { exists "dagmc_export". split; [|exact H3]. unfold section_keys.
    set_solver. }
  split; [exact (conj H1 (conj H2 H3))|].
  destruct (yaml_sections_required incomplete_world "config.yaml"
              initial_state (VRef 1) (incomplete_yaml ∪ heap initial_state)
              H1) as (_ & Hb & Hc).
  split; [exact (proj2 Hb H4)|].
  exact (Hc H2 H4).
Defined.

Lemma logger_always_usable_witness :
  (hasHandlers (ext_log_init quiet_world) = true ∧
   hasHandlers (mkLogger [] true None) = false) ∧
  (logger_setter quiet_world (VLogger (mkLogger [] true None))
     initial_state).1 = Ok tt ∧
  usable_logger
    (_logger (self (logger_setter quiet_world
                      (VLogger (mkLogger [] true None)) initial_state).2)) ∧
  _logger (self (logger_setter quiet_world
                   (VLogger (mkLogger [] true None)) initial_state).2)
  = VLogger (ext_log_init quiet_world).
Proof.
  assert (hasHandlers (ext_log_init quiet_world) = true) as H1
    by exact eq_refl.
  assert (hasHandlers (mkLogger [] true None) = false) as H2 by exact eq_refl.
  split; [exact (conj H1 H2)|].
  destruct (logger_always_usable quiet_world
              (VLogger (mkLogger [] true None)) initial_state H1
              (or_intror (ex_intro _ (mkLogger [] true None) eq_refl)))
    as (Ha & Hb & Hc & _).
  split; [exact Ha|]. split; [exact Hb|].
  exact (Hc (or_intror (ex_intro _ (mkLogger [] true None)
                          (conj eq_refl H2)))).
Defined.

Lemma rejected_vmec_file_is_stored_witness :
  (Path_suffix "wout_vmec.h5" ≠ ".nc" ∧
   _vmec_file (self magnets_only_state) = Some (VStr "wout_vmec.nc")) ∧
  is_ok (vmec_file_setter (VStr "wout_vmec.h5") magnets_only_state).1 = false ∧
  _vmec_file (self (vmec_file_setter (VStr "wout_vmec.h5")
                      magnets_only_state).2) = Some (VStr "wout_vmec.h5") ∧
  (vmec_file_getter (vmec_file_setter (VStr "wout_vmec.h5")
                       magnets_only_state).2).1 = Ok (VStr "wout_vmec.h5").
Proof.
  assert (Path_suffix "wout_vmec.h5" ≠ ".nc") as H1
    by (intros E; vm_compute in E; discriminate E).
  split; [exact (conj H1 eq_refl)|].
  exact (rejected_vmec_file_is_stored "wout_vmec.h5" magnets_only_state H1).
Defined.

Lemma set_dicts_leave_argument_unchanged_witness :
  heap loaded_state !! 5%positive = Some example_dagmc_export ∧
  heap (set_invessel_build_dict (VRef 5) loaded_state).2 !! 5%positive
  = Some example_dagmc_export ∧
  heap (set_magnets_dict (VRef 5) loaded_state).2 !! 5%positive
  = Some example_dagmc_export ∧
  heap (set_source_dict (VRef 5) loaded_state).2 !! 5%positive
  = Some example_dagmc_export ∧
  heap (set_dagmc_export (VRef 5) loaded_state).2 !! 5%positive
  = Some example_dagmc_export.
Proof.
  assert (heap loaded_state !! 5%positive = Some example_dagmc_export) as H
    by (vm_compute; exact eq_refl).
  split; [exact H|].
  exact (set_dicts_leave_argument_unchanged 5%positive example_dagmc_export
           loaded_state H).
Defined.

(** * Further properties of the program *)

(** ** Configuration dictionaries, continued *)

(** Objects of the heap are left alone by a [set_*] call, whatever its
    argument. *)
Lemma set_dict_keeps def w g name v (s : state) l (m : pydict) :
  (∀ x st, g (w x st) = x) →
  heap s !! l = Some m →
  heap (set_dict def w g name v s).2 !! l = Some m.
Proof.
  intros Hg Hl. rewrite set_dict_eq by done.
  pose proof (heap2_old def _ _ _ Hl) as H2.
  destruct (lookup_dict _ v); cbn [snd heap]; [|done].
  rewrite lookup_insert_ne; [done|].
  intros E. symmetry in E. revert E. by eapply loc2_fresh.
Qed.

(** The attribute after a [set_*] call is the second of the two objects
    the call allocates, whatever its argument. *)
Lemma set_dict_attr def w g name v (s : state) :
  (∀ x st, g (w x st) = x) →
  attr name g (set_dict def w g name v s).2
  = (Ok (loc2 def (heap s)), (set_dict def w g name v s).2).
Proof.
  intros Hg. rewrite set_dict_eq by done. rewrite attr_eq.
  by destruct (lookup_dict _ v); cbn [snd self]; rewrite Hg.
Qed.

(** X1. [set_dagmc_export] on a user dictionary succeeds and
    [get_dagmc_export] then returns a dictionary with the user's value for
    the user's keys and the default for every other key; the defaults are
    [skip_imprint = False], [legacy_faceting = True], the three tolerances
    [None], [anisotropic_ratio = 100], [deviation_angle = 5],
    [filename = 'dagmc'] and an empty [export_dir]. *)
Theorem dagmc_export_defaults_merged (d : loc) (dm : pydict) (s : state) :
  heap s !! d = Some dm →
  set_get_merges set_dagmc_export get_dagmc_export dagmc_export_def d dm s ∧
  dagmc_export_def !! "skip_imprint" = Some (VBool false) ∧
  dagmc_export_def !! "legacy_faceting" = Some (VBool true) ∧
  dagmc_export_def !! "faceting_tolerance" = Some VNone ∧
  dagmc_export_def !! "length_tolerance" = Some VNone ∧
  dagmc_export_def !! "normal_tolerance" = Some VNone ∧
  dagmc_export_def !! "anisotropic_ratio" = Some (VInt 100) ∧
  dagmc_export_def !! "deviation_angle" = Some (VInt 5) ∧
  dagmc_export_def !! "filename" = Some (VStr "dagmc") ∧
  dagmc_export_def !! "export_dir" = Some (VStr EmptyString).
Proof.
  intros Hd. split.
  - by apply (set_dict_get_merges dagmc_export_def with_dagmc_export
                dagmc_export).
  - repeat split; reflexivity.
Qed.

(** X2. A [set_*] call starts again from the defaults: after a call with
    the dictionary [d1], a call with [d2] leaves a dictionary that merges
    [d2] alone into the defaults, so no key of [d1] is carried over. *)
Theorem set_dict_starts_from_defaults (d1 d2 : loc) (dm1 dm2 : pydict)
    (s : state) :
  heap s !! d1 = Some dm1 →
  heap s !! d2 = Some dm2 →
  set_get_merges set_invessel_build_dict get_invessel_build_dict
    invessel_build_def d2 dm2 (set_invessel_build_dict (VRef d1) s).2 ∧
  set_get_merges set_magnets_dict get_magnets_dict magnets_def d2 dm2
    (set_magnets_dict (VRef d1) s).2 ∧
  set_get_merges set_source_dict get_source_dict source_def d2 dm2
    (set_source_dict (VRef d1) s).2 ∧
  set_get_merges set_dagmc_export get_dagmc_export dagmc_export_def d2 dm2
    (set_dagmc_export (VRef d1) s).2.
Proof.
  intros H1 H2.
  assert (∀ def w g name, (∀ x st, g (w x st) = x) →
            set_get_merges (set_dict def w g name) (attr name g) def d2 dm2
              (set_dict def w g name (VRef d1) s).2) as H.
  { intros def w g name Hg. apply set_dict_get_merges; [done|].
    by apply set_dict_keeps. }
  split; [|split; [|split]].
  - by apply (H invessel_build_def with_ivb_dict ivb_dict "ivb_dict").
  - by apply (H magnets_def with_magnets_dict magnets_dict "magnets_dict").
  - by apply (H source_def with_source_dict source_dict "source_dict").
  - by apply (H dagmc_export_def with_dagmc_export dagmc_export
                "dagmc_export").
Qed.

(** X3. The dictionary returned by a [get_*] method is not changed by a
    later call of the matching [set_*] method, whatever the argument of that
    call: the object keeps its items, and [get_*] then returns a different
    object. *)
Theorem get_dict_is_snapshot (v : pyval) (s : state) (l : loc) (m : pydict) :
  heap s !! l = Some m →
  snapshot_kept set_invessel_build_dict get_invessel_build_dict v s l m ∧
  snapshot_kept set_magnets_dict get_magnets_dict v s l m ∧
  snapshot_kept set_source_dict get_source_dict v s l m ∧
  snapshot_kept set_dagmc_export get_dagmc_export v s l m.
Proof.
  intros Hl.
  assert (∀ def w g name, (∀ x st, g (w x st) = x) →
            snapshot_kept (set_dict def w g name) (attr name g) v s l m) as H.
  { intros def w g name Hg. split; [by apply set_dict_keeps|].
    exists (loc2 def (heap s)). split; [by apply set_dict_attr|].
    intros E. symmetry in E. revert E. by eapply loc2_fresh. }
  split; [|split; [|split]].
  - by apply (H invessel_build_def with_ivb_dict ivb_dict "ivb_dict").
  - by apply (H magnets_def with_magnets_dict magnets_dict "magnets_dict").
  - by apply (H source_def with_source_dict source_dict "source_dict").
  - by apply (H dagmc_export_def with_dagmc_export dagmc_export
                "dagmc_export").
Qed.

(** ** The constructor *)

(** [Stellarator(file, logger)] for a path and a logger argument that is
    [None] or a logger: the logger is settled first, then the extension of
    the path decides whether the VMEC data is read. *)
Lemma Stellarator_eq X (p : string) (lo : pyval) (s : state) :
  lo = VNone ∨ (∃ lg, lo = VLogger lg) →
  ∃ lg',
    _logger (self (logger_setter X lo s).2) = VLogger lg' ∧
    Stellarator X (VStr p) lo s =
    let st1 := with_vmec_file (Some (VStr p))
                 (with_logger (VLogger lg') blank) in
    if bool_decide (Path_suffix p ≠ ".nc") then
      (Raise (AssertionError (extension_error (Path_suffix p))),
       mkState (heap s)
         (trace s ++ [ELog lg' LError (extension_error (Path_suffix p))])
         st1)
    else
      let e := ECall VMECData [Pos (VStr p)] in
      if ext_raises X (trace s) e then
        (Raise (ExternalError e), mkState (heap s) (trace s ++ [e]) st1)
      else
        (Ok tt,
         mkState (heap s) (trace s ++ [e])
           (with_source_mesh None
              (with_magnet_set None
                 (with_invessel_build None
                    (with_vmec (VObj (List.length (trace s))) st1))))).
Proof.
  intros Hlo.
  assert (∃ lg', logger_setter X lo (mkState (heap s) (trace s) blank)
                 = (Ok tt, mkState (heap s) (trace s)
                             (with_logger (VLogger lg') blank))
                 ∧ _logger (self (logger_setter X lo s).2) = VLogger lg')
    as (lg' & E & El).
  { rewrite !logger_setter_eq. destruct Hlo as [->|[lg ->]].
    - by exists (ext_log_init X).
    - destruct (hasHandlers lg); eexists; split; reflexivity. }
  exists lg'. split; [done|].
  unfold Stellarator, __init__. rewrite bind_eq. unfold set_self at 1.
  rewrite bind_eq, E, bind_eq, vmec_file_setter_eq. cbv zeta. msimpl.
  case_bool_decide; [reflexivity|].
  unfold vmec_file_getter, new_VMECData, ext_call. munfold.
  by destruct (ext_raises X (trace s) _).
Qed.

(** X4. A path without the ['.nc'] extension is rejected before the VMEC
    data is read: the constructor raises the [AssertionError], and the only
    call it makes is the error entry of the log. With the ['.nc'] extension
    the constructor makes exactly one call, [VMECData] on that path; if it
    returns, the path is stored and the three components are [None]. *)
Theorem constructor_validates_before_reading X (p : string) (lo : pyval)
    (s : state) :
  lo = VNone ∨ (∃ lg, lo = VLogger lg) →
  (Path_suffix p ≠ ".nc" →
   ∃ lg',
     (Stellarator X (VStr p) lo s).1
     = Raise (AssertionError (extension_error (Path_suffix p))) ∧
     trace (Stellarator X (VStr p) lo s).2
     = trace s ++ [ELog lg' LError (extension_error (Path_suffix p))]) ∧
  (Path_suffix p = ".nc" →
   trace (Stellarator X (VStr p) lo s).2
   = trace s ++ [ECall VMECData [Pos (VStr p)]] ∧
   ((Stellarator X (VStr p) lo s).1 = Ok tt ↔
    ext_raises X (trace s) (ECall VMECData [Pos (VStr p)]) = false) ∧
   ((Stellarator X (VStr p) lo s).1 = Ok tt →
    let st := self (Stellarator X (VStr p) lo s).2 in
    _vmec_file st = Some (VStr p) ∧
    vmec st = VObj (List.length (trace s)) ∧
    invessel_build st = None ∧ magnet_set st = None ∧
    source_mesh st = None)).
Proof.
  intros Hlo. destruct (Stellarator_eq X p lo s Hlo) as (lg' & _ & E).
  rewrite E. cbv zeta. split; intros Hp.
  - exists lg'. by rewrite bool_decide_eq_true_2.
  - rewrite bool_decide_eq_false_2 by (intros H; by apply H).
    destruct (ext_raises X (trace s) _); msimpl; repeat split; done.
Qed.

(** X5. On an instance that the constructor just returned, no
    configuration dictionary is set: each of the four [get_*] methods raises
    an [AttributeError]. *)
Theorem get_dict_before_set_raises X (p : string) (lo : pyval) (s s' : state) :
  lo = VNone ∨ (∃ lg, lo = VLogger lg) →
  Stellarator X (VStr p) lo s = (Ok tt, s') →
  get_invessel_build_dict s' = (Raise (AttributeError "ivb_dict"), s') ∧
  get_magnets_dict s' = (Raise (AttributeError "magnets_dict"), s') ∧
  get_source_dict s' = (Raise (AttributeError "source_dict"), s') ∧
  get_dagmc_export s' = (Raise (AttributeError "dagmc_export"), s').
Proof.
  intros Hlo. destruct (Stellarator_eq X p lo s Hlo) as (lg' & _ & E).
  rewrite E. cbv zeta.
  case_bool_decide; [done|].
  destruct (ext_raises X (trace s) _); [done|].
  intros [= <-].
  unfold get_invessel_build_dict, get_magnets_dict, get_source_dict,
    get_dagmc_export.
  by rewrite !attr_eq.
Qed.

(** ** The export methods *)

Ltac calls_fin :=
  msimpl; rewrite <- ?app_assoc; cbn [app default];
  eexists; split; [reflexivity|];
  split; [eexists; reflexivity|first [by intros [=] | by intros _]].

(** One [d[k]] for a key that has a default. *)
Ltac getitem_default :=
  rewrite dict_getitem_eq; msimpl; rewrite lookup_insert_eq; msimpl;
  first
    [ match goal with
      | E : ?m !! ?k = Some _ |- context [match ?m !! ?k with _ => _ end] =>
          rewrite E
      end
    | let E := fresh "E" in
      match goal with
      | |- context [match ?m !! ?k with _ => _ end] =>
          destruct (m !! k) eqn:E; [|key_found I]
      end ];
  msimpl; cbn [default].

Lemma export_invessel_build_run X (d : loc) (dm : pydict) o (s : state) :
  heap s !! d = Some dm →
  invessel_build (self s) = Some o →
  makes_calls (export_invessel_build_calls (ivb_id o) dm (heap s)) s
    (export_invessel_build X (VRef d) s) ∧
  ((∀ t e, ext_raises X t e = false) →
   (export_invessel_build X (VRef d) s).1 = Ok tt).
Proof.
  intros Hd Ho.
  unfold makes_calls, export_invessel_build_calls, merged_value, merged_heap,
    export_invessel_build.
  change (set_invessel_build_dict (VRef d))
    with (set_dict invessel_build_def with_ivb_dict ivb_dict "ivb_dict"
            (VRef d)).
  rewrite bind_eq, (set_dict_ok _ _ _ _ d dm) by done.
  unfold get_invessel_build_dict, ivb_receiver, ivb_invoke, ext_call.
  munfold. rewrite Ho. msimpl.
  getitem_default.
  destruct (ext_ivb_effect X _ _ _ _) as [rb ed]; msimpl; rewrite ?Ho; msimpl.
  destruct (ext_raises X (trace s) _) eqn:R1; msimpl.
  { split; [calls_fin|]. intros Hq. by rewrite Hq in R1. }
  getitem_default.
  destruct (truthy _ _); msimpl; [|split; [calls_fin|done]].
  do 2 getitem_default.
  destruct (ext_ivb_effect X _ _ _ _) as [rb' ed']; msimpl; rewrite ?Ho; msimpl.
  destruct (ext_raises X (trace s ++ _) _) eqn:R2; msimpl.
  { split; [calls_fin|]. intros Hq. by rewrite Hq in R2. }
  split; [calls_fin|done].
Qed.

Lemma export_magnets_run X (d : loc) (dm : pydict) o (s : state) :
  heap s !! d = Some dm →
  magnet_set (self s) = Some o →
  makes_calls (export_magnets_calls (ms_id o) dm (heap s)) s
    (export_magnets X (VRef d) s) ∧
  ((∀ t e, ext_raises X t e = false) →
   (export_magnets X (VRef d) s).1 = Ok tt).
Proof.
  intros Hd Ho.
  unfold makes_calls, export_magnets_calls, merged_value, merged_heap,
    export_magnets.
  change (set_magnets_dict (VRef d))
    with (set_dict magnets_def with_magnets_dict magnets_dict "magnets_dict"
            (VRef d)).
  rewrite bind_eq, (set_dict_ok _ _ _ _ d dm) by done.
  unfold get_magnets_dict, ms_receiver, ms_invoke, ext_call.
  munfold. rewrite Ho. msimpl.
  do 2 getitem_default.
  destruct (ext_ms_effect X _ _ _ _) as [ids tag]; msimpl; rewrite ?Ho; msimpl.
  destruct (ext_raises X (trace s) _) eqn:R1; msimpl.
  { split; [calls_fin|]. intros Hq. by rewrite Hq in R1. }
  getitem_default.
  destruct (truthy _ _); msimpl; [|split; [calls_fin|done]].
  destruct (ext_ms_effect X _ _ _ _) as [ids1 tag1]; msimpl;
    rewrite ?Ho; msimpl.
  destruct (ext_raises X (trace s ++ _) _) eqn:R2; msimpl.
  { split; [calls_fin|]. intros Hq. by rewrite Hq in R2. }
  do 2 getitem_default.
  destruct (ext_ms_effect X _ _ _ _) as [ids2 tag2]; msimpl;
    rewrite ?Ho; msimpl.
  destruct (ext_raises X ((trace s ++ _) ++ _) _) eqn:R3; msimpl.
  { split; [calls_fin|]. intros Hq. by rewrite Hq in R3. }
  split; [calls_fin|done].
Qed.

Lemma export_source_mesh_run X (d : loc) (dm : pydict) o (s : state) :
  heap s !! d = Some dm →
  source_mesh (self s) = Some o →
  makes_calls (export_source_mesh_calls (sm_id o) dm) s
    (export_source_mesh X (VRef d) s) ∧
  ((∀ t e, ext_raises X t e = false) →
   (export_source_mesh X (VRef d) s).1 = Ok tt).
Proof.
  intros Hd Ho.
  unfold makes_calls, export_source_mesh_calls, merged_value,
    export_source_mesh.
  change (set_source_dict (VRef d))
    with (set_dict source_def with_source_dict source_dict "source_dict"
            (VRef d)).
  rewrite bind_eq, (set_dict_ok _ _ _ _ d dm) by done.
  unfold get_source_dict, sm_receiver, sm_invoke, ext_call.
  munfold. rewrite Ho. msimpl.
  do 2 getitem_default.
  destruct (ext_raises X (trace s) _) eqn:R1; msimpl.
  { split; [calls_fin|]. intros Hq. by rewrite Hq in R1. }
  split; [calls_fin|done].
Qed.

(** X6. An export method called before the component was constructed
    raises an [AttributeError] on [None] and makes no call: this holds of
    [export_invessel_build], [export_magnets] and [export_source_mesh]. *)
Theorem export_before_construct_raises X (d : loc) (dm : pydict) (s : state) :
  heap s !! d = Some dm →
  (invessel_build (self s) = None →
   (export_invessel_build X (VRef d) s).1
   = Raise (AttributeError "export_step") ∧
   trace (export_invessel_build X (VRef d) s).2 = trace s) ∧
  (magnet_set (self s) = None →
   (export_magnets X (VRef d) s).1 = Raise (AttributeError "export_step") ∧
   trace (export_magnets X (VRef d) s).2 = trace s) ∧
  (source_mesh (self s) = None →
   (export_source_mesh X (VRef d) s).1
   = Raise (AttributeError "export_mesh") ∧
   trace (export_source_mesh X (VRef d) s).2 = trace s).
Proof.
  intros Hd. split; [|split]; intros Hn.
  - unfold export_invessel_build.
    change (set_invessel_build_dict (VRef d))
      with (set_dict invessel_build_def with_ivb_dict ivb_dict "ivb_dict"
              (VRef d)).
    rewrite bind_eq, (set_dict_ok _ _ _ _ d dm) by done.
    unfold get_invessel_build_dict, ivb_receiver. munfold. by rewrite Hn.
  - unfold export_magnets.
    change (set_magnets_dict (VRef d))
      with (set_dict magnets_def with_magnets_dict magnets_dict
              "magnets_dict" (VRef d)).
    rewrite bind_eq, (set_dict_ok _ _ _ _ d dm) by done.
    unfold get_magnets_dict, ms_receiver. munfold. by rewrite Hn.
  - unfold export_source_mesh.
    change (set_source_dict (VRef d))
      with (set_dict source_def with_source_dict source_dict "source_dict"
              (VRef d)).
    rewrite bind_eq, (set_dict_ok _ _ _ _ d dm) by done.
    unfold get_source_dict, sm_receiver. munfold. by rewrite Hn.
Qed.

(** X7. [export_invessel_build] on a constructed in-vessel build: in every
    run the calls are an initial segment of [export_step] with the
    [export_dir] of the merged dictionary followed, only when
    [export_cad_to_dagmc] is true there, by [export_cad_to_dagmc] with
    [dagmc_filename] and [export_dir]; they are exactly these when the
    method returns, which it does when no collaborator raises. When the user
    does not give [export_cad_to_dagmc] the only call is [export_step]. *)
Theorem export_invessel_build_calls_made X (d : loc) (dm : pydict) o
    (s : state) :
  heap s !! d = Some dm →
  invessel_build (self s) = Some o →
  makes_calls (export_invessel_build_calls (ivb_id o) dm (heap s)) s
    (export_invessel_build X (VRef d) s) ∧
  ((∀ t e, ext_raises X t e = false) →
   (export_invessel_build X (VRef d) s).1 = Ok tt) ∧
  (dm !! "export_cad_to_dagmc" = None →
   export_invessel_build_calls (ivb_id o) dm (heap s)
   = [EMethod InVesselBuild (ivb_id o) export_step
        [Kw "export_dir"
           (merged_value invessel_build_def dm "export_dir")]]) ∧
  (dm !! "export_dir" = None →
   merged_value invessel_build_def dm "export_dir" = VStr EmptyString).
Proof.
  intros Hd Ho.
  destruct (export_invessel_build_run X d dm o s Hd Ho) as [H1 H2].
  split; [done|]. split; [done|]. split; intros Hn.
  - unfold export_invessel_build_calls.
    unfold merged_value at 2. by rewrite lookup_union_r.
  - unfold merged_value. by rewrite lookup_union_r.
Qed.

(** X8. [export_magnets] on a constructed magnet set: the calls are an
    initial segment of [export_step] with [step_filename] and [export_dir]
    followed, only when [export_mesh] is true in the merged dictionary, by
    [mesh_magnets] and [export_mesh] with [mesh_filename] and [export_dir];
    they are exactly these when the method returns, which it does when no
    collaborator raises. Without [export_mesh] in the user's dictionary the
    only call is [export_step]; the file name defaults to ['magnets']. *)
Theorem export_magnets_calls_made X (d : loc) (dm : pydict) o (s : state) :
  heap s !! d = Some dm →
  magnet_set (self s) = Some o →
  makes_calls (export_magnets_calls (ms_id o) dm (heap s)) s
    (export_magnets X (VRef d) s) ∧
  ((∀ t e, ext_raises X t e = false) →
   (export_magnets X (VRef d) s).1 = Ok tt) ∧
  (dm !! "export_mesh" = None →
   export_magnets_calls (ms_id o) dm (heap s)
   = [EMethod MagnetSet (ms_id o) export_step
        [Kw "filename" (merged_value magnets_def dm "step_filename");
         Kw "export_dir" (merged_value magnets_def dm "export_dir")]]) ∧
  (dm !! "step_filename" = None →
   merged_value magnets_def dm "step_filename" = VStr "magnets").
Proof.
  intros Hd Ho.
  destruct (export_magnets_run X d dm o s Hd Ho) as [H1 H2].
  split; [done|]. split; [done|]. split; intros Hn.
  - unfold export_magnets_calls.
    unfold merged_value at 3. by rewrite lookup_union_r.
  - unfold merged_value. by rewrite lookup_union_r.
Qed.

(** X9. [export_source_mesh] on a constructed source mesh makes one call,
    [export_mesh] with the [filename] and [export_dir] of the merged
    dictionary, and returns unless that call raises; the file name defaults
    to ['source_mesh'] and the directory to the empty string. *)
Theorem export_source_mesh_calls_made X (d : loc) (dm : pydict) o
    (s : state) :
  heap s !! d = Some dm →
  source_mesh (self s) = Some o →
  makes_calls (export_source_mesh_calls (sm_id o) dm) s
    (export_source_mesh X (VRef d) s) ∧
  ((∀ t e, ext_raises X t e = false) →
   (export_source_mesh X (VRef d) s).1 = Ok tt) ∧
  (dm !! "filename" = None →
   merged_value source_def dm "filename" = VStr "source_mesh") ∧
  (dm !! "export_dir" = None →
   merged_value source_def dm "export_dir" = VStr EmptyString).
Proof.
  intros Hd Ho.
  destruct (export_source_mesh_run X d dm o s Hd Ho) as [H1 H2].
  split; [done|]. split; [done|].
  split; intros Hn; unfold merged_value; by rewrite lookup_union_r.
Qed.

(** ** Construction of the magnets, and missing keys *)

Ltac in_list :=
  repeat first [apply list_elem_of_here | apply list_elem_of_further].

Lemma construct_magnets_run X (d : loc) (dm : pydict) (s : state) :
  heap s !! d = Some dm →
  makes_calls
    (construct_magnets_calls (List.length (trace s)) dm (_logger (self s)))
    s (construct_magnets X (VRef d) s) ∧
  ((construct_magnets X (VRef d) s).1 = Ok tt →
   ms_id <$> magnet_set (self (construct_magnets X (VRef d) s).2)
   = Some (List.length (trace s))) ∧
  ((∀ t e, ext_raises X t e = false) →
   (∀ k, k ∈ magnets_required → is_Some (dm !! k)) →
   (construct_magnets X (VRef d) s).1 = Ok tt).
Proof.
  intros Hd.
  unfold makes_calls, construct_magnets_calls, merged_value,
    construct_magnets.
  change (set_magnets_dict (VRef d))
    with (set_dict magnets_def with_magnets_dict magnets_dict "magnets_dict"
            (VRef d)).
  rewrite bind_eq, (set_dict_ok _ _ _ _ d dm) by done.
  unfold get_magnets_dict, logger_getter, new_MagnetSet, ms_receiver,
    ms_invoke, ext_call.
  munfold.
  assert (∀ k (P : Prop),
            (dm ∪ magnets_def) !! k = None → k ∈ magnets_required →
            ((∀ t e, ext_raises X t e = false) →
             (∀ k, k ∈ magnets_required → is_Some (dm !! k)) → P)) as Hmiss.
  { intros k P E Hk _ Hreq. apply lookup_union_None in E as [E _].
    destruct (Hreq k Hk) as [? ?]. congruence. }
  do 4 (getitem_step
          ltac:(split; [exists []; rewrite app_nil_r;
                        split; [done|]; split; [apply prefix_nil|done]|];
                split; [done|]; eapply Hmiss; [eassumption|];
                unfold magnets_required; in_list);
        cbn [default]).
  do 3 getitem_default.
  destruct (ext_raises X (trace s) _) eqn:R1; msimpl.
  { split; [calls_fin|]. split; [done|]. intros Hq. by rewrite Hq in R1. }
  destruct (ext_ms_new X _ _) as [ids tag]; msimpl.
  destruct (ext_ms_effect X _ _ _ _) as [ids1 tag1]; msimpl.
  destruct (ext_raises X (trace s ++ _) _) eqn:R2; msimpl.
  { split; [calls_fin|]. split; [done|]. intros Hq. by rewrite Hq in R2. }
  split; [calls_fin|done].
Qed.

(** X10. [construct_magnets] on a user dictionary: in every run the calls
    are an initial segment of the constructor of [MagnetSet], with the four
    required values of the dictionary, [sample_mod], [scale], [mat_tag] and
    the stored logger, followed by [build_magnet_coils] on the new object;
    they are exactly these when the method returns, and the object is then
    stored in [magnet_set]. The method returns when no collaborator raises
    and the four required keys are given. The defaults passed to the
    constructor are [sample_mod = 1], [scale = m2cm] and
    [mat_tag = 'magnets']. *)
Theorem construct_magnets_calls_made X (d : loc) (dm : pydict) (s : state) :
  heap s !! d = Some dm →
  makes_calls
    (construct_magnets_calls (List.length (trace s)) dm (_logger (self s)))
    s (construct_magnets X (VRef d) s) ∧
  ((construct_magnets X (VRef d) s).1 = Ok tt →
   ms_id <$> magnet_set (self (construct_magnets X (VRef d) s).2)
   = Some (List.length (trace s))) ∧
  ((∀ t e, ext_raises X t e = false) →
   (∀ k, k ∈ magnets_required → is_Some (dm !! k)) →
   (construct_magnets X (VRef d) s).1 = Ok tt) ∧
  (dm !! "sample_mod" = None →
   merged_value magnets_def dm "sample_mod" = VInt 1) ∧
  (dm !! "scale" = None → merged_value magnets_def dm "scale" = m2cm) ∧
  (dm !! "mat_tag" = None →
   merged_value magnets_def dm "mat_tag" = VStr "magnets").
Proof.
  intros Hd. destruct (construct_magnets_run X d dm s Hd) as (H1 & H2 & H3).
  split; [done|]. split; [done|]. split; [done|].
  repeat split; intros Hn; unfold merged_value; by rewrite lookup_union_r.
Qed.

(** A required key is the first one that the run fails to find. *)
Ltac missing_key req :=
  match goal with
  | E : _ !! ?k = None |- _ =>
      apply lookup_union_None in E as [? ?];
      exists k; split; [unfold req; in_list|by split]
  end.

Ltac missing_none req :=
  match goal with
  | H : ∃ k, k ∈ req ∧ _ |- _ =>
      let k := fresh "k" in let Hk := fresh "Hk" in let Hn := fresh "Hn" in
      exfalso; destruct H as (k & Hk & Hn); unfold req in Hk;
      repeat (apply elem_of_cons in Hk as [->|Hk];
              [match goal with
               | E : _ !! _ = Some _ |- _ =>
                   rewrite lookup_union_r in E by exact Hn; discriminate E
               end|]);
      by apply elem_of_nil in Hk
  end.

(** X11. When the user's dictionary lacks a key that has no default,
    [construct_invessel_build], [construct_magnets] and
    [construct_source_mesh] raise the [KeyError] of a missing required key
    before any collaborator is called. *)
Theorem construct_missing_key_raises X (d : loc) (dm : pydict) (s : state) :
  heap s !! d = Some dm →
  ((∃ k, k ∈ invessel_build_required ∧ dm !! k = None) →
   stops_at_missing_key invessel_build_required dm s
     (construct_invessel_build X (VRef d) s)) ∧
  ((∃ k, k ∈ magnets_required ∧ dm !! k = None) →
   stops_at_missing_key magnets_required dm s
     (construct_magnets X (VRef d) s)) ∧
  ((∃ k, k ∈ source_required ∧ dm !! k = None) →
   stops_at_missing_key source_required dm s
     (construct_source_mesh X (VRef d) s)).
Proof.
  intros Hd. unfold stops_at_missing_key. split; [|split]; intros Hm.
  - unfold construct_invessel_build.
    change (set_invessel_build_dict (VRef d))
      with (set_dict invessel_build_def with_ivb_dict ivb_dict "ivb_dict"
              (VRef d)).
    rewrite bind_eq, (set_dict_ok _ _ _ _ d dm) by done.
    unfold get_invessel_build_dict. munfold.
    do 4 getitem_step ltac:(idtac; missing_key invessel_build_required).
    missing_none invessel_build_required.
  - unfold construct_magnets.
    change (set_magnets_dict (VRef d))
      with (set_dict magnets_def with_magnets_dict magnets_dict
              "magnets_dict" (VRef d)).
    rewrite bind_eq, (set_dict_ok _ _ _ _ d dm) by done.
    unfold get_magnets_dict. munfold.
    do 4 getitem_step ltac:(idtac; missing_key magnets_required).
    missing_none magnets_required.
  - unfold construct_source_mesh.
    change (set_source_dict (VRef d))
      with (set_dict source_def with_source_dict source_dict "source_dict"
              (VRef d)).
    rewrite bind_eq, (set_dict_ok _ _ _ _ d dm) by done.
    unfold get_source_dict. munfold.
    do 4 getitem_step ltac:(idtac; missing_key source_required).
    missing_none source_required.
Qed.

(** ** Import of the in-vessel build into Cubit *)

Lemma import_loop_ok X o done todo (s s' : state) :
  import_loop X o done todo s = (Ok tt, s') →
  invessel_build (self s)
  = Some (mkIVB (ivb_id o) (done ++ todo) (export_dir o)) →
  ∃ todo',
    invessel_build (self s')
    = Some (mkIVB (ivb_id o) (done ++ todo') (export_dir o)) ∧
    component_tag <$> todo' = component_tag <$> todo ∧
    Forall has_vol_id todo' ∧
    trace s' = trace s ++ (import_call (export_dir o) <$> todo) ∧
    magnet_set (self s') = magnet_set (self s).
Proof.
  revert done s. induction todo as [|[name data] rest IH]; intros done s H Hs.
  - injection H as <-. exists []. cbn [fmap list_fmap].
    rewrite !app_nil_r in *. by repeat split.
  - cbn [import_loop] in H.
    apply bind_ok in H as (t & s0 & [= <- <-] & H).
    apply bind_ok in H as ([] & s1 & H1 & H).
    apply ext_call_ok in H1. subst s1.
    apply bind_ok in H as ([] & s2 & [= <-] & H).
    apply IH in H as (todo' & Ho & Ht & Hv & Htr & Hm).
    + eexists (_ :: todo'). rewrite <- app_assoc in Ho. cbn [app] in Ho.
      split; [exact Ho|]. split; [by rewrite !fmap_cons, Ht|].
      split; [constructor; [by eexists|done]|].
      split; [|done].
      rewrite Htr. cbn [trace]. by rewrite <- app_assoc.
    + msimpl. by rewrite <- app_assoc.
Qed.

Lemma import_ivb_step_ok X o (s s' : state) :
  invessel_build (self s) = Some o →
  _import_ivb_step X s = (Ok tt, s') →
  ∃ rb',
    invessel_build (self s') = Some (mkIVB (ivb_id o) rb' (export_dir o)) ∧
    component_tag <$> rb' = component_tag <$> radial_build o ∧
    Forall has_vol_id rb' ∧
    trace s' = trace s ++ (import_call (export_dir o) <$> radial_build o) ∧
    magnet_set (self s') = magnet_set (self s).
Proof.
  intros Ho H. unfold _import_ivb_step in H.
  apply bind_ok in H as (st & s0 & [= <- <-] & H). rewrite Ho in H.
  apply (import_loop_ok X o [] (radial_build o)) in H; [done|].
  rewrite Ho. by destruct o.
Qed.

(** X12. When [_import_ivb_step] returns, every component of the
    in-vessel build has a volume id; the components keep their names,
    material tags and order; one [import_step_cubit] call was made per
    component, in order, with the name of the component and the export
    directory of the build; the magnet set is left alone. *)
Theorem import_ivb_step_sets_vol_ids X o (s s' : state) :
  invessel_build (self s) = Some o →
  _import_ivb_step X s = (Ok tt, s') →
  ∃ rb',
    invessel_build (self s') = Some (mkIVB (ivb_id o) rb' (export_dir o)) ∧
    component_tag <$> rb' = component_tag <$> radial_build o ∧
    Forall has_vol_id rb' ∧
    trace s' = trace s ++ (import_call (export_dir o) <$> radial_build o) ∧
    magnet_set (self s') = magnet_set (self s).
Proof. apply import_ivb_step_ok. Qed.

(** ** Tagging of the materials *)

Lemma calls_only_ret (s : state) : calls_only [] s (ret tt s).
Proof.
  split; [|split]; [|by intros e [=]|done].
  exists []. by rewrite app_nil_r.
Qed.

Lemma calls_only_ext_call X e (s : state) :
  calls_only [e] s (ext_call X e s).
Proof.
  unfold ext_call. destruct (ext_raises X (trace s) e).
  - split; [|split]; [|intros e' [= <-]; by eexists|done].
    by exists [e].
  - split; [|split]; [|by intros e' [=]|done]. by exists [e].
Qed.

Lemma calls_only_seq (m1 m2 : M unit) e1 e2 (s : state) :
  calls_only e1 s (m1 s) →
  (∀ s1, m1 s = (Ok tt, s1) → calls_only e2 s1 (m2 s1)) →
  calls_only (e1 ++ e2) s ((m1 ;; m2) s).
Proof.
  intros ((evs1 & T1 & P1 & O1) & E1 & S1) H2. rewrite bind_eq.
  destruct (m1 s) as [[[]|e] s1]; cbn [fst snd] in *.
  - destruct (H2 s1 eq_refl) as ((evs2 & T2 & P2 & O2) & E2 & S2).
    rewrite (O1 eq_refl) in T1.
    split; [|split]; [|done|congruence].
    exists (e1 ++ evs2). rewrite T2, T1, <- app_assoc.
    split; [done|]. split; [by apply prefix_app|].
    intros H. by rewrite (O2 H).
  - split; [|split]; [|done|done].
    exists evs1. split; [done|]. split; [by apply prefix_app_r|done].
Qed.

Lemma calls_only_for_each {A} (evs : A → list event) (body : A → M unit)
    (l : list A) (s : state) :
  Forall (λ x, ∀ s, calls_only (evs x) s (body x s)) l →
  calls_only (l ≫= evs) s (for_each l body s).
Proof.
  intros H. revert s. induction H as [|x l Hx _ IH]; intros s.
  - apply calls_only_ret.
  - cbn [for_each]. rewrite bind_cons.
    apply calls_only_seq; [apply Hx|]. intros s1 _. apply IH.
Qed.

Lemma calls_only_make_material_block X tag b ids (s : state) :
  calls_only (block_cmds tag b ids) s (make_material_block X tag b ids s).
Proof.
  unfold make_material_block, cubit_cmd_.
  apply (calls_only_seq _ _ [_] [_; _]); [apply calls_only_ext_call|].
  intros s1 _.
  apply (calls_only_seq _ _ [_] [_]); [apply calls_only_ext_call|].
  intros s2 _. apply calls_only_ext_call.
Qed.

Lemma calls_only_self (m : StellaratorObj → M unit) e (s : state) :
  calls_only e s (m (self s) s) →
  calls_only e s ((st ← get_self; m st) s).
Proof. done. Qed.

Lemma legacy_tagging_run X om ob (s : state) :
  magnet_set (self s) = om →
  invessel_build (self s) = ob →
  Forall has_vol_id (components ob) →
  calls_only (legacy_tag_calls om ob) s (_tag_materials_legacy X s).
Proof.
  intros Hm Hb Hv. unfold _tag_materials_legacy, legacy_tag_calls.
  apply calls_only_self. rewrite Hm.
  apply calls_only_seq.
  - destruct om as [ms|]; [apply calls_only_ext_call|apply calls_only_ret].
  - intros s1 H1. apply calls_only_self.
    assert (self s1 = self s) as ->.
    { destruct om; cbn in H1.
      - by apply ext_call_ok in H1 as ->.
      - by injection H1 as <-. }
    rewrite Hb. destruct ob as [o|]; [|apply calls_only_ret].
    apply calls_only_for_each. cbn [components] in Hv.
    eapply Forall_impl; [exact Hv|].
    intros [name [tag [v|]]] [v' Hv'] s'; [|done].
    apply calls_only_ext_call.
Qed.


Lemma native_tagging_run X om ob (s : state) :
  magnet_set (self s) = om →
  invessel_build (self s) = ob →
  Forall has_vol_id (components ob) →
  has_volumes om →
  calls_only (native_tag_calls om ob) s (_tag_materials_native X s).
Proof.
  intros Hm Hb Hv Hne.
  unfold _tag_materials_native, native_tag_calls, cubit_cmd_.
  apply (calls_only_seq _ _ [_]); [apply calls_only_ext_call|].
  intros s0 ->%ext_call_ok. apply calls_only_self. msimpl. rewrite Hm.
  apply calls_only_seq.
  + destruct om as [ms|]; [|apply calls_only_ret]. cbn [native_magnet_cmds].
    specialize (Hne ms eq_refl). unfold magnet_ids.
    destruct (volume_ids ms) as [|v vs]; [done|].
    apply calls_only_make_material_block.
  + intros s1 H1. apply calls_only_self.
    assert (self s1 = self s) as ->.
    { destruct om as [ms|]; cbn in H1.
      - specialize (Hne ms eq_refl).
        destruct (volume_ids ms) as [|v vs]; [done|].
        pose proof (calls_only_make_material_block X (mat_tag ms)
                      (list_min v vs)
                      (join " " (str_int <$> v :: vs))
                      (mkState (heap s)
                         (trace s
                          ++ [ECall cubit_cmd
                                [Pos (VStr "set duplicate block elements off")]])
                         (self s))) as (_ & _ & Hs).
        rewrite H1 in Hs. exact Hs.
      - by injection H1 as <-. }
    rewrite Hb. destruct ob as [o|]; [|apply calls_only_ret].
    apply calls_only_for_each. cbn [components] in Hv.
    eapply Forall_impl; [exact Hv|].
    intros [name [tag [v|]]] [v' Hv'] s'; [|done].
    apply calls_only_make_material_block.
Qed.



Lemma raises_after_seq (m1 m2 : M unit) e e1 e2 (s : state) :
  calls_only e1 s (m1 s) →
  (∀ s1, m1 s = (Ok tt, s1) → raises_after e e2 s1 (m2 s1)) →
  raises_after e (e1 ++ e2) s ((m1 ;; m2) s).
Proof.
  intros ((evs1 & T1 & P1 & O1) & E1 & S1) H2. rewrite bind_eq.
  destruct (m1 s) as [[[]|e'] s1]; cbn [fst snd] in *.
  - destruct (H2 s1 eq_refl) as (evs2 & T2 & P2 & O2).
    rewrite (O1 eq_refl) in T1.
    exists (e1 ++ evs2). rewrite T2, T1, <- app_assoc.
    split; [done|]. split; [by apply prefix_app|].
    destruct O2 as [[-> ->]|O2]; [by left|by right].
  - exists evs1. split; [done|]. split; [by apply prefix_app_r|].
    right. destruct (E1 e' eq_refl) as [ev ->]. by eexists.
Qed.

Lemma raises_after_for_each {A} (evs : A → list event) (body : A → M unit)
    e (pre : list A) (x : A) (post : list A) (s : state) :
  Forall (λ x, ∀ s, calls_only (evs x) s (body x s)) pre →
  (∀ s, body x s = (Raise e, s)) →
  raises_after e (pre ≫= evs) s (for_each (pre ++ x :: post) body s).
Proof.
  intros H Hx. revert s. induction H as [|y pre Hy _ IH]; intros s.
  - cbn [app for_each]. rewrite bind_eq, Hx. exists [].
    rewrite app_nil_r. split; [done|]. split; [done|]. by left.
  - cbn [app for_each]. rewrite bind_cons.
    apply raises_after_seq; [apply Hy|]. intros s1 _. apply IH.
Qed.

Lemma raises_after_self (m : StellaratorObj → M unit) e evs (s : state) :
  raises_after e evs s (m (self s) s) →
  raises_after e evs s ((st ← get_self; m st) s).
Proof. done. Qed.

Lemma tag_materials_stops X (legacy : bool) om o pre nc post
    (s : state) :
  magnet_set (self s) = om →
  invessel_build (self s) = Some o →
  radial_build o = pre ++ nc :: post →
  Forall has_vol_id pre →
  comp_vol_id nc.2 = None →
  (legacy = false → has_volumes om) →
  raises_after (KeyError "vol_id") (tag_calls_before legacy om pre) s
    (tag_materials X legacy s).
Proof.
  intros Hm Hb Hrb Hv Hnc Hne. destruct legacy; cbn [tag_calls_before tag_materials].
  - unfold _tag_materials_legacy. apply raises_after_self. rewrite Hm.
    apply raises_after_seq.
    + destruct om as [ms|]; [apply calls_only_ext_call|apply calls_only_ret].
    + intros s1 H1. apply raises_after_self.
      assert (self s1 = self s) as ->.
      { destruct om; cbn in H1.
        - by apply ext_call_ok in H1 as ->.
        - by injection H1 as <-. }
      rewrite Hb, Hrb. apply raises_after_for_each.
      * eapply Forall_impl; [exact Hv|].
        intros [name [tag [v|]]] [v' Hv'] s'; [|done].
        apply calls_only_ext_call.
      * intros s'. destruct nc as [name [tag v]]. cbn in Hnc. by subst v.
  - specialize (Hne eq_refl).
    unfold _tag_materials_native, cubit_cmd_.
    apply (raises_after_seq _ _ _ [_]); [apply calls_only_ext_call|].
    intros s0 ->%ext_call_ok. apply raises_after_self. msimpl. rewrite Hm.
    apply raises_after_seq.
    + destruct om as [ms|]; [|apply calls_only_ret]. cbn [native_magnet_cmds].
      specialize (Hne ms eq_refl). unfold magnet_ids.
      destruct (volume_ids ms) as [|v vs]; [done|].
      apply calls_only_make_material_block.
    + intros s1 H1. apply raises_after_self.
      assert (self s1 = self s) as ->.
      { destruct om as [ms|]; cbn in H1.
        - specialize (Hne ms eq_refl).
          destruct (volume_ids ms) as [|v vs]; [done|].
          pose proof (calls_only_make_material_block X (mat_tag ms)
                        (list_min v vs)
                        (join " " (str_int <$> v :: vs))
                        (mkState (heap s)
                           (trace s
                            ++ [ECall cubit_cmd
                                  [Pos (VStr "set duplicate block elements off")]])
                           (self s))) as (_ & _ & Hs).
          rewrite H1 in Hs. exact Hs.
        - by injection H1 as <-. }
      rewrite Hb, Hrb. apply raises_after_for_each.
      * eapply Forall_impl; [exact Hv|].
        intros [name [tag [v|]]] [v' Hv'] s'; [|done].
        apply calls_only_make_material_block.
      * intros s'. destruct nc as [name [tag v]]. cbn in Hnc. by subst v.
Qed.


(** X16. A magnet set without volumes: the native tagging raises
    [ValueError] (the minimum of an empty list) after its first command,
    before any material block is made, while the legacy tagging issues the
    group command of the magnets with an empty list of volumes. *)
Theorem tagging_without_magnet_volumes X ms (s : state) :
  magnet_set (self s) = Some ms →
  volume_ids ms = [] →
  ext_raises X (trace s) (cmd "set duplicate block elements off") = false →
  _tag_materials_native X s
  = (Raise ValueError,
     mkState (heap s) (trace s ++ [cmd "set duplicate block elements off"])
       (self s)) ∧
  ∃ evs,
    trace (_tag_materials_legacy X s).2
    = trace s ++ cmd (group_cmd (mat_tag ms) EmptyString) :: evs.
Proof.
  intros Hm Hv Hx. split.
  - unfold _tag_materials_native, cubit_cmd_, ext_call. rewrite bind_eq.
    unfold cmd in Hx. rewrite Hx. munfold. by rewrite Hm, Hv.
  - unfold _tag_materials_legacy, cubit_cmd_. munfold. rewrite Hm, Hv.
    cbn [fmap list_fmap join]. unfold ext_call at 1. msimpl. fold (cmd (group_cmd (mat_tag ms) EmptyString)).
    clear Hx. destruct (ext_raises X (trace s) (cmd (group_cmd _ _))).
    + by exists [].
    + msimpl. destruct (invessel_build (self s)) as [o|]; [|by exists []].
      match goal with
      | |- context [for_each ?l ?body ?s1] =>
          destruct (steps_for_each false (λ _, True) l body) with (s := s1)
            as [(evs & -> & _) _]
      end.
      * intros [name [tag [v|]]]; [by apply steps_ext_call|].
        apply steps_raise.
      * msimpl. exists evs. by rewrite <- app_assoc.
Qed.

(** ** The calls of a DAGMC export *)

Ltac msimpl_in H :=
  cbn [heap trace self fst snd
       _vmec_file _logger vmec invessel_build magnet_set source_mesh
       ivb_dict magnets_dict source_dict dagmc_export
       with_vmec_file with_logger with_vmec with_invessel_build
       with_magnet_set with_source_mesh with_ivb_dict with_magnets_dict
       with_source_dict with_dagmc_export] in H.

Lemma first_without_vol_id (l : list (string * component)) :
  Forall has_vol_id l ∨
  ∃ pre nc post,
    l = pre ++ nc :: post ∧ Forall has_vol_id pre ∧ comp_vol_id nc.2 = None.
Proof.
  induction l as [|nc l [IH|(pre & x & post & -> & Hp & Hx)]].
  - by left.
  - destruct (comp_vol_id nc.2) as [v|] eqn:E.
    + left. constructor; [by exists v|done].
    + right. by exists [], nc, l.
  - destruct (comp_vol_id nc.2) as [v|] eqn:E.
    + right. exists (nc :: pre), x, post.
      split; [done|]. split; [|done]. constructor; [by exists v|done].
    + right. by exists [], nc, (pre ++ x :: post).
Qed.

(** A tagging that returns found a volume id on every component, and
    volumes in the magnet set when it is the native one. *)
Lemma tag_materials_ok X (legacy : bool) om ob (s s2 : state) :
  magnet_set (self s) = om →
  invessel_build (self s) = ob →
  tag_materials X legacy s = (Ok tt, s2) →
  Forall has_vol_id (components ob) ∧
  trace s2 = trace s ++ tag_calls legacy om ob ∧
  self s2 = self s.
Proof.
  intros Hm Hb H.
  assert (legacy = false → has_volumes om) as Hne.
  { intros -> ms ->  Hv. cbn [tag_materials] in H.
    unfold _tag_materials_native, cubit_cmd_ in H.
    apply bind_ok in H as ([] & s0 & H0 & H).
    apply bind_ok in H as (st & s1 & [= <- <-] & H).
    apply bind_ok in H as ([] & s3 & H & _).
    apply ext_call_ok in H0. subst s0. msimpl_in H.
    by rewrite Hm, Hv in H. }
  assert (Forall has_vol_id (components ob)) as Hv.
  { destruct ob as [o|]; [|by constructor]. cbn [components].
    destruct (first_without_vol_id (radial_build o))
      as [Hv|(pre & nc & post & Hrb & Hp & Hn)]; [done|].
    destruct (tag_materials_stops X legacy om o pre nc post s Hm Hb Hrb Hp
                Hn Hne) as (evs & _ & _ & [[Hr _]|[ev Hr]]);
      rewrite H in Hr; done. }
  split; [done|].
  destruct legacy; cbn [tag_materials tag_calls] in *.
  - destruct (legacy_tagging_run X om ob s Hm Hb Hv)
      as ((evs & T & _ & O) & _ & S).
    rewrite H in T, O, S. cbn [fst snd] in *. by rewrite T, (O eq_refl).
  - destruct (native_tagging_run X om ob s Hm Hb Hv (Hne eq_refl))
      as ((evs & T & _ & O) & _ & S).
    rewrite H in T, O, S. cbn [fst snd] in *. by rewrite T, (O eq_refl).
Qed.

Lemma facet_branch_state X (dm : pydict) h (legacy : bool) (s s' : state) :
  heap s = export_heap dm h →
  facet_branch X (export_loc h) legacy s = (Ok tt, s') →
  ∃ s2, tag_materials X legacy s = (Ok tt, s2) ∧
        trace s' = trace s2 ++ [export_call dm legacy] ∧
        self s' = self s2.
Proof.
  intros Hh H. unfold facet_branch in H. destruct legacy.
  - apply bind_ok in H as ([] & s2 & Ht & H).
    exists s2. split; [done|].
    assert (heap s2 = export_heap dm h) as Hh2.
    { rewrite <- Hh. eapply steps_heap; [|exact Ht].
      apply (steps_tag_materials_legacy X true (fun _ => True)). done. }
    do 5 flag_step H Hh2.
    apply ext_call_ok in H. by rewrite H.
  - apply bind_ok in H as ([] & s2 & Ht & H).
    exists s2. split; [done|].
    assert (heap s2 = export_heap dm h) as Hh2.
    { rewrite <- Hh. eapply steps_heap; [|exact Ht].
      apply (steps_tag_materials_native X true (fun _ => True)). done. }
    do 4 flag_step H Hh2.
    apply ext_call_ok in H. by rewrite H.
Qed.

Lemma import_part_ok X (st : StellaratorObj) (s sa : state) :
  invessel_build st = invessel_build (self s) →
  import_part X st s = (Ok tt, sa) →
  trace sa = trace s ++ import_calls (invessel_build (self s)) ∧
  magnet_set (self sa) = magnet_set (self s) ∧
  Forall has_vol_id (components (invessel_build (self sa))) ∧
  component_tag <$> components (invessel_build (self sa))
  = component_tag <$> components (invessel_build (self s)) ∧
  ivb_id <$> invessel_build (self sa) = ivb_id <$> invessel_build (self s).
Proof.
  intros Hst H. unfold import_part in H. rewrite Hst in H.
  destruct (invessel_build (self s)) as [o|] eqn:Ho.
  - apply (import_ivb_step_ok X o) in H as (rb' & Hb & Ht & Hv & Htr & Hm);
      [|done].
    rewrite Hb. by repeat split.
  - injection H as <-. rewrite Ho, app_nil_r. by repeat split.
Qed.

Lemma merge_branch_ok X (skip : bool) (sa sb : state) :
  merge_branch X skip sa = (Ok tt, sb) →
  trace sb = trace sa ++ merge_calls skip (invessel_build (self sa)) ∧
  magnet_set (self sb) = magnet_set (self sa) ∧
  (if skip then is_Some (invessel_build (self sa))
   else self sb = self sa).
Proof.
  intros H. unfold merge_branch in H. destruct skip.
  - apply bind_ok in H as (o & s0 & Hr & H).
    unfold ivb_receiver in Hr.
    apply bind_ok in Hr as (st & s1 & [= <- <-] & Hr).
    destruct (invessel_build (self sa)) as [o'|] eqn:Ho; [|done].
    injection Hr as <- <-.
    unfold ivb_invoke in H.
    apply bind_ok in H as (t & s1 & [= <- <-] & H).
    destruct (ext_ivb_effect X _ _ _ _) as [rb ed].
    apply bind_ok in H as ([] & s2 & [= <-] & H).
    apply ext_call_ok in H. subst sb. msimpl. rewrite Ho. msimpl.
    by repeat split.
  - unfold cubit_cmd_ in H.
    apply bind_ok in H as ([] & s1 & H1 & H).
    apply ext_call_ok in H1. subst s1.
    apply ext_call_ok in H. subst sb. msimpl.
    rewrite <- app_assoc. by repeat split.
Qed.

(** ** The faceting strategy of a DAGMC export *)



(** ** The calls of a returning export *)

(** X17. A run of [export_dagmc] that returns made exactly these calls,
    in this order: [init_cubit], the log entry, one import per component
    of the in-vessel build, the calls of the merging selected by
    [skip_imprint], the commands of the tagging selected by
    [legacy_faceting] and the matching export call.  The tagging found a
    volume id on every component; with imprinting and merging the
    components are those of the in-vessel build, with their names, tags
    and order; skipping the imprint needs an in-vessel build. *)
Theorem export_dagmc_calls_made X (d : loc) (dm : pydict) (s s' : state) :
  heap s !! d = Some dm →
  export_dagmc X (VRef d) s = (Ok tt, s') →
  let skip := skip_flag dm (heap s) in
  let legacy := legacy_flag dm (heap s) in
  let ob := invessel_build (self s) in
  let ob' := invessel_build (self s') in
  ∃ lg,
    _logger (self s) = VLogger lg ∧
    trace s' = trace s
               ++ export_dagmc_calls lg skip legacy dm (magnet_set (self s))
                    ob ob' ∧
    Forall has_vol_id (components ob') ∧
    magnet_set (self s') = magnet_set (self s) ∧
    (if skip then is_Some ob
     else component_tag <$> components ob' = component_tag <$> components ob).
Proof.
  intros Hd E. cbv zeta.
  destruct (export_dagmc_ok X d dm s s' Hd E)
    as (lg & sa & sb & Hlg & Ha & Hb & Hf & Hha & Hhb).
  exists lg. split; [done|].
  apply import_part_ok in Ha as (Ta & Ma & Va & Ca & Ia); [|done].
  apply merge_branch_ok in Hb as (Tb & Mb & Sb).
  apply (facet_branch_state X dm (heap s)) in Hf as (s2 & Ht & Tf & Sf);
    [|done].
  apply (tag_materials_ok X _ (magnet_set (self s))
           (invessel_build (self sb))) in Ht as (Vt & Tt & St);
    [|by rewrite Mb, Ma|done].
  unfold export_start in Ta, Ma, Ca, Ia. msimpl_in Ta. msimpl_in Ma.
  msimpl_in Ca. msimpl_in Ia.
  rewrite Sf, St. split; [|split; [done|split; [by rewrite Mb, Ma|]]].
  - rewrite Tf, Tt, Tb, Ta. unfold export_dagmc_calls.
    rewrite <- !app_assoc. cbn [app]. do 4 f_equal.
    destruct (skip_flag dm (heap s)); [|done]. cbn [merge_calls].
    destruct (invessel_build (self sa)), (invessel_build (self s));
      cbn in Ia; try done.
    by injection Ia as ->.
  - destruct (skip_flag dm (heap s)).
    + destruct Sb as [o Ho]. rewrite Ho in Ia.
      destruct (invessel_build (self s)); [by eexists|done].
    + by rewrite Sb.
Qed.

(** ** The command line program on a bad input *)

(** X18. The command line program stops before any geometry is built when
    its input is bad: without a file name on the command line it ends with
    [SystemExit], and when the file cannot be loaded with the error of the
    load, in the state it started from; when the configuration names a
    VMEC file whose extension is not ['.nc'] it raises the
    [AssertionError] of the constructor, and the only call made is the
    error entry in the default log. *)
Theorem parastell_rejects_bad_input X (s : state) :
  (ext_argv_filename X = None → parastell X s = (Raise SystemExit, s)) ∧
  (∀ fn, ext_argv_filename X = Some fn →
         ext_safe_load X fn (heap s) = None →
         parastell X s = (Raise LoadError, s)) ∧
  (∀ fn v h' p b c d f,
     ext_argv_filename X = Some fn →
     ext_safe_load X fn (heap s) = Some (v, h') →
     section h' v "vmec_file" = Some (VStr p) →
     section h' v "invessel_build" = Some b →
     section h' v "magnet_coils" = Some c →
     section h' v "source_mesh" = Some d →
     section h' v "dagmc_export" = Some f →
     Path_suffix p ≠ ".nc" →
     (parastell X s).1
     = Raise (AssertionError (extension_error (Path_suffix p))) ∧
     trace (parastell X s).2
     = trace s ++ [ELog (ext_log_init X) LError
                     (extension_error (Path_suffix p))]).
Proof.
  split; [|split].
  - intros Ha. unfold parastell, parse_args. by rewrite bind_eq, Ha.
  - intros fn Ha Hl. unfold parastell, parse_args, read_yaml_config.
    rewrite bind_eq, Ha. munfold. by rewrite Hl.
  - intros fn v h' p b c d f Ha Hl H1 H2 H3 H4 H5 Hp.
    assert (parastell X s
            = (Raise (AssertionError (extension_error (Path_suffix p))),
               mkState h'
                 (trace s ++ [ELog (ext_log_init X) LError
                                (extension_error (Path_suffix p))])
                 (with_vmec_file (Some (VStr p))
                    (with_logger (VLogger (ext_log_init X)) blank))))
      as ->; [|done].
    unfold parastell, parse_args. rewrite bind_eq, Ha.
    unfold ret at 1. rewrite bind_eq.
    destruct (read_yaml_config_eq X fn s v h' Hl) as [e E].
    rewrite E, H1, H2, H3, H4, H5. rewrite bind_eq.
    destruct (Stellarator_eq X p VNone (mkState h' (trace s) (self s))
                (or_introl eq_refl)) as (lg' & Hlg & ES).
    rewrite logger_setter_eq in Hlg. cbn in Hlg. injection Hlg as <-.
    rewrite ES. cbv zeta. by rewrite bool_decide_eq_true_2.
Qed.

(** ** The further properties at concrete inputs *)

Lemma dagmc_export_defaults_merged_witness :
  heap loaded_state !! 5%positive = Some example_dagmc_export ∧
  set_get_merges set_dagmc_export get_dagmc_export dagmc_export_def
    5%positive example_dagmc_export loaded_state.
Proof.
  assert (heap loaded_state !! 5%positive = Some example_dagmc_export) as H
    by (vm_compute; exact eq_refl).
  split; [exact H|].
  exact (proj1 (dagmc_export_defaults_merged 5%positive example_dagmc_export
                  loaded_state H)).
Defined.

Lemma set_dict_starts_from_defaults_witness :
  (heap loaded_state !! 2%positive = Some example_invessel_build ∧
   heap loaded_state !! 5%positive = Some example_dagmc_export) ∧
  set_get_merges set_dagmc_export get_dagmc_export dagmc_export_def
    5%positive example_dagmc_export
    (set_dagmc_export (VRef 2) loaded_state).2.
Proof.
  assert (heap loaded_state !! 2%positive = Some example_invessel_build)
    as H1 by (vm_compute; exact eq_refl).
  assert (heap loaded_state !! 5%positive = Some example_dagmc_export) as H2
    by (vm_compute; exact eq_refl).
  split; [exact (conj H1 H2)|].
  exact (proj2 (proj2 (proj2
           (set_dict_starts_from_defaults 2%positive 5%positive
              example_invessel_build example_dagmc_export loaded_state
              H1 H2)))).
Defined.

Lemma get_dict_is_snapshot_witness :
  heap loaded_state !! 5%positive = Some example_dagmc_export ∧
  snapshot_kept set_dagmc_export get_dagmc_export (VRef 2) loaded_state
    5%positive example_dagmc_export.
Proof.
  assert (heap loaded_state !! 5%positive = Some example_dagmc_export) as H
    by (vm_compute; exact eq_refl).
  split; [exact H|].
  exact (proj2 (proj2 (proj2
           (get_dict_is_snapshot (VRef 2) loaded_state 5%positive
              example_dagmc_export H)))).
Defined.

Lemma constructor_validates_before_reading_witness :
  (Path_suffix "wout_vmec.txt" ≠ ".nc" ∧ Path_suffix "wout_vmec.nc" = ".nc") ∧
  (∃ lg',
     (Stellarator quiet_world (VStr "wout_vmec.txt") VNone initial_state).1
     = Raise (AssertionError (extension_error (Path_suffix "wout_vmec.txt")))
     ∧
     trace (Stellarator quiet_world (VStr "wout_vmec.txt") VNone
              initial_state).2
     = trace initial_state
       ++ [ELog lg' LError
             (extension_error (Path_suffix "wout_vmec.txt"))]) ∧
  trace (Stellarator quiet_world (VStr "wout_vmec.nc") VNone
           initial_state).2
  = trace initial_state ++ [ECall VMECData [Pos (VStr "wout_vmec.nc")]].
Proof.
  assert (Path_suffix "wout_vmec.txt" ≠ ".nc") as H1
    by (intros E; vm_compute in E; discriminate E).
  assert (Path_suffix "wout_vmec.nc" = ".nc") as H2
    by (vm_compute; exact eq_refl).
  split; [exact (conj H1 H2)|]. split.
  - exact (proj1 (constructor_validates_before_reading quiet_world
                    "wout_vmec.txt" VNone initial_state
                    (or_introl eq_refl)) H1).
  - exact (proj1 (proj2 (constructor_validates_before_reading quiet_world
                           "wout_vmec.nc" VNone initial_state
                           (or_introl eq_refl)) H2)).
Defined.

Lemma get_dict_before_set_raises_witness :
  Stellarator quiet_world (VStr "wout_vmec.nc") VNone initial_state
  = (Ok tt, new_instance) ∧
  get_invessel_build_dict new_instance
  = (Raise (AttributeError "ivb_dict"), new_instance) ∧
  get_dagmc_export new_instance
  = (Raise (AttributeError "dagmc_export"), new_instance).
Proof.
  assert (Stellarator quiet_world (VStr "wout_vmec.nc") VNone initial_state
          = (Ok tt, new_instance)) as H.
  { apply (pair_split (Stellarator quiet_world (VStr "wout_vmec.nc") VNone
                         initial_state)).
    vm_compute. exact eq_refl. }
  split; [exact H|].
  destruct (get_dict_before_set_raises quiet_world "wout_vmec.nc" VNone
              initial_state new_instance (or_introl eq_refl) H)
    as (Ha & _ & _ & Hd).
  exact (conj Ha Hd).
Defined.

Lemma export_before_construct_raises_witness :
  (heap magnets_only_state !! 2%positive = Some example_invessel_build ∧
   invessel_build (self magnets_only_state) = None) ∧
  (export_invessel_build quiet_world (VRef 2) magnets_only_state).1
  = Raise (AttributeError "export_step") ∧
  trace (export_invessel_build quiet_world (VRef 2) magnets_only_state).2
  = trace magnets_only_state.
Proof.
  assert (heap magnets_only_state !! 2%positive
          = Some example_invessel_build) as H
    by (vm_compute; exact eq_refl).
  split; [exact (conj H eq_refl)|].
  exact (proj1 (export_before_construct_raises quiet_world 2%positive
                  example_invessel_build magnets_only_state H) eq_refl).
Defined.

Lemma export_invessel_build_calls_made_witness :
  (heap before_export !! 2%positive = Some example_invessel_build ∧
   invessel_build (self before_export) = Some example_build) ∧
  makes_calls
    (export_invessel_build_calls 1 example_invessel_build
       (heap before_export))
    before_export
    (export_invessel_build quiet_world (VRef 2) before_export) ∧
  (export_invessel_build quiet_world (VRef 2) before_export).1 = Ok tt.
Proof.
  assert (heap before_export !! 2%positive = Some example_invessel_build)
    as H by (vm_compute; exact eq_refl).
  assert (invessel_build (self before_export) = Some example_build) as Ho
    by (vm_compute; exact eq_refl).
  split; [exact (conj H Ho)|].
  destruct (export_invessel_build_calls_made quiet_world 2%positive
              example_invessel_build example_build before_export H Ho)
    as (Ha & Hb & _).
  exact (conj Ha (Hb (fun _ _ => eq_refl))).
Defined.

Lemma export_magnets_calls_made_witness :
  (heap magnets_only_state !! 3%positive = Some example_magnets ∧
   magnet_set (self magnets_only_state) = Some (mkMS 1 [3; 4] "magnets")) ∧
  makes_calls
    (export_magnets_calls 1 example_magnets (heap magnets_only_state))
    magnets_only_state
    (export_magnets quiet_world (VRef 3) magnets_only_state) ∧
  (export_magnets quiet_world (VRef 3) magnets_only_state).1 = Ok tt.
Proof.
  assert (heap magnets_only_state !! 3%positive = Some example_magnets)
    as H by (vm_compute; exact eq_refl).
  split; [exact (conj H eq_refl)|].
  destruct (export_magnets_calls_made quiet_world 3%positive
              example_magnets (mkMS 1 [3; 4] "magnets") magnets_only_state
              H eq_refl) as (Ha & Hb & _).
  exact (conj Ha (Hb (fun _ _ => eq_refl))).
Defined.

Lemma export_source_mesh_calls_made_witness :
  (heap before_export !! 4%positive = Some example_source ∧
   source_mesh (self before_export) = Some example_mesh) ∧
  makes_calls (export_source_mesh_calls 9 example_source) before_export
    (export_source_mesh quiet_world (VRef 4) before_export) ∧
  (export_source_mesh quiet_world (VRef 4) before_export).1 = Ok tt.
Proof.
  assert (heap before_export !! 4%positive = Some example_source)
    as H by (vm_compute; exact eq_refl).
  assert (source_mesh (self before_export) = Some example_mesh) as Ho
    by (vm_compute; exact eq_refl).
  split; [exact (conj H Ho)|].
  destruct (export_source_mesh_calls_made quiet_world 4%positive
              example_source example_mesh before_export H Ho)
    as (Ha & Hb & _).
  exact (conj Ha (Hb (fun _ _ => eq_refl))).
Defined.

Lemma construct_magnets_calls_made_witness :
  heap loaded_state !! 3%positive = Some example_magnets ∧
  makes_calls
    (construct_magnets_calls (List.length (trace loaded_state))
       example_magnets (_logger (self loaded_state)))
    loaded_state (construct_magnets quiet_world (VRef 3) loaded_state) ∧
  (construct_magnets quiet_world (VRef 3) loaded_state).1 = Ok tt.
Proof.
  assert (heap loaded_state !! 3%positive = Some example_magnets)
    as H by (vm_compute; exact eq_refl).
  assert (∀ k, k ∈ magnets_required → is_Some (example_magnets !! k)) as Hk.
  { intros k Hk. unfold magnets_required in Hk.
    repeat (apply elem_of_cons in Hk as [->|Hk];
            [eexists; vm_compute; exact eq_refl|]).
    by apply elem_of_nil in Hk. }
  split; [exact H|].
  destruct (construct_magnets_calls_made quiet_world 3%positive
              example_magnets loaded_state H) as (Ha & _ & Hb & _).
  exact (conj Ha (Hb (fun _ _ => eq_refl) Hk)).
Defined.

Lemma construct_missing_key_raises_witness :
  (heap loaded_state !! 5%positive = Some example_dagmc_export ∧
   ∃ k, k ∈ magnets_required ∧ example_dagmc_export !! k = None) ∧
  stops_at_missing_key magnets_required example_dagmc_export loaded_state
    (construct_magnets quiet_world (VRef 5) loaded_state).
Proof.
  assert (heap loaded_state !! 5%positive = Some example_dagmc_export)
    as H by (vm_compute; exact eq_refl).
  assert (∃ k, k ∈ magnets_required ∧ example_dagmc_export !! k = None)
    as Hk.
  { exists "coils_file_path". split; [apply list_elem_of_here|].
    vm_compute. exact eq_refl. }
  split; [exact (conj H Hk)|].
  exact (proj1 (proj2 (construct_missing_key_raises quiet_world 5%positive
                         example_dagmc_export loaded_state H)) Hk).
Defined.

Lemma import_ivb_step_sets_vol_ids_witness :
  (invessel_build (self before_export) = Some example_build ∧
   _import_ivb_step quiet_world before_export = (Ok tt, imported_state)) ∧
  ∃ rb',
    invessel_build (self imported_state)
    = Some (mkIVB 1 rb' (VStr EmptyString)) ∧
    component_tag <$> rb' = component_tag <$> radial_build example_build ∧
    Forall has_vol_id rb' ∧
    trace imported_state
    = trace before_export
      ++ (import_call (VStr EmptyString) <$> radial_build example_build) ∧
    magnet_set (self imported_state) = magnet_set (self before_export).
Proof.
  assert (invessel_build (self before_export) = Some example_build) as Ho
    by (vm_compute; exact eq_refl).
  assert (_import_ivb_step quiet_world before_export
          = (Ok tt, imported_state)) as H.
  { apply (pair_split (_import_ivb_step quiet_world before_export)).
    vm_compute. exact eq_refl. }
  split; [exact (conj Ho H)|].
  exact (import_ivb_step_sets_vol_ids quiet_world example_build
           before_export imported_state Ho H).
Defined.




Lemma tagging_without_magnet_volumes_witness :
  (magnet_set (self no_volumes_state) = Some no_volumes ∧
   volume_ids no_volumes = []) ∧
  _tag_materials_native quiet_world no_volumes_state
  = (Raise ValueError,
     mkState (heap no_volumes_state)
       (trace no_volumes_state ++ [cmd "set duplicate block elements off"])
       (self no_volumes_state)).
Proof.
  split; [exact (conj eq_refl eq_refl)|].
  exact (proj1 (tagging_without_magnet_volumes quiet_world no_volumes
                  no_volumes_state eq_refl eq_refl eq_refl)).
Defined.

Lemma export_dagmc_calls_made_witness :
  (heap before_export !! 5%positive = Some example_dagmc_export ∧
   export_dagmc quiet_world (VRef 5) before_export
   = (Ok tt, exported_state)) ∧
  ∃ lg,
    _logger (self before_export) = VLogger lg ∧
    trace exported_state
    = trace before_export
      ++ export_dagmc_calls lg
           (skip_flag example_dagmc_export (heap before_export))
           (legacy_flag example_dagmc_export (heap before_export))
           example_dagmc_export (magnet_set (self before_export))
           (invessel_build (self before_export))
           (invessel_build (self exported_state)) ∧
    Forall has_vol_id (components (invessel_build (self exported_state))).
Proof.
  assert (heap before_export !! 5%positive = Some example_dagmc_export) as H
    by (vm_compute; exact eq_refl).
  assert (export_dagmc quiet_world (VRef 5) before_export
          = (Ok tt, exported_state)) as E.
  { apply (pair_split (export_dagmc quiet_world (VRef 5) before_export)).
    vm_compute. exact eq_refl. }
  split; [exact (conj H E)|].
  destruct (export_dagmc_calls_made quiet_world 5%positive
              example_dagmc_export before_export exported_state H E)
    as (lg & Ha & Hb & Hc & _).
  exact (ex_intro _ lg (conj Ha (conj Hb Hc))).
Defined.

Lemma parastell_rejects_bad_input_witness :
  (ext_argv_filename text_world = Some "config.yaml" ∧
   ext_safe_load text_world "config.yaml" (heap initial_state)
   = Some (VRef 1, text_yaml ∪ heap initial_state) ∧
   section (text_yaml ∪ heap initial_state) (VRef 1) "vmec_file"
   = Some (VStr "wout_vmec.txt") ∧
   Path_suffix "wout_vmec.txt" ≠ ".nc") ∧
  (parastell text_world initial_state).1
  = Raise (AssertionError (extension_error (Path_suffix "wout_vmec.txt"))) ∧
  trace (parastell text_world initial_state).2
  = trace initial_state
    ++ [ELog (ext_log_init text_world) LError
          (extension_error (Path_suffix "wout_vmec.txt"))].
Proof.
  assert (section (text_yaml ∪ heap initial_state) (VRef 1) "vmec_file"
          = Some (VStr "wout_vmec.txt")) as H1
    by (vm_compute; exact eq_refl).
  assert (section (text_yaml ∪ heap initial_state) (VRef 1) "invessel_build"
          = Some (VRef 2)) as H2 by (vm_compute; exact eq_refl).
  assert (section (text_yaml ∪ heap initial_state) (VRef 1) "magnet_coils"
          = Some (VRef 3)) as H3 by (vm_compute; exact eq_refl).
  assert (section (text_yaml ∪ heap initial_state) (VRef 1) "source_mesh"
          = Some (VRef 4)) as H4 by (vm_compute; exact eq_refl).
  assert (section (text_yaml ∪ heap initial_state) (VRef 1) "dagmc_export"
          = Some (VRef 5)) as H5 by (vm_compute; exact eq_refl).
  assert (Path_suffix "wout_vmec.txt" ≠ ".nc") as Hp
    by (intros E; vm_compute in E; discriminate E).
  split; [exact (conj eq_refl (conj eq_refl (conj H1 Hp)))|].
  exact (proj2 (proj2 (parastell_rejects_bad_input text_world initial_state))
           "config.yaml" (VRef 1) (text_yaml ∪ heap initial_state)
           "wout_vmec.txt" (VRef 2) (VRef 3) (VRef 4) (VRef 5)
           eq_refl eq_refl H1 H2 H3 H4 H5 Hp).
Defined.

